(** * ArchAI Studio: masked-edit pipeline, retry wrapper and undo history

    A shallow embedding of the TypeScript sources
      - [src/types.ts], [constants.ts]
      - [src/App.tsx]                    (session controller, undo history)
      - [components/EnhanceTab.tsx]      (mask capture, submit, uploads, refinement)
      - [components/CreateTab.tsx]       (refinement)
      - [components/ImageUpload.tsx]     (the upload widget's file handler)
      - [src/services/geminiService.ts]  (provider variant A)
      - [src/services/openaiService.ts]  (provider variant B)
      - [firebase.ts]                    (what the module exports once loaded)
    followed by the properties checked against them.

    Conventions.  A nullable reference [T | null] is [option T]; a JS
    string is a [string], one character per UTF-16 code unit, so the
    strings of the model are those whose code units lie below 256; a
    JS number that the code only uses as an integer is a [Z]; array
    lengths and indices are [nat].  React state
    is a record and every handler is a function on that record: one
    handler runs per render, so the values captured by its closure are
    the fields of the state it is applied to. *)

From Stdlib Require Import ZArith List String Ascii Bool Lia DecimalString.
From stdpp Require Import base list.
From Equations Require Import Equations.
Import ListNotations.

Local Open Scope string_scope.
Local Open Scope Z_scope.

(** ** [src/types.ts] *)

Module Types.

Record ImageFile := {
  base64   : string;
  mimeType : string;
  name     : string
}.

Inductive OutputType := create | enhance.

Record GeneratedOutput := {
  type         : OutputType;
  prompt       : string;
  style        : string;
  resolution   : option string;
  inputImage   : option string;
  outputImage  : string;
  overlayImage : option string;
  maskImage    : option string;
  intensity    : option Z
}.

End Types.

(** JavaScript truthiness of the values the code tests. *)
Module Truthy.

Definition str (s : string) : bool :=
  match s with EmptyString => false | _ => true end.

Definition opt_str (s : option string) : bool :=
  match s with Some s => str s | None => false end.

Definition num (n : Z) : bool := negb (n =? 0).

End Truthy.

(** ** [constants.ts] *)

Module Constants.

Definition ENHANCE_STYLE_OPTIONS : list (string * string) :=
  [ ("Standard Clarity", "Apply standard photorealistic clarity and sharpness.");
    ("Golden Hour", "Bathe the scene in warm, golden hour light with long, soft shadows.");
    ("Twilight", "Create a cool, moody twilight atmosphere with artificial lights on.");
    ("Diffuse Light", "Simulate an overcast day with soft, diffuse lighting and minimal shadows.");
    ("Dramatic Night", "Transform the scene to a dramatic night view with strategic architectural lighting and deep shadows.");
    ("Morning Fog", "Envelop the scene in a soft, ethereal morning fog, with light filtering through.");
    ("Rainy Day", "Create a moody, atmospheric rainy day scene with wet, reflective surfaces and soft light.");
    ("Winter Snow", "Cover the scene in a peaceful blanket of fresh snow under a soft winter light.");
    ("Cinematic Contrast", "Add high-contrast, cinematic lighting with a slightly desaturated, filmic look.");
    ("Film Sims: Classic Chrome", "Emulate a classic chrome film stock with muted tones and high contrast.");
    ("Film Sims: Portra 400", "Emulate a Portra 400 film stock with warm tones and natural skin rendering.");
    ("Film Sims: Cinestill 800T", "Emulate a Cinestill 800T film stock, perfect for night scenes with halation effects on lights.");
    ("Pro Corrections: HDR", "Apply High Dynamic Range correction to balance highlights and shadows.");
    ("Pro Corrections: B&W", "Convert to a dramatic, high-contrast black and white architectural photograph.");
    ("Pro Corrections: Vibrant Clarity", "Boost vibrancy and local contrast for a punchy, clear image.");
    ("Pro Corrections: Soft Dreamy", "Add a soft, dreamy, slightly overexposed glow to the image.");
    ("Pro Corrections: Architectural Digest", "Give the image a polished, high-end look suitable for an Architectural Digest cover, with perfect lighting and composition.");
    ("Artistic Styles: Blueprint", "Render the image in a technical blueprint style.");
    ("Artistic Styles: Watercolor", "Transform the image into an artistic watercolor painting.");
    ("Artistic Styles: Oil Painting", "Transform the image into a textured oil painting.");
    ("Artistic Styles: Clay Model", "Render the image as a monochromatic clay model to emphasize form and shadow.");
    ("Artistic Styles: Line Drawing", "Overlay a clean, technical line drawing style on top of the rendering.") ].

Definition MAX_UNDO_STEPS : nat := 10.

(** [ENHANCE_STYLE_OPTIONS[key]]: the value under an own key, or
    [undefined]. *)
Fixpoint get (table : list (string * string)) (key : string) : option string :=
  match table with
  | [] => None
  | (k, v) :: rest => if String.eqb k key then Some v else get rest key
  end.

(** [Object.keys(ENHANCE_STYLE_OPTIONS)] *)
Definition keys (table : list (string * string)) : list string := map fst table.

End Constants.

(** ** The JavaScript values and built-ins the services rely on *)

Module Js.

(** Template-literal concatenation. *)
Notation "a +++ b" := (String.append a b) (at level 60, right associativity).

(** The double-quote character, for the quotes inside prompt texts. *)
Definition dq : string := String (ascii_of_nat 34) EmptyString.

(** Decimal rendering of an integer-valued number, as [`${n}`] does
    for an integer of magnitude below 10^21; from there on JS prints
    an exponent, which the numbers rendered here (intensities, attempt
    counts and delays of the calls the code makes) never reach. *)
Definition showZ (n : Z) : string := NilZero.string_of_int (Z.to_int n).

(** Thrown values.  [Error] is what the code itself raises with
    [new Error(message)]; [TypeError] and [SyntaxError] are raised by
    the engine (property access on [null]/[undefined], a call of a
    non-function, [JSON.parse]).  All three are instances of [Error]
    and carry a message. *)
Inductive Exn :=
| Error (message : string)
| TypeError (message : string)
| SyntaxError (message : string).

Definition message (e : Exn) : string :=
  match e with Error m | TypeError m | SyntaxError m => m end.

Inductive Result (A : Type) :=
| Ok (a : A)
| Throw (e : Exn).
Arguments Ok {A} a.
Arguments Throw {A} e.

(** Values obtained from parsed JSON.  Numbers are kept as integers:
    the code never computes with a number it received. *)
#[local] Unset Elimination Schemes.
Inductive Json :=
| JNull
| JBool (b : bool)
| JNum (n : Z)
| JStr (s : string)
| JArr (items : list Json)
| JObj (fields : list (string * Json)).
#[local] Set Elimination Schemes.

(** A JS value that may also be [undefined] ([None]). *)
Definition Value := option Json.

Fixpoint field (fields : list (string * Json)) (key : string) : Value :=
  match fields with
  | [] => None
  | (k, v) :: rest => if String.eqb k key then Some v else field rest key
  end.

(** [v.key] for the keys the code reads ([choices], [message],
    [content], [suggestions], [error], [data], [b64_json]): none of
    them is a built-in property of a string, number, boolean or array. *)
Definition getProp (v : Value) (key : string) : Result Value :=
  match v with
  | None => Throw (TypeError ("Cannot read properties of undefined (reading '" +++ key +++ "')"))
  | Some JNull => Throw (TypeError ("Cannot read properties of null (reading '" +++ key +++ "')"))
  | Some (JObj fields) => Ok (field fields key)
  | Some _ => Ok None
  end.

(** [v?.key] *)
Definition getPropOpt (v : Value) (key : string) : Value :=
  match v with
  | Some (JObj fields) => field fields key
  | _ => None
  end.

(** [v[0]] *)
Definition getIndex0 (v : Value) : Result Value :=
  match v with
  | None => Throw (TypeError "Cannot read properties of undefined (reading '0')")
  | Some JNull => Throw (TypeError "Cannot read properties of null (reading '0')")
  | Some (JArr items) => Ok (head items)
  | Some (JStr (String c _)) => Ok (Some (JStr (String c EmptyString)))
  | Some (JObj fields) => Ok (field fields "0")
  | Some _ => Ok None
  end.

Definition truthy (v : Value) : bool :=
  match v with
  | None | Some JNull => false
  | Some (JBool b) => b
  | Some (JNum n) => negb (n =? 0)
  | Some (JStr s) => Truthy.str s
  | Some (JArr _) | Some (JObj _) => true
  end.

(** [String(v)], as a template literal or [JSON.parse] applies it. *)
Fixpoint toStringJ (j : Json) : string :=
  match j with
  | JNull => "null"
  | JBool true => "true"
  | JBool false => "false"
  | JNum n => showZ n
  | JStr s => s
  | JArr items =>
      (fix join (l : list Json) : string :=
         match l with
         | [] => ""
         | x :: rest =>
             let sx := match x with JNull => "" | _ => toStringJ x end in
             match rest with
             | [] => sx
             | _ => sx +++ "," +++ join rest
             end
         end) items
  | JObj _ => "[object Object]"
  end.

Definition toString (v : Value) : string :=
  match v with None => "undefined" | Some j => toStringJ j end.

(** [String.prototype.trim] strips the code units that ECMAScript
    counts as white space or as line terminators.  Below 256 these
    are tab (9), line feed (10), vertical tab (11), form feed (12),
    carriage return (13), space (32) and the no-break space (160);
    the others (U+1680, U+2000 to U+200A, U+2028, U+2029, U+202F,
    U+205F, U+3000, U+FEFF) lie outside the strings of the model. *)
Definition isSpace (c : ascii) : bool :=
  let n := nat_of_ascii c in
  ((9 <=? n) && (n <=? 13) || (n =? 32) || (n =? 160))%nat.

Fixpoint trimStart (s : string) : string :=
  match s with
  | String c rest => if isSpace c then trimStart rest else s
  | EmptyString => EmptyString
  end.

Fixpoint trimEnd (s : string) : string :=
  match s with
  | String c rest =>
      match trimEnd rest with
      | EmptyString => if isSpace c then EmptyString else String c EmptyString
      | rest' => String c rest'
      end
  | EmptyString => EmptyString
  end.

Definition trim (s : string) : string := trimEnd (trimStart s).

(** [v.trim()] on a value that need not be a string. *)
Definition callTrim (v : Value) : Result string :=
  match v with
  | Some (JStr s) => Ok (trim s)
  | None => Throw (TypeError "Cannot read properties of undefined (reading 'trim')")
  | Some JNull => Throw (TypeError "Cannot read properties of null (reading 'trim')")
  | Some _ => Throw (TypeError "content.trim is not a function")
  end.

End Js.

(** ** What goes over the wire to the two providers, and what comes back *)

Module Wire.

Import Js.

(** *** Provider A: the [@google/genai] client *)

Inductive Part :=
| text (t : string)
| inlineData (data : string) (mimeType : string).

Inductive Contents :=
| ContentString (s : string)
| ContentParts (parts : list Part).

#[local] Unset Elimination Schemes.
Inductive Schema :=
| TypeOBJECT (properties : list (string * Schema)) (required : list string)
| TypeARRAY (description : string) (items : Schema)
| TypeSTRING.
#[local] Set Elimination Schemes.

Inductive Modality := IMAGE.

Record Config := {
  responseMimeType   : option string;
  responseSchema     : option Schema;
  responseModalities : list Modality
}.

Record GenerateContentParameters := {
  apiKey   : string;            (* the key the client [ai] was built with *)
  model    : string;
  contents : Contents;
  config   : Config
}.

(** The two accessors of [GenerateContentResponse] that the service
    reads: [response.text] and the parts of each candidate's content. *)
Record GenerateContentResponse := {
  response_text : option string;
  candidates    : list (list Part)
}.

(** [response.candidates?.[0]?.content?.parts?.[0]] *)
Definition firstPart (r : GenerateContentResponse) : option Part :=
  match candidates r with
  | parts :: _ => head parts
  | [] => None
  end.

(** *** Provider B: [fetch] against the REST endpoints *)

Record Blob := { bytes : string; blobType : string }.

Inductive FormValue :=
| FormText (s : string)
| FormFile (b : Blob) (filename : string).

Record ChatBody := {
  chat_model           : string;
  chat_messages        : list (string * string);   (* role, content *)
  chat_response_format : string;                   (* { type: ... } *)
  chat_n               : Z;
  chat_temperature     : string                    (* the literal *)
}.

Record ImageGenBody := {
  gen_model           : string;
  gen_prompt          : string;
  gen_n               : Z;
  gen_size            : string;
  gen_response_format : string;
  gen_quality         : string;
  gen_style           : string
}.

Inductive Body :=
| BodyChat (b : ChatBody)                          (* JSON.stringify(...) *)
| BodyImageGen (b : ImageGenBody)                  (* JSON.stringify(...) *)
| BodyForm (entries : list (string * FormValue)).  (* FormData *)

Record HttpRequest := {
  url     : string;
  method  : string;
  headers : list (string * string);
  body    : Body
}.

(** A [Response]: its [ok] flag, its [statusText], and what
    [await response.json()] yields (it rejects on a body that is not
    JSON). *)
Record HttpResponse := {
  ok         : bool;
  statusText : string;
  json       : Result Json
}.

End Wire.

(** ** Effects: the remote providers, timers and the console

    An asynchronous function is a state transformer on a [World] that
    may end in a thrown value.  The world holds what the [k]-th remote
    call of each provider will answer (a rejection or a response) and
    the trace of the effects performed so far. *)

Module Effects.

Import Js Wire.

Inductive Level := Log | Warn | Err.

Inductive Event :=
| EGenerateContent (req : GenerateContentParameters)   (* ai.models.generateContent *)
| EFetch (req : HttpRequest)                            (* fetch(url, init) *)
| EDelay (ms : Z)                                       (* await delay(ms) *)
| ETimeout (ms : Z)                                     (* setTimeout(_, ms) fired *)
| EConsole (level : Level) (line : string).

Record World := {
  genai  : nat -> Result GenerateContentResponse;
  http   : nat -> Result HttpResponse;
  trace  : list Event
}.

Definition M (A : Type) : Type := World -> Result A * World.

Definition ret {A} (a : A) : M A := fun w => (Ok a, w).
Definition throw {A} (e : Exn) : M A := fun w => (Throw e, w).

Definition bind {A B} (m : M A) (k : A -> M B) : M B :=
  fun w => match m w with
           | (Ok a, w') => k a w'
           | (Throw e, w') => (Throw e, w')
           end.

(** [try { m } catch (e) { h(e) }] *)
Definition try_catch {A} (m : M A) (h : Exn -> M A) : M A :=
  fun w => match m w with
           | (Ok a, w') => (Ok a, w')
           | (Throw e, w') => h e w'
           end.

(** Lift a pure computation that may throw. *)
Definition lift {A} (r : Result A) : M A := fun w => (r, w).

Declare Scope M_scope.
Delimit Scope M_scope with M.
Notation "'let!' x ':=' m 'in' k" := (bind m (fun x => k))
  (at level 10, x name, m at level 100, k at level 200) : M_scope.

(** The world with further events at the end of its trace. *)
Definition record (w : World) (events : list Event) : World :=
  {| genai := genai w; http := http w; trace := trace w ++ events |}.

Definition emit (e : Event) : M unit := fun w => (Ok tt, record w [e]).

Definition console (level : Level) (line : string) : M unit :=
  emit (EConsole level line).

(** [await delay(ms)] *)
Definition delay (ms : Z) : M unit := emit (EDelay ms).

Definition isGenerateContent (e : Event) : bool :=
  match e with EGenerateContent _ => true | _ => false end.
Definition isFetch (e : Event) : bool :=
  match e with EFetch _ => true | _ => false end.

(** [ai.models.generateContent(req)]: the answer is the one the world
    holds for this call, counted among the calls made so far. *)
Definition generateContent (req : GenerateContentParameters) : M GenerateContentResponse :=
  fun w =>
    let k := length (List.filter isGenerateContent (trace w)) in
    (genai w k, record w [EGenerateContent req]).

(** [fetch(url, init)] *)
Definition fetch (req : HttpRequest) : M HttpResponse :=
  fun w =>
    let k := length (List.filter isFetch (trace w)) in
    (http w k, record w [EFetch req]).

(** The waits recorded in a trace. *)
Definition delays (t : list Event) : list Z :=
  flat_map (fun e => match e with EDelay ms => [ms] | _ => [] end) t.

(** The world after the two statements that separate two attempts:
    [console.log(line)] and [await delay(ms)]. *)
Definition backoff (line : string) (ms : Z) (w : World) : World :=
  snd (delay ms (snd (console Log line w))).

(** *** [withRetry]

    Both services carry the same text; only the console line and the
    message of the error after the loop differ.  The loop
    [while (attempt < retries)] terminates because every iteration
    that does not leave the function increments [attempt]. *)
Section WithRetry.

Context {T : Type}.
Variable retryLine : Z -> Z -> string.   (* the console.log line *)
Variable exceeded : string.              (* the message after the loop *)

Equations? withRetry_loop (fn : M T) (retries initialDelay attempt : Z) (w : World)
  : Result T * World by wf (Z.to_nat (retries - attempt)) lt :=
withRetry_loop fn retries initialDelay attempt w with Z_lt_dec attempt retries := {
  | right _ => (Throw (Error exceeded), w)
  | left _ with fn w := {
      | (Ok a, w1) => (Ok a, w1)
      | (Throw error, w1) with Z_ge_dec (attempt + 1) retries := {
          | left _ => (Throw error, w1)
          | right _ =>
              let ms := initialDelay * 2 ^ (attempt + 1 - 1) in
              withRetry_loop fn retries initialDelay (attempt + 1)
                (backoff (retryLine (attempt + 1) ms) ms w1) } } }.
Proof. lia. Qed.

Definition withRetry_with (fn : M T) (retries initialDelay : Z) : M T :=
  withRetry_loop fn retries initialDelay 0.

End WithRetry.

End Effects.

(** ** The environment: [process.env] and the engine's built-ins

    [JSON.parse] and [atob] belong to the JavaScript engine; the
    services are read for every behaviour these two may have. *)

Record ProcessEnv := {
  env_API_KEY        : option string;
  env_OPENAI_API_KEY : option string
}.

Record Builtins := {
  JSON_parse : string -> Js.Result Js.Json;
  atob       : string -> Js.Result string
}.

(** ** [src/services/geminiService.ts] *)

Module geminiService.

Import Types Js Wire Effects.
Local Open Scope M_scope.

Section Service.

Variable env : ProcessEnv.
Variable engine : Builtins.

(** [process.env.API_KEY || ""] *)
Definition API_KEY : string :=
  match env_API_KEY env with
  | Some key => if Truthy.str key then key else ""
  | None => ""
  end.

(** The statement run when the module is loaded. *)
Definition onLoad : M unit :=
  if negb (Truthy.str API_KEY)
  then console Warn "API_KEY environment variable not set. Using an empty key."
  else ret tt.

(** [ai.models.generateContent] of the client built with
    [new GoogleGenAI({ apiKey: API_KEY })]. *)
Definition ai_generateContent (model : string) (contents : Contents) (config : Config)
  : M GenerateContentResponse :=
  generateContent {| apiKey := API_KEY; model := model;
                     contents := contents; config := config |}.

Definition fileToGenerativePart (file : ImageFile) : Part :=
  inlineData (base64 file) (mimeType file).

Definition withRetry {T} (fn : M T) (retries initialDelay : Z) : M T :=
  withRetry_with
    (fun attempt ms =>
       "Attempt " +++ showZ attempt +++ " failed. Retrying in " +++ showZ ms +++ "ms...")
    "Exceeded max retries" fn retries initialDelay.

Definition styleInstruction (context : string) : string :=
  if String.eqb context "No predefined style"
  then "Based on the user's prompt, feel free to suggest appropriate and creative architectural styles."
  else "Incorporate the style: " +++ dq +++ context +++ dq +++ ".".

Definition fullPrompt (prompt context : string) : string :=
  "You are an expert architectural visualization assistant. Your task is to refine a user's prompt to be more descriptive and evocative for an AI image generator.
" +++ styleInstruction context +++ "
User prompt: " +++ dq +++ prompt +++ dq +++ "
Please provide 3 distinct, creative, and detailed suggestions.".

Definition suggestionsConfig : Config :=
  {| responseMimeType := Some "application/json";
     responseSchema :=
       Some (TypeOBJECT
               [("suggestions",
                 TypeARRAY "A list of 3 refined prompt suggestions." TypeSTRING)]
               ["suggestions"]);
     responseModalities := [] |}.

Definition imageConfig : Config :=
  {| responseMimeType := None; responseSchema := None;
     responseModalities := [IMAGE] |}.

(** [response.text] as a JS value. *)
Definition textValue (response : GenerateContentResponse) : Value :=
  match response_text response with
  | Some t => Some (JStr t)
  | None => None
  end.

(** The arrow function handed to [withRetry] by [refineTextPrompt]. *)
Definition refineCall (prompt context : string) : M GenerateContentResponse :=
  ai_generateContent "gemini-2.5-flash"
    (ContentString (fullPrompt prompt context)) suggestionsConfig.

Definition refineTextPrompt (prompt context : string) : M (list Json) :=
  let! response := withRetry (refineCall prompt context) 3 1000 in
  try_catch
    (let! jsonResponse := lift (JSON_parse engine (toString (textValue response))) in
     let! suggestions := lift (getProp (Some jsonResponse) "suggestions") in
     match suggestions with
     | Some (JArr items) =>
         if (0 <? length items)%nat then ret (firstn 3 items)
         else
           let! _ := console Warn "Could not parse suggestions from Gemini, returning raw text." in
           let! t := lift (callTrim (textValue response)) in
           ret [JStr t]
     | _ =>
         let! _ := console Warn "Could not parse suggestions from Gemini, returning raw text." in
         let! t := lift (callTrim (textValue response)) in
         ret [JStr t]
     end)
    (fun e =>
       let! _ := console Err ("Failed to parse suggestions from Gemini: " +++ message e) in
       let! t := lift (callTrim (textValue response)) in
       ret [JStr t]).

Definition noImage : Exn :=
  Error "No image data received from API. The request may have been blocked due to safety policies.".

(** The tail shared by [generateImageFromText] and [editImage]. *)
Definition imageOf (response : GenerateContentResponse) : M string :=
  match firstPart response with
  | Some (inlineData data _) => ret data
  | _ => throw noImage
  end.

(** The arrow function handed to [withRetry] by both image
    operations, for the given [parts]. *)
Definition imageCall (parts : list Part) : M GenerateContentResponse :=
  ai_generateContent "gemini-2.5-flash-image" (ContentParts parts) imageConfig.

Definition generateImageFromText (prompt : string) : M string :=
  let! response := withRetry (imageCall [text prompt]) 3 1000 in
  imageOf response.

Definition maskedIntro : string :=
  "You are a precise in-painting AI assistant. Your task is to edit an image only within a specified area defined by a mask.
- You will be given a base image and a corresponding mask image.
- The mask image is black and white. You MUST ONLY edit the pixels in the base image that correspond to the WHITE areas in the mask.
- The BLACK areas of the mask indicate parts of the image that MUST NOT be changed under any circumstances.
- You will then be given a text prompt describing the change to make.

Here is the base image:".

(** The [parts] array that [editImage] fills before the call. *)
Definition editParts (baseImage : ImageFile) (prompt : string)
    (overlayImage : option ImageFile) (intensity : option Z)
    (maskImage : option ImageFile) : list Part :=
  match maskImage with
  | Some maskImage =>
      [ text maskedIntro;
        fileToGenerativePart baseImage;
        text "And here is the mask. Remember: ONLY edit the white areas.";
        fileToGenerativePart maskImage ]
      ++ match overlayImage with
         | Some overlayImage =>
             [ text "You are also provided with an overlay image. Integrate this object into the white masked area according to the prompt.";
               fileToGenerativePart overlayImage ]
         | None => []
         end
      ++ [ text ("Now, apply the following instruction to the white masked area of the base image: "
                 +++ dq +++ prompt +++ dq) ]
  | None =>
      [ text "You are an expert image editor. Edit the following image based on the text prompt.";
        fileToGenerativePart baseImage ]
      ++ match overlayImage with
         | Some overlayImage =>
             [ text "Integrate this overlay object into the scene, following the text instructions.";
               fileToGenerativePart overlayImage ]
         | None => []
         end
      ++ [ text (let instructionText := "Editing instructions: " +++ dq +++ prompt +++ dq +++ "." in
                 match intensity with
                 | Some n =>
                     if Truthy.num n
                     then instructionText +++ " The modification intensity should be around "
                            +++ showZ n +++ "%."
                     else instructionText
                 | None => instructionText
                 end) ]
  end.

Definition editImage (baseImage : ImageFile) (prompt : string)
    (overlayImage : option ImageFile) (intensity : option Z)
    (maskImage : option ImageFile) : M string :=
  let parts := editParts baseImage prompt overlayImage intensity maskImage in
  let! response := withRetry (imageCall parts) 3 1000 in
  imageOf response.

End Service.

End geminiService.

(** ** [src/services/openaiService.ts] *)

Module openaiService.

Import Types Js Wire Effects.
Local Open Scope M_scope.

Section Service.

Variable env : ProcessEnv.
Variable engine : Builtins.

Definition getOpenAiApiKey : M string :=
  match env_OPENAI_API_KEY env with
  | Some key =>
      if Truthy.str key then ret key
      else
        let! _ := console Warn "OPENAI_API_KEY environment variable not set. OpenAI calls will fail." in
        ret ""
  | None =>
      let! _ := console Warn "OPENAI_API_KEY environment variable not set. OpenAI calls will fail." in
      ret ""
  end.

(** [const API_KEY = getOpenAiApiKey()], the value it returned when
    the module was loaded. *)
Definition API_KEY : string :=
  match env_OPENAI_API_KEY env with
  | Some key => if Truthy.str key then key else ""
  | None => ""
  end.

Definition CHAT_COMPLETIONS_URL := "https://api.openai.com/v1/chat/completions".
Definition IMAGE_GENERATIONS_URL := "https://api.openai.com/v1/images/generations".
Definition IMAGE_EDITS_URL := "https://api.openai.com/v1/images/edits".

Definition withRetry {T} (fn : M T) (retries initialDelay : Z) : M T :=
  withRetry_with
    (fun attempt ms =>
       "OpenAI API call attempt " +++ showZ attempt +++ " failed. Retrying in "
         +++ showZ ms +++ "ms...")
    "Exceeded max retries with OpenAI API." fn retries initialDelay.

(** [atob] followed by the copy of the character codes into a
    [Uint8Array]. *)
Definition base64ToBlob (base64 mimeType : string) : Result Blob :=
  match atob engine base64 with
  | Ok byteCharacters => Ok {| bytes := byteCharacters; blobType := mimeType |}
  | Throw e => Throw e
  end.

Definition notConfigured : Exn := Error "OpenAI API key is not configured.".

(** The branch [if (!response.ok) { ... throw ... }]. *)
Definition rejectNotOk (response : HttpResponse) : M unit :=
  if negb (ok response) then
    let! errorData := lift (json response) in
    let! err := lift (getProp (Some errorData) "error") in
    let msg := getPropOpt err "message" in
    throw (Error ("OpenAI API Error: "
                  +++ (if truthy msg then toString msg else statusText response)))
  else ret tt.

Definition styleInstruction (context : string) : string :=
  if String.eqb context "No predefined style"
  then "Based on the user's prompt, feel free to suggest appropriate and creative architectural styles."
  else "Incorporate the style: " +++ dq +++ context +++ dq +++ ".".

Definition fullPrompt (prompt context : string) : string :=
  "You are an expert architectural visualization assistant. Your task is to refine a user's prompt to be more descriptive and evocative for an AI image generator.
" +++ styleInstruction context +++ "
User prompt: " +++ dq +++ prompt +++ dq +++ "
Please provide 3 distinct, creative, and detailed suggestions in a JSON object with a key "
  +++ dq +++ "suggestions" +++ dq
  +++ " which is an array of strings. For example: {"
  +++ dq +++ "suggestions" +++ dq +++ ": ["
  +++ dq +++ "suggestion 1" +++ dq +++ ", "
  +++ dq +++ "suggestion 2" +++ dq +++ ", "
  +++ dq +++ "suggestion 3" +++ dq +++ "]}".

(** The request of [refineTextPrompt]. *)
Definition chatRequest (prompt context : string) : HttpRequest :=
  {| url := CHAT_COMPLETIONS_URL; method := "POST";
     headers := [("Content-Type", "application/json");
                 ("Authorization", "Bearer " +++ API_KEY)];
     body := BodyChat
               {| chat_model := "gpt-4o";
                  chat_messages := [("user", fullPrompt prompt context)];
                  chat_response_format := "json_object";
                  chat_n := 1;
                  chat_temperature := "0.7" |} |}.

Definition refineTextPrompt (prompt context : string) : M (list Json) :=
  if negb (Truthy.str API_KEY) then throw notConfigured else
  let! response := withRetry (fetch (chatRequest prompt context)) 3 1000 in
  let! _ := rejectNotOk response in
  let! data := lift (json response) in
  let! choices := lift (getProp (Some data) "choices") in
  let! choice := lift (getIndex0 choices) in
  let content := getPropOpt (getPropOpt choice "message") "content" in
  try_catch
    (if negb (truthy content) then throw (Error "No content from OpenAI.") else
     let! jsonResponse := lift (JSON_parse engine (toString content)) in
     let! suggestions := lift (getProp (Some jsonResponse) "suggestions") in
     match suggestions with
     | Some (JArr items) =>
         if (0 <? length items)%nat then ret (firstn 3 items)
         else
           let! _ := console Warn "Could not parse suggestions from OpenAI, returning raw text." in
           let! t := lift (callTrim content) in
           ret [JStr t]
     | _ =>
         let! _ := console Warn "Could not parse suggestions from OpenAI, returning raw text." in
         let! t := lift (callTrim content) in
         ret [JStr t]
     end)
    (fun e =>
       let! _ := console Err ("Failed to parse suggestions from OpenAI: " +++ message e) in
       let! t := lift (callTrim content) in
       ret [JStr t]).

(** [data.data[0]?.b64_json], then the test [if (!b64_json)].  The
    function is typed [Promise<string>]; a truthy value that is not
    a string is carried as its rendering. *)
Definition b64Of (response : HttpResponse) (missing : string) : M string :=
  let! data := lift (json response) in
  let! items := lift (getProp (Some data) "data") in
  let! item := lift (getIndex0 items) in
  let b64_json := getPropOpt item "b64_json" in
  if negb (truthy b64_json) then throw (Error missing)
  else ret (toString b64_json).

(** The request of [generateImageFromText]. *)
Definition generationRequest (prompt : string) : HttpRequest :=
  {| url := IMAGE_GENERATIONS_URL; method := "POST";
     headers := [("Content-Type", "application/json");
                 ("Authorization", "Bearer " +++ API_KEY)];
     body := BodyImageGen
               {| gen_model := "dall-e-3"; gen_prompt := prompt; gen_n := 1;
                  gen_size := "1024x1024"; gen_response_format := "b64_json";
                  gen_quality := "hd"; gen_style := "vivid" |} |}.

Definition generateImageFromText (prompt : string) : M string :=
  if negb (Truthy.str API_KEY) then throw notConfigured else
  let! response := withRetry (fetch (generationRequest prompt)) 3 1000 in
  let! _ := rejectNotOk response in
  b64Of response "No image data received from OpenAI API.".

(** The request of [editImage] for the given form. *)
Definition editRequest (formData : list (string * FormValue)) : HttpRequest :=
  {| url := IMAGE_EDITS_URL; method := "POST";
     headers := [("Authorization", "Bearer " +++ API_KEY)];
     body := BodyForm formData |}.

Definition overlayUnsupported : Exn :=
  Error "Overlay images are not supported by the OpenAI provider. Please remove the overlay image and try again.".

Definition maskRequired : Exn :=
  Error "The OpenAI provider requires a mask for image editing. Please use the 'Guided Edit' mode, draw on the image to create a mask, and provide instructions.".

Definition editImage (baseImage : ImageFile) (prompt : string)
    (overlayImage : option ImageFile) (intensity : option Z)
    (maskImage : option ImageFile) : M string :=
  if negb (Truthy.str API_KEY) then throw notConfigured else
  match overlayImage with
  | Some _ => throw overlayUnsupported
  | None =>
      match maskImage with
      | None => throw maskRequired
      | Some maskImage =>
          let! imageBlob := lift (base64ToBlob (base64 baseImage) (mimeType baseImage)) in
          let! maskBlob := lift (base64ToBlob (base64 maskImage) (mimeType maskImage)) in
          let formData :=
            [ ("image", FormFile imageBlob "base_image.png");
              ("mask", FormFile maskBlob "mask_image.png");
              ("prompt", FormText prompt);
              ("n", FormText "1");
              ("size", FormText "1024x1024");
              ("response_format", FormText "b64_json") ] in
          let! response := withRetry (fetch (editRequest formData)) 3 1000 in
          let! _ := rejectNotOk response in
          b64Of response "No image data received from OpenAI API for editing."
      end
  end.

End Service.

End openaiService.

(** ** [components/EnhanceTab.tsx]: mask capture and submit *)

Module EnhanceTab.

Import Types.

Inductive Mode := enhance | edit.

(** The drawing canvas: its size and, when [getContext('2d')] yields a
    context, the RGBA bytes behind it (four per pixel, row by row). *)
Record Canvas := {
  width     : nat;
  height    : nat;
  context2d : option (list Z)
}.

(** An [ImageData]: [width * height * 4] bytes. *)
Record ImageData := {
  im_width  : nat;
  im_height : nat;
  data      : list Z
}.

(** [context.getImageData(0, 0, w, h)]: exactly [4 * w * h] bytes;
    whatever the store does not cover is transparent black. *)
Definition getImageData (store : list Z) (w h : nat) : ImageData :=
  {| im_width := w; im_height := h; data := resize (4 * w * h) 0 store |}.

(** [maskContext.createImageData(w, h)]: transparent black. *)
Definition createImageData (w h : nat) : ImageData :=
  {| im_width := w; im_height := h; data := replicate (4 * w * h) 0 |}.

(** [pixelData[i] > 0]; a read past the end yields [undefined], and
    [undefined > 0] is false. *)
Definition positive (v : option Z) : bool :=
  match v with Some a => 0 <? a | None => false end.

(** [for (let i = 3; i < pixelData.length; i += 4)
       if (pixelData[i] > 0) { isMaskEmpty = false; break; }]
    started at index [i]; the value is the final [isMaskEmpty]. *)
Equations? scanAlpha (pixelData : list Z) (i : nat) : bool
  by wf (length pixelData - i)%nat lt :=
scanAlpha pixelData i with lt_dec i (length pixelData) := {
  | right _ => true
  | left _ with positive (pixelData !! i) := {
      | true => false
      | false => scanAlpha pixelData (i + 4) } }.
Proof. lia. Qed.

(** The body of the second loop at index [i].  A write past the end
    of a typed array is ignored, as is [<[i:=v]>] on a list. *)
Definition paintPixel (pixelData data : list Z) (i : nat) : list Z :=
  let alpha := pixelData !! (i + 3)%nat in
  let data :=
    if positive alpha
    then <[(i + 2)%nat := 255]> (<[(i + 1)%nat := 255]> (<[i := 255]> data))
    else <[(i + 2)%nat := 0]> (<[(i + 1)%nat := 0]> (<[i := 0]> data)) in
  <[(i + 3)%nat := 255]> data.

(** [for (let i = 0; i < pixelData.length; i += 4) { ... }] started
    at index [i]. *)
Equations? paint (pixelData data : list Z) (i : nat) : list Z
  by wf (length pixelData - i)%nat lt :=
paint pixelData data i with lt_dec i (length pixelData) := {
  | right _ => data
  | left _ => paint pixelData (paintPixel pixelData data i) (i + 4) }.
Proof. lia. Qed.

(** What the component finds in the document. *)
Record Dom := {
  canvasRef     : option Canvas;       (* canvasRef.current *)
  maskContextOk : bool;                (* the new canvas gives a 2d context *)
  toBase64Png   : ImageData -> string  (* toDataURL('image/png').split(',')[1] *)
}.

(** The bitmap put on [maskCanvas], up to [putImageData]. *)
Definition getMaskBitmap (dom : Dom) : option ImageData :=
  match canvasRef dom with
  | None => None
  | Some canvas =>
      if ((width canvas =? 0) || (height canvas =? 0))%nat then None else
      match context2d canvas with
      | None => None
      | Some store =>
          let imageData := getImageData store (width canvas) (height canvas) in
          let pixelData := data imageData in
          let isMaskEmpty := scanAlpha pixelData 3 in
          if isMaskEmpty then None else
          if negb (maskContextOk dom) then None else
          let newImageData := createImageData (width canvas) (height canvas) in
          Some {| im_width := width canvas; im_height := height canvas;
                  data := paint pixelData (data newImageData) 0 |}
      end
  end.

Definition getMaskAsImageFile (dom : Dom) : option ImageFile :=
  match getMaskBitmap dom with
  | None => None
  | Some bitmap =>
      Some {| base64 := toBase64Png dom bitmap; mimeType := "image/png";
              name := "mask.png" |}
  end.

(** [context.clearRect(0, 0, canvas.width, canvas.height)] *)
Definition clearMask (dom : Dom) : Dom :=
  match canvasRef dom with
  | None => dom
  | Some canvas =>
      match context2d canvas with
      | None => dom
      | Some store =>
          {| canvasRef :=
               Some {| width := width canvas; height := height canvas;
                       context2d := Some (replicate (length store) 0) |};
             maskContextOk := maskContextOk dom;
             toBase64Png := toBase64Png dom |}
      end
  end.

(** The component's own state that [handleProcess] reads. *)
Record State := {
  mode         : Mode;
  enhanceStyle : string;
  editPrompt   : string;
  intensity    : Z
}.

(** [useState] initial values; [Object.keys(ENHANCE_STYLE_OPTIONS)[0]]. *)
Definition initial : State := {|
  mode := enhance;
  enhanceStyle := match Constants.keys Constants.ENHANCE_STYLE_OPTIONS with
                  | k :: _ => k
                  | [] => ""
                  end;
  editPrompt := "";
  intensity := 50 |}.

(** The arguments of one call of the [onProcess] prop.  [call_prompt]
    is [None] when the table lookup yields [undefined]. *)
Record ProcessCall := {
  call_prompt    : option string;
  call_style     : string;
  call_intensity : Z;
  call_overlay   : option ImageFile;
  call_mask      : option ImageFile
}.

(** [handleProcess]: the call of [onProcess] it makes, if any.
    [inputImage] and [overlayImage] are the props of that name. *)
Definition handleProcess (dom : Dom) (inputImage overlayImage : option ImageFile)
    (s : State) : option ProcessCall :=
  match inputImage with
  | None => None
  | Some _ =>
      match mode s with
      | enhance =>
          let prompt := Constants.get Constants.ENHANCE_STYLE_OPTIONS (enhanceStyle s) in
          Some {| call_prompt := prompt; call_style := enhanceStyle s;
                  call_intensity := 100; call_overlay := None; call_mask := None |}
      | edit =>
          if negb (Truthy.str (editPrompt s)) then None else
          let maskFile := getMaskAsImageFile dom in
          Some {| call_prompt := Some (editPrompt s); call_style := "Guided Edit";
                  call_intensity := intensity s; call_overlay := overlayImage;
                  call_mask := maskFile |}
      end
  end.

(** [handleImageUpload]: clear the mask, then hand the file to the
    [setInputImage] prop, which acts on the parent's state. *)
Definition handleImageUpload {S : Type} (setInputImage : option ImageFile -> S -> S)
    (file : option ImageFile) (st : Dom * S) : Dom * S :=
  (clearMask (fst st), setInputImage file (snd st)).

End EnhanceTab.

(** ** [src/App.tsx]: the session state and its synchronous handlers *)

Module App.

Import Types.

Inductive View := ViewCreate | ViewEnhance.
Inductive AiProvider := gemini | openai.

Record State := {
  view              : View;
  aiProvider        : AiProvider;
  isLoading         : bool;
  error             : option string;
  currentUser       : bool;
  inputImage        : option ImageFile;
  overlayImage      : option ImageFile;
  undoHistory       : list ImageFile;
  generatedOutput   : option GeneratedOutput;
  isResultModalOpen : bool
}.

(** The [useState] initial values. *)
Definition initial : State := {|
  view := ViewCreate; aiProvider := gemini; isLoading := false;
  error := None; currentUser := false;
  inputImage := None; overlayImage := None; undoHistory := [];
  generatedOutput := None; isResultModalOpen := false |}.

Definition setView v (s : State) : State :=
  {| view := v; aiProvider := aiProvider s; isLoading := isLoading s;
     error := error s; currentUser := currentUser s;
     inputImage := inputImage s; overlayImage := overlayImage s;
     undoHistory := undoHistory s; generatedOutput := generatedOutput s;
     isResultModalOpen := isResultModalOpen s |}.

Definition setAiProvider p (s : State) : State :=
  {| view := view s; aiProvider := p; isLoading := isLoading s;
     error := error s; currentUser := currentUser s;
     inputImage := inputImage s; overlayImage := overlayImage s;
     undoHistory := undoHistory s; generatedOutput := generatedOutput s;
     isResultModalOpen := isResultModalOpen s |}.

Definition setIsLoading b (s : State) : State :=
  {| view := view s; aiProvider := aiProvider s; isLoading := b;
     error := error s; currentUser := currentUser s;
     inputImage := inputImage s; overlayImage := overlayImage s;
     undoHistory := undoHistory s; generatedOutput := generatedOutput s;
     isResultModalOpen := isResultModalOpen s |}.

Definition setError e (s : State) : State :=
  {| view := view s; aiProvider := aiProvider s; isLoading := isLoading s;
     error := e; currentUser := currentUser s;
     inputImage := inputImage s; overlayImage := overlayImage s;
     undoHistory := undoHistory s; generatedOutput := generatedOutput s;
     isResultModalOpen := isResultModalOpen s |}.

Definition setCurrentUser u (s : State) : State :=
  {| view := view s; aiProvider := aiProvider s; isLoading := isLoading s;
     error := error s; currentUser := u;
     inputImage := inputImage s; overlayImage := overlayImage s;
     undoHistory := undoHistory s; generatedOutput := generatedOutput s;
     isResultModalOpen := isResultModalOpen s |}.

Definition setInputImage i (s : State) : State :=
  {| view := view s; aiProvider := aiProvider s; isLoading := isLoading s;
     error := error s; currentUser := currentUser s;
     inputImage := i; overlayImage := overlayImage s;
     undoHistory := undoHistory s; generatedOutput := generatedOutput s;
     isResultModalOpen := isResultModalOpen s |}.

Definition setOverlayImage o (s : State) : State :=
  {| view := view s; aiProvider := aiProvider s; isLoading := isLoading s;
     error := error s; currentUser := currentUser s;
     inputImage := inputImage s; overlayImage := o;
     undoHistory := undoHistory s; generatedOutput := generatedOutput s;
     isResultModalOpen := isResultModalOpen s |}.

(** [setUndoHistory(prev => f(prev))] *)
Definition setUndoHistory (f : list ImageFile -> list ImageFile) (s : State) : State :=
  {| view := view s; aiProvider := aiProvider s; isLoading := isLoading s;
     error := error s; currentUser := currentUser s;
     inputImage := inputImage s; overlayImage := overlayImage s;
     undoHistory := f (undoHistory s); generatedOutput := generatedOutput s;
     isResultModalOpen := isResultModalOpen s |}.

Definition setGeneratedOutput g (s : State) : State :=
  {| view := view s; aiProvider := aiProvider s; isLoading := isLoading s;
     error := error s; currentUser := currentUser s;
     inputImage := inputImage s; overlayImage := overlayImage s;
     undoHistory := undoHistory s; generatedOutput := g;
     isResultModalOpen := isResultModalOpen s |}.

Definition setIsResultModalOpen b (s : State) : State :=
  {| view := view s; aiProvider := aiProvider s; isLoading := isLoading s;
     error := error s; currentUser := currentUser s;
     inputImage := inputImage s; overlayImage := overlayImage s;
     undoHistory := undoHistory s; generatedOutput := generatedOutput s;
     isResultModalOpen := b |}.

(** The updater passed to [setUndoHistory] by [addImageToUndoHistory]:
    prepend, then keep the first [MAX_UNDO_STEPS] entries. *)
Definition pushHistory (image : ImageFile) (prev : list ImageFile) : list ImageFile :=
  let newHistory := image :: prev in
  if (Constants.MAX_UNDO_STEPS <? length newHistory)%nat
  then firstn Constants.MAX_UNDO_STEPS newHistory
  else newHistory.

Definition addImageToUndoHistory (image : option ImageFile) (s : State) : State :=
  match image with
  | None => s
  | Some image => setUndoHistory (pushHistory image) s
  end.

Definition handleSetInputImage (file : option ImageFile) (s : State) : State :=
  let s1 := addImageToUndoHistory (inputImage s) s in
  let s2 := setInputImage file s1 in
  setOverlayImage None s2.

Definition handleUndo (s : State) : State :=
  match undoHistory s with
  | lastImage :: rest =>
      let s1 := setInputImage (Some lastImage) s in
      let s2 := setUndoHistory (fun _ => rest) s1 in
      setOverlayImage None s2
  | [] => s
  end.

Definition handleContinueEditing (s : State) : State :=
  match generatedOutput s with
  | Some g =>
      if Truthy.str (outputImage g) then
        let s1 := addImageToUndoHistory (inputImage s) s in
        let s2 := setInputImage
                    (Some {| base64 := outputImage g; mimeType := "image/png";
                             name := "edited-result.png" |}) s1 in
        let s3 := setOverlayImage None s2 in
        let s4 := setView ViewEnhance s3 in
        setIsResultModalOpen false s4
      else s
  | None => s
  end.

Definition handleSendToEnhance (s : State) : State :=
  match generatedOutput s with
  | Some g =>
      match type g with
      | create =>
          if Truthy.str (outputImage g) then
            let s1 := setInputImage
                        (Some {| base64 := outputImage g; mimeType := "image/png";
                                 name := "generated-image.png" |}) s in
            let s2 := setUndoHistory (fun _ => []) s1 in
            let s3 := setOverlayImage None s2 in
            let s4 := setView ViewEnhance s3 in
            setIsResultModalOpen false s4
          else s
      | enhance => s
      end
  | None => s
  end.

(** *** The asynchronous handlers

    [auth] and [firebaseError] are the exports of [firebase.ts] after
    its initialisation: whether an [Auth] object exists, and the
    message kept when initialisation failed. *)
Section Async.

Import Js Effects.
Local Open Scope M_scope.

Variable env : ProcessEnv.
Variable engine : Builtins.
Variable auth : bool.
Variable firebaseError : option string.

Definition providerName (p : AiProvider) : string :=
  match p with gemini => "gemini" | openai => "openai" end.

Definition handleApiCall {T} (apiCall : M T) (onSuccess : T -> State -> State)
    (s : State) : M State :=
  if negb auth || negb (currentUser s) then
    ret (setError
           (Some (match firebaseError with
                  | Some reason =>
                      if Truthy.str reason
                      then "Authentication is unavailable: " +++ reason
                      else "You must be signed in to perform this action."
                  | None => "You must be signed in to perform this action."
                  end)) s)
  else
    let s1 := setError None (setIsLoading true s) in
    let! _ := console Log ("Starting API call with " +++ providerName (aiProvider s) +++ "...") in
    let! s2 :=
      try_catch
        (let! result := apiCall in
         let! _ := console Log "API call successful." in
         ret (onSuccess result s1))
        (fun err =>
           let errorMessage := message err in
           let! _ := console Err ("API call failed: " +++ errorMessage) in
           ret (setError (Some errorMessage) s1)) in
    ret (setIsLoading false s2).

Definition handleCreateGenerate (prompt style resolution : string) (s : State) : M State :=
  let apiCall :=
    match aiProvider s with
    | gemini => geminiService.generateImageFromText env prompt
    | openai => openaiService.generateImageFromText env prompt
    end in
  handleApiCall apiCall
    (fun outputImage s' =>
       let result :=
         {| type := create; prompt := prompt; style := style;
            resolution := Some resolution; outputImage := outputImage;
            Types.inputImage := None; Types.overlayImage := None;
            maskImage := None; intensity := None |} in
       setIsResultModalOpen true (setGeneratedOutput (Some result) s'))
    s.

(** [file?.base64 || null] *)
Definition base64OrNull (file : option ImageFile) : option string :=
  match file with
  | Some f => if Truthy.str (base64 f) then Some (base64 f) else None
  | None => None
  end.

Definition handleEnhanceProcess (prompt style : string) (intensity : Z)
    (overlay mask : option ImageFile) (s : State) : M State :=
  match inputImage s with
  | None => ret s
  | Some inputImage =>
      let apiCall :=
        match aiProvider s with
        | gemini => geminiService.editImage env inputImage prompt overlay (Some intensity) mask
        | openai => openaiService.editImage env engine inputImage prompt overlay (Some intensity) mask
        end in
      handleApiCall apiCall
        (fun outputImage s' =>
           let result :=
             {| type := enhance; prompt := prompt; style := style;
                resolution := None;
                Types.inputImage := Some (base64 inputImage);
                outputImage := outputImage;
                Types.overlayImage := base64OrNull overlay;
                maskImage := base64OrNull mask;
                intensity := Some intensity |} in
           setIsResultModalOpen true (setGeneratedOutput (Some result) s'))
        s
  end.

(** [handleRegenerate]; the callback of [setTimeout(..., 300)] runs
    with the handlers and the result captured when it was set. *)
Definition handleRegenerate (s : State) : M State :=
  match generatedOutput s with
  | None => ret s
  | Some g =>
      let s1 := setIsResultModalOpen false s in
      let! _ := emit (ETimeout 300) in
      match type g with
      | create =>
          handleCreateGenerate (Types.prompt g) (style g)
            (match resolution g with
             | Some r => if Truthy.str r then r else "1024x1024"
             | None => "1024x1024"
             end) s1
      | enhance =>
          let overlayFile :=
            if Truthy.opt_str (Types.overlayImage g)
            then option_map (fun b => {| base64 := b; mimeType := "image/png";
                                         name := "overlay.png" |}) (Types.overlayImage g)
            else None in
          let maskFile :=
            if Truthy.opt_str (maskImage g)
            then option_map (fun b => {| base64 := b; mimeType := "image/png";
                                         name := "mask.png" |}) (maskImage g)
            else None in
          handleEnhanceProcess (Types.prompt g) (style g)
            (match intensity g with
             | Some n => if Truthy.num n then n else 50
             | None => 50
             end) overlayFile maskFile s1
      end
  end.

(** Everything the user can trigger on the session state. *)
Inductive Action :=
| SetView (v : View)
| SetAiProvider (p : AiProvider)
| SignedIn (b : bool)
| DismissError
| SetInputImage (file : option ImageFile)
| SetOverlayImage (file : option ImageFile)
| Undo
| CreateGenerate (prompt style resolution : string)
| EnhanceProcess (prompt style : string) (intensity : Z) (overlay mask : option ImageFile)
| Regenerate
| ContinueEditing
| SendToEnhance
| OpenModal
| CloseModal.

Definition step (a : Action) (s : State) : M State :=
  match a with
  | SetView v => ret (setView v s)
  | SetAiProvider p => ret (setAiProvider p s)
  | SignedIn b => ret (setCurrentUser b s)
  | DismissError => ret (setError None s)
  | SetInputImage file => ret (handleSetInputImage file s)
  | SetOverlayImage file => ret (setOverlayImage file s)
  | Undo => ret (handleUndo s)
  | CreateGenerate prompt style resolution => handleCreateGenerate prompt style resolution s
  | EnhanceProcess prompt style intensity overlay mask =>
      handleEnhanceProcess prompt style intensity overlay mask s
  | Regenerate => handleRegenerate s
  | ContinueEditing => ret (handleContinueEditing s)
  | SendToEnhance => ret (handleSendToEnhance s)
  | OpenModal => ret (setIsResultModalOpen true s)
  | CloseModal => ret (setIsResultModalOpen false s)
  end.

Fixpoint run (actions : list Action) (s : State) : M State :=
  match actions with
  | [] => ret s
  | a :: rest => let! s' := step a s in run rest s'
  end.

End Async.

End App.


(** ** Sample data used by the examples below *)

Module Sample.

Import Types Js Wire Effects.

Definition imgA : ImageFile := {| base64 := "QUFB"; mimeType := "image/png"; name := "a.png" |}.
Definition imgB : ImageFile := {| base64 := "QkJC"; mimeType := "image/jpeg"; name := "b.jpg" |}.

(** Eleven distinct uploads [u0 .. u10]. *)
Definition upload (k : nat) : ImageFile :=
  {| base64 := "img" +++ showZ (Z.of_nat k); mimeType := "image/png";
     name := "u" +++ showZ (Z.of_nat k) +++ ".png" |}.
Definition uploads : list ImageFile := map upload (seq 0 11).

Definition enhanceResult : GeneratedOutput :=
  {| type := enhance; prompt := "make the walls white"; style := "Guided Edit";
     resolution := None; inputImage := Some "QUFB"; outputImage := "UkVT";
     overlayImage := None; maskImage := None; intensity := Some 50 |}.

Definition createResult : GeneratedOutput :=
  {| type := create; prompt := "a house"; style := "Minimalist";
     resolution := Some "1024x1024"; inputImage := None; outputImage := "R0VO";
     overlayImage := None; maskImage := None; intensity := None |}.

(** A session in the Enhance view showing [imgA], nothing in history. *)
Definition editing : App.State :=
  App.setView App.ViewEnhance
    (App.setCurrentUser true (App.setInputImage (Some imgA) App.initial)).

(** The same with a full history and an enhance result on display. *)
Definition editingFull : App.State :=
  App.setGeneratedOutput (Some enhanceResult)
    (App.setUndoHistory (fun _ => firstn 10 uploads) editing).

(** No provider key in the environment; both keys set. *)
Definition noKeys : ProcessEnv :=
  {| env_API_KEY := None; env_OPENAI_API_KEY := None |}.
Definition bothKeys : ProcessEnv :=
  {| env_API_KEY := Some "AIza-test"; env_OPENAI_API_KEY := Some "sk-test" |}.

(** A stand-in for the engine: [JSON.parse] knows the one JSON text
    of the examples and throws on everything else; [atob] gives the
    text back. *)
Definition suggestionsText : string :=
  "{" +++ dq +++ "suggestions" +++ dq +++ ":[" +++ dq +++ "a" +++ dq +++ "]}".
Definition engine : Builtins :=
  {| JSON_parse := fun t =>
       if String.eqb t suggestionsText
       then Ok (JObj [("suggestions", JArr [JStr "a"])])
       else Throw (SyntaxError "Unexpected token");
     atob := fun b => Ok b |}.

(** A network whose every answer is a chat reply with the given
    [content]. *)
Definition chatChoice (content : Json) : Json :=
  JObj [("message", JObj [("content", content)])].
Definition chatData (content : Json) : Json :=
  JObj [("choices", JArr [chatChoice content])].
Definition chatReply (content : Json) : HttpResponse :=
  {| ok := true; statusText := "OK"; json := Ok (chatData content) |}.

Definition chatting (content : Json) : World :=
  {| genai := fun _ => Ok {| response_text := Some (toStringJ content); candidates := [] |};
     http := fun _ => Ok (chatReply content);
     trace := [] |}.

(** A network whose every answer carries no text: the Gemini
    response has no text part ([response.text] is [undefined]) and
    the chat completion has [content: null]. *)
Definition wordless : World :=
  {| genai := fun _ => Ok {| response_text := None; candidates := [] |};
     http := fun _ => Ok (chatReply JNull);
     trace := [] |}.

Definition okResponse : HttpResponse :=
  {| ok := true; statusText := "OK"; json := Ok (JObj [("data", JArr [JObj [("b64_json", JStr "UkVT")]])]) |}.

Definition imageResponse : GenerateContentResponse :=
  {| response_text := None; candidates := [[inlineData "UkVT" "image/png"]] |}.

Definition request : HttpRequest :=
  {| url := "https://api.openai.com/v1/images/edits"; method := "POST";
     headers := [("Authorization", "Bearer sk-test")]; body := BodyForm [] |}.

(** A network on which the first two calls of either provider fail
    and every later one succeeds. *)
Definition flaky : World :=
  {| genai := fun k => match k with
                       | O => Throw (Error "first failure")
                       | S O => Throw (Error "second failure")
                       | _ => Ok imageResponse
                       end;
     http := fun k => match k with
                      | O => Throw (TypeError "first failure")
                      | S O => Throw (TypeError "second failure")
                      | _ => Ok okResponse
                      end;
     trace := [] |}.

(** A network on which every call fails, each with its own error. *)
Definition down : World :=
  {| genai := fun k => Throw (Error ("failure " +++ showZ (Z.of_nat k)));
     http := fun k => Throw (TypeError ("failure " +++ showZ (Z.of_nat k)));
     trace := [] |}.

(** A 2 x 1 mask canvas: a stroke over the left pixel (the brush
    colour at partial opacity), nothing on the right one. *)
Definition canvas : EnhanceTab.Canvas :=
  {| EnhanceTab.width := 2; EnhanceTab.height := 1;
     EnhanceTab.context2d := Some [198; 166; 100; 178; 0; 0; 0; 0] |}.

Definition dom : EnhanceTab.Dom :=
  {| EnhanceTab.canvasRef := Some canvas; EnhanceTab.maskContextOk := true;
     EnhanceTab.toBase64Png := fun _ => "iVBORw0KGgo=" |}.

End Sample.

(** ** Notions used to state the properties *)

Module Notions.

Import Types Js Wire Effects.

(** Pushing a run of images onto the undo history, oldest first. *)
Definition pushAll (images : list ImageFile) (s : App.State) : App.State :=
  fold_left (fun s image => App.addImageToUndoHistory (Some image) s) images s.

(** The four bytes (R, G, B, A) of pixel [p] of an RGBA buffer, and
    its alpha byte. *)
Definition pixelAt (buffer : list Z) (p : nat) : list (option Z) :=
  [ buffer !! (4 * p)%nat; buffer !! (4 * p + 1)%nat;
    buffer !! (4 * p + 2)%nat; buffer !! (4 * p + 3)%nat ].

Definition alphaAt (buffer : list Z) (p : nat) : option Z :=
  buffer !! (4 * p + 3)%nat.

(** The value the second loop of [getMaskAsImageFile] gives to byte
    [c] of a pixel whose source alpha byte is [alpha]. *)
Definition painted (alpha : option Z) (c : nat) : Z :=
  if (c =? 3)%nat then 255 else if EnhanceTab.positive alpha then 255 else 0.

(** An operation that performs no [delay] of its own. *)
Definition quiet {T} (fn : M T) : Prop :=
  forall w, delays (trace (snd (fn w))) = delays (trace w).

(** The number of [fetch] calls and of [generateContent] calls made
    so far: the index of the answer the next call receives. *)
Definition fetched (w : World) : nat := length (List.filter isFetch (trace w)).
Definition generated (w : World) : nat := length (List.filter isGenerateContent (trace w)).

(** A key that is not set, or set to the empty string. *)
Definition missing (key : option string) : Prop := key = None \/ key = Some "".

(** [w'] continues [w]: the same network, a longer trace. *)
Definition extends (w w' : World) : Prop :=
  exists events, w' = record w events.

(** A computation that only adds to the trace. *)
Definition grows {A} (m : M A) : Prop := forall w, extends w (snd (m w)).

(** A computation whose first effect, from [w], is the event [e]. *)
Definition starts_with {A} (e : Event) (m : M A) (w : World) : Prop :=
  exists rest, snd (m w) = record w (e :: rest).

(** A response text from which the services get no suggestions:
    [JSON.parse] throws on it, or the parsed value has no non-empty
    array under [suggestions]. *)
Definition unparsed (engine : Builtins) (t : string) : Prop :=
  match JSON_parse engine t with
  | Throw _ => True
  | Ok j =>
      match getProp (Some j) "suggestions" with
      | Ok (Some (JArr (_ :: _))) => False
      | _ => True
      end
  end.

(** The intensity guidance of a general edit: present when the
    intensity is a number other than zero. *)
Definition intensityQualifier (intensity : option Z) : string :=
  match intensity with
  | Some n =>
      if n =? 0 then ""
      else " The modification intensity should be around " +++ showZ n +++ "%."
  | None => ""
  end.

(** The parts of a general (mask-less) edit as the specification
    lists them: the base image, the overlay when there is one, the
    instruction followed by the intensity guidance. *)
Definition generalEditParts (baseImage : ImageFile) (prompt : string)
    (overlayImage : option ImageFile) (intensity : option Z) : list Part :=
  [ text "You are an expert image editor. Edit the following image based on the text prompt.";
    inlineData (base64 baseImage) (mimeType baseImage) ]
  ++ match overlayImage with
     | Some overlay =>
         [ text "Integrate this overlay object into the scene, following the text instructions.";
           inlineData (base64 overlay) (mimeType overlay) ]
     | None => []
     end
  ++ [ text ("Editing instructions: " +++ dq +++ prompt +++ dq +++ "."
             +++ intensityQualifier intensity) ].

Definition white : list (option Z) := [Some 255; Some 255; Some 255; Some 255].
Definition black : list (option Z) := [Some 0; Some 0; Some 0; Some 255].

End Notions.

(** ** [firebase.ts]: what the module exports after it was loaded *)

Module firebase.

Import Js Effects.
Local Open Scope M_scope.

(** [haystack.includes(needle)] *)
Fixpoint includes (haystack needle : string) : bool :=
  String.prefix needle haystack
  || match haystack with
     | String _ rest => includes rest needle
     | EmptyString => false
     end.

(** The Firebase SDK calls of the module: each returns a handle or
    throws. *)
Record Sdk := {
  initializeApp : Json -> Result unit;
  getAuth       : Result unit;
  getFirestore  : Result unit
}.

(** The exported bindings: whether [app], [auth] and [db] are set,
    and the error text. *)
Record Exports := {
  app           : bool;
  auth          : bool;
  db            : bool;
  firebaseError : option string
}.

Section Load.

Variable FIREBASE_CONFIG : option string.   (* process.env.FIREBASE_CONFIG *)
Variable engine : Builtins.
Variable sdk : Sdk.

Definition notSet : string :=
  "The `FIREBASE_CONFIG` environment variable is not set. Please provide it as a JSON string in your project's secrets.".

Definition missingApiKey : string :=
  "The Firebase config object is missing the 'apiKey' property.".

Definition parseFailure : string :=
  "Failed to parse `FIREBASE_CONFIG`. Please ensure it's a valid, single-line JSON string.".

(** The [try] block: the handles assigned so far ([app], [auth],
    [db]) and how the block ended. *)
Definition tryBlock : (bool * bool * bool) * Result unit :=
  match FIREBASE_CONFIG with
  | None => ((false, false, false), Throw (Error notSet))
  | Some firebaseConfigStr =>
      if negb (Truthy.str firebaseConfigStr)
      then ((false, false, false), Throw (Error notSet))
      else
        match JSON_parse engine firebaseConfigStr with
        | Throw e => ((false, false, false), Throw e)
        | Ok firebaseConfig =>
            match getProp (Some firebaseConfig) "apiKey" with
            | Throw e => ((false, false, false), Throw e)
            | Ok apiKey =>
                if negb (truthy apiKey)
                then ((false, false, false), Throw (Error missingApiKey))
                else
                  match initializeApp sdk firebaseConfig with
                  | Throw e => ((false, false, false), Throw e)
                  | Ok _ =>
                      match getAuth sdk with
                      | Throw e => ((true, false, false), Throw e)
                      | Ok _ =>
                          match getFirestore sdk with
                          | Throw e => ((true, true, false), Throw e)
                          | Ok _ => ((true, true, true), Ok tt)
                          end
                      end
                  end
            end
        end
  end.

(** The whole module body: the [try] block and its [catch]. *)
Definition load : M Exports :=
  match tryBlock with
  | ((app, auth, db), Ok _) =>
      ret {| app := app; auth := auth; db := db; firebaseError := None |}
  | ((app, auth, db), Throw error) =>
      let! _ := console Err ("Failed to initialize Firebase: " +++ message error) in
      ret {| app := app; auth := auth; db := db;
             firebaseError :=
               Some (if includes (message error) "JSON"
                     then parseFailure
                     else message error) |}
  end.

End Load.

End firebase.

(** ** Files chosen by the user, and the upload handlers *)

Module Files.

Import Types Js Effects.
Local Open Scope M_scope.

(** A [File] as the handlers use it: its [type], its [name], and what
    reading it as a data URL yields, namely the text after the first
    comma of the URL (the base64 payload) or the reader's error. *)
Record File := {
  file_type : string;
  file_name : string;
  payload   : Result string
}.

(** [file.type.startsWith('image/')] *)
Definition isImage (file : File) : bool := String.prefix "image/" (file_type file).

(** [handleFile] of [ImageUpload.tsx], for the [onImageUpload] prop
    acting on the parent's state. *)
Definition ImageUpload_handleFile {S : Type} (onImageUpload : option ImageFile -> S -> S)
    (file : option File) (st : S) : M S :=
  match file with
  | Some file =>
      if isImage file then
        match payload file with
        | Ok base64 =>
            ret (onImageUpload
                   (Some {| base64 := base64; mimeType := file_type file;
                            name := file_name file |}) st)
        | Throw e =>
            let! _ := console Err ("Error reading file: " +++ message e) in
            ret (onImageUpload None st)
        end
      else ret st
  | None => ret st
  end.

(** [handleFileSelect] of [EnhanceTab.tsx]; [file] is
    [e.target.files?.[0]]. *)
Definition EnhanceTab_handleFileSelect {S : Type}
    (setInputImage : option ImageFile -> S -> S) (onError : string -> S -> S)
    (file : option File) (st : EnhanceTab.Dom * S) : M (EnhanceTab.Dom * S) :=
  match file with
  | Some file =>
      if isImage file then
        match payload file with
        | Ok base64 =>
            ret (EnhanceTab.handleImageUpload setInputImage
                   (Some {| base64 := base64; mimeType := file_type file;
                            name := file_name file |}) st)
        | Throw e =>
            let! _ := console Err ("Error reading file: " +++ message e) in
            let st1 := EnhanceTab.handleImageUpload setInputImage None st in
            ret (fst st1, onError "Failed to read the image file." (snd st1))
        end
      else ret st
  | None => ret st
  end.

End Files.

(** ** Prompt refinement from the two tabs *)

Module Refining.

Import Types Js Effects.
Local Open Scope M_scope.

(** The three pieces of component state both tabs keep for the
    suggestions modal. *)
Record Ui := {
  isRefining             : bool;
  suggestions            : list Json;
  isSuggestionsModalOpen : bool
}.

Section Handlers.

Variable env : ProcessEnv.
Variable engine : Builtins.

Definition refineFn (aiProvider : App.AiProvider) : string -> string -> M (list Json) :=
  match aiProvider with
  | App.gemini => geminiService.refineTextPrompt env engine
  | App.openai => openaiService.refineTextPrompt env engine
  end.

(** [handleRefinePrompt] of [EnhanceTab.tsx]; [onError] is the prop of
    that name, acting on the parent's state. *)
Definition EnhanceTab_handleRefinePrompt {S : Type} (aiProvider : App.AiProvider)
    (onError : string -> S -> S) (editPrompt : string) (st : Ui * S) : M (Ui * S) :=
  if negb (Truthy.str editPrompt) then ret st else
  let parent := snd st in
  let! outcome :=
    try_catch
      (let! refinedSuggestions :=
         refineFn aiProvider editPrompt "editing an existing architectural rendering" in
       ret ({| isRefining := true; suggestions := refinedSuggestions;
               isSuggestionsModalOpen := true |}, parent))
      (fun error =>
         let! _ := console Err ("Failed to refine prompt: " +++ message error) in
         ret ({| isRefining := true; suggestions := [];
                 isSuggestionsModalOpen := false |},
              onError (message error) parent)) in
  ret ({| isRefining := false; suggestions := suggestions (fst outcome);
          isSuggestionsModalOpen := isSuggestionsModalOpen (fst outcome) |},
       snd outcome).

(** [handleRefinePrompt] of [CreateTab.tsx]: the same without an
    [onError] prop. *)
Definition CreateTab_handleRefinePrompt (aiProvider : App.AiProvider)
    (prompt style : string) (ui : Ui) : M Ui :=
  if negb (Truthy.str prompt) then ret ui else
  let! outcome :=
    try_catch
      (let! refinedSuggestions := refineFn aiProvider prompt style in
       ret {| isRefining := true; suggestions := refinedSuggestions;
              isSuggestionsModalOpen := true |})
      (fun error =>
         let! _ := console Err ("Failed to refine prompt: " +++ message error) in
         ret {| isRefining := true; suggestions := [];
                isSuggestionsModalOpen := false |}) in
  ret {| isRefining := false; suggestions := suggestions outcome;
         isSuggestionsModalOpen := isSuggestionsModalOpen outcome |}.

End Handlers.

End Refining.

(** ** Further sample data *)

Module Scenario.

Import Types Js Wire Effects.

(** A network on which the Gemini provider answers with a sentence
    followed by an image, and the OpenAI provider rejects the key. *)
Definition unauthorized : World :=
  {| genai := fun _ =>
       Ok {| response_text := Some "Here is your image.";
             candidates := [[text "Here is your image."; inlineData "UkVT" "image/png"]] |};
     http := fun _ =>
       Ok {| ok := false; statusText := "Unauthorized";
             json := Ok (JObj [("error",
                                JObj [("message", JStr "Incorrect API key provided.")])]) |};
     trace := [] |}.

(** A network on which both providers answer every call with an image. *)
Definition imaging : World :=
  {| genai := fun _ => Ok Sample.imageResponse;
     http := fun _ => Ok Sample.okResponse;
     trace := [] |}.

(** [atob] that rejects every input. *)
Definition strictEngine : Builtins :=
  {| JSON_parse := JSON_parse Sample.engine;
     atob := fun _ => Throw (Error "The string to be decoded is not correctly encoded.") |}.

Definition photo : Files.File :=
  {| Files.file_type := "image/jpeg"; Files.file_name := "site.jpg";
     Files.payload := Ok "c2l0ZQ==" |}.

Definition notes : Files.File :=
  {| Files.file_type := "text/plain"; Files.file_name := "notes.txt";
     Files.payload := Ok "bm90ZXM=" |}.

Definition unreadable : Files.File :=
  {| Files.file_type := "image/png"; Files.file_name := "broken.png";
     Files.payload := Throw (Error "NotReadableError") |}.

(** An SDK whose every call succeeds. *)
Definition sdk : firebase.Sdk :=
  {| firebase.initializeApp := fun _ => Ok tt;
     firebase.getAuth := Ok tt;
     firebase.getFirestore := Ok tt |}.

(** The Enhance tab in guided-edit mode with instructions typed in. *)
Definition guided : EnhanceTab.State :=
  {| EnhanceTab.mode := EnhanceTab.edit; EnhanceTab.enhanceStyle := "Twilight";
     EnhanceTab.editPrompt := "add a tree"; EnhanceTab.intensity := 50 |}.

(** A Firebase configuration text and an engine that parses it. *)
Definition configText : string :=
  "{" +++ dq +++ "apiKey" +++ dq +++ ":" +++ dq +++ "AIza-fb" +++ dq +++ "}".
Definition firebaseEngine : Builtins :=
  {| JSON_parse := fun t =>
       if String.eqb t configText
       then Ok (JObj [("apiKey", JStr "AIza-fb")])
       else Throw (SyntaxError "Unexpected token");
     atob := fun b => Ok b |}.

Definition idle : Refining.Ui :=
  {| Refining.isRefining := false; Refining.suggestions := [];
     Refining.isSuggestionsModalOpen := false |}.

End Scenario.

(** * Properties *)

Local Open Scope list_scope.

(** ** Undo history and the session handlers *)

Module AppFacts.

Import Types App Notions.

Lemma pushHistory_firstn (image : ImageFile) (prev : list ImageFile) :
  pushHistory image prev = firstn Constants.MAX_UNDO_STEPS (image :: prev).
Proof.
  unfold pushHistory.
  destruct (Nat.ltb_spec Constants.MAX_UNDO_STEPS (length (image :: prev))) as [Hlt | Hle].
  - reflexivity.
  - symmetry. apply firstn_all2. exact Hle.
Qed.

Lemma pushHistory_length (image : ImageFile) (prev : list ImageFile) :
  length (pushHistory image prev)
  = Nat.min (S (length prev)) Constants.MAX_UNDO_STEPS.
Proof.
  rewrite pushHistory_firstn, length_firstn. simpl length. lia.
Qed.

Lemma pushHistory_bounded (image : ImageFile) (prev : list ImageFile) :
  (length (pushHistory image prev) <= Constants.MAX_UNDO_STEPS)%nat.
Proof. rewrite pushHistory_length. lia. Qed.

Lemma firstn_cons_firstn {A} (n : nat) (x : A) (l : list A) :
  firstn (S n) (x :: firstn (S n) l) = firstn (S n) (x :: l).
Proof.
  cbn [firstn]. f_equal.
  rewrite firstn_firstn. f_equal. lia.
Qed.

Lemma pushAll_history (images : list ImageFile) :
  forall s prev, undoHistory s = firstn Constants.MAX_UNDO_STEPS prev ->
    undoHistory (pushAll images s)
    = firstn Constants.MAX_UNDO_STEPS (rev images ++ prev).
Proof.
  induction images as [| image images IH]; intros s prev Hs.
  - exact Hs.
  - cbn [pushAll fold_left rev]. fold (pushAll images).
    rewrite <- app_assoc. cbn [app].
    apply IH. cbn. rewrite pushHistory_firstn, Hs.
    apply (firstn_cons_firstn 9).
Qed.

Lemma addImage_bounded (image : option ImageFile) (s : State) :
  (length (undoHistory s) <= Constants.MAX_UNDO_STEPS)%nat ->
  (length (undoHistory (addImageToUndoHistory image s)) <= Constants.MAX_UNDO_STEPS)%nat.
Proof.
  destruct image as [image |]; cbn; intros H; [apply pushHistory_bounded | exact H].
Qed.

(** *** The asynchronous handlers leave the history alone and always
    complete. *)
Section Async.

Import Js Effects.

Variable env : ProcessEnv.
Variable engine : Builtins.
Variable auth : bool.
Variable firebaseError : option string.

Lemma handleApiCall_history {T} (apiCall : M T) (onSuccess : T -> State -> State)
    (s : State) (w : World) :
  (forall t s0, undoHistory (onSuccess t s0) = undoHistory s0) ->
  exists s' w', handleApiCall auth firebaseError apiCall onSuccess s w = (Ok s', w')
                /\ undoHistory s' = undoHistory s.
Proof.
  intros Hon. unfold handleApiCall.
  destruct (negb auth || negb (currentUser s)).
  - eexists _, _. split; [reflexivity | reflexivity].
  - unfold bind, try_catch, console, emit, ret. cbn.
    destruct (apiCall _) as [[t | e] w1]; cbn.
    + eexists _, _. split; [reflexivity |]. cbn. now rewrite Hon.
    + eexists _, _. split; [reflexivity |]. reflexivity.
Qed.

Lemma handleCreateGenerate_history prompt style resolution s w :
  exists s' w',
    handleCreateGenerate env auth firebaseError prompt style resolution s w = (Ok s', w')
    /\ undoHistory s' = undoHistory s.
Proof. unfold handleCreateGenerate. apply handleApiCall_history. reflexivity. Qed.

Lemma handleEnhanceProcess_history prompt style intensity overlay mask s w :
  exists s' w',
    handleEnhanceProcess env engine auth firebaseError
      prompt style intensity overlay mask s w = (Ok s', w')
    /\ undoHistory s' = undoHistory s.
Proof.
  unfold handleEnhanceProcess. destruct (inputImage s) as [img |].
  - apply handleApiCall_history. reflexivity.
  - eexists _, _. split; reflexivity.
Qed.

Lemma handleRegenerate_history s w :
  exists s' w',
    handleRegenerate env engine auth firebaseError s w = (Ok s', w')
    /\ undoHistory s' = undoHistory s.
Proof.
  unfold handleRegenerate. destruct (generatedOutput s) as [g |].
  - unfold bind, emit. cbn.
    destruct (type g).
    + destruct (handleCreateGenerate_history
                  (prompt g) (style g)
                  (match resolution g with
                   | Some r => if Truthy.str r then r else "1024x1024"
                   | None => "1024x1024"
                   end)
                  (setIsResultModalOpen false s)
                  (record w [ETimeout 300]))
        as (s' & w' & Hrun & Hh).
      exists s', w'. split; [exact Hrun | exact Hh].
    + match goal with
      | |- context [handleEnhanceProcess _ _ _ _ ?p ?st ?n ?o ?m ?s0 ?w0] =>
          destruct (handleEnhanceProcess_history p st n o m s0 w0)
            as (s' & w' & Hrun & Hh)
      end.
      exists s', w'. split; [exact Hrun | exact Hh].
  - eexists _, _. split; reflexivity.
Qed.

Lemma handleUndo_bounded s :
  (length (undoHistory s) <= Constants.MAX_UNDO_STEPS)%nat ->
  (length (undoHistory (handleUndo s)) <= Constants.MAX_UNDO_STEPS)%nat.
Proof.
  unfold handleUndo. destruct (undoHistory s) as [| lastImage rest] eqn:E; cbn.
  - rewrite E. trivial.
  - lia.
Qed.

Lemma handleContinueEditing_bounded s :
  (length (undoHistory s) <= Constants.MAX_UNDO_STEPS)%nat ->
  (length (undoHistory (handleContinueEditing s)) <= Constants.MAX_UNDO_STEPS)%nat.
Proof.
  intros H. unfold handleContinueEditing.
  destruct (generatedOutput s) as [g |]; [| exact H].
  destruct (Truthy.str (outputImage g)); [| exact H].
  cbn. apply addImage_bounded. exact H.
Qed.

Lemma handleSendToEnhance_bounded s :
  (length (undoHistory s) <= Constants.MAX_UNDO_STEPS)%nat ->
  (length (undoHistory (handleSendToEnhance s)) <= Constants.MAX_UNDO_STEPS)%nat.
Proof.
  intros H. unfold handleSendToEnhance.
  destruct (generatedOutput s) as [g |]; [| exact H].
  destruct (type g); [| exact H].
  destruct (Truthy.str (outputImage g)); [| exact H].
  cbn. lia.
Qed.

Lemma step_bounded (a : Action) (s : State) (w : World) :
  (length (undoHistory s) <= Constants.MAX_UNDO_STEPS)%nat ->
  exists s' w', step env engine auth firebaseError a s w = (Ok s', w')
                /\ (length (undoHistory s') <= Constants.MAX_UNDO_STEPS)%nat.
Proof.
  intros H.
  destruct a as [v | p | b | | file | file | | pr st res | pr st n ov mk | | | | |];
    cbn [step]; try (eexists _, _; split; [reflexivity | exact H]).
  - eexists _, _. split; [reflexivity |].
    unfold handleSetInputImage. cbn. apply addImage_bounded. exact H.
  - eexists _, _. split; [reflexivity | now apply handleUndo_bounded].
  - destruct (handleCreateGenerate_history pr st res s w)
      as (s' & w' & Hrun & Hh).
    exists s', w'. split; [exact Hrun | now rewrite Hh].
  - destruct (handleEnhanceProcess_history pr st n ov mk s w)
      as (s' & w' & Hrun & Hh).
    exists s', w'. split; [exact Hrun | now rewrite Hh].
  - destruct (handleRegenerate_history s w) as (s' & w' & Hrun & Hh).
    exists s', w'. split; [exact Hrun | now rewrite Hh].
  - eexists _, _. split; [reflexivity | now apply handleContinueEditing_bounded].
  - eexists _, _. split; [reflexivity | now apply handleSendToEnhance_bounded].
Qed.

Lemma run_bounded (actions : list Action) :
  forall (s : State) (w : World),
    (length (undoHistory s) <= Constants.MAX_UNDO_STEPS)%nat ->
    exists s' w', run env engine auth firebaseError actions s w = (Ok s', w')
                  /\ (length (undoHistory s') <= Constants.MAX_UNDO_STEPS)%nat.
Proof.
  induction actions as [| a actions IH]; intros s w H.
  - exists s, w. split; [reflexivity | exact H].
  - cbn [run]. unfold bind.
    destruct (step_bounded a s w H) as (s1 & w1 & Hstep & H1).
    rewrite Hstep. apply IH. exact H1.
Qed.

End Async.

End AppFacts.

Section UndoHistoryClaims.

Import Types App Notions AppFacts.

(** C6.  After more than ten pushes the undo history holds exactly the
    ten most recently pushed images, most recent first, whatever it
    held before; and no sequence of user actions, from a history of at
    most ten entries, ever completes with more than ten. *)
Theorem undoHistory_keeps_ten_most_recent :
  (forall (images : list ImageFile) (s : State),
      (10 < length images)%nat ->
      undoHistory (pushAll images s) = firstn 10 (rev images)
      /\ length (undoHistory (pushAll images s)) = 10%nat)
  /\ (forall env engine auth firebaseError (actions : list Action) (s : State) w,
         (length (undoHistory s) <= 10)%nat ->
         exists s' w',
           run env engine auth firebaseError actions s w = (Js.Ok s', w')
           /\ (length (undoHistory s') <= 10)%nat).
Proof.
  split.
  - intros images s Hlen.
    assert (Hhist : undoHistory (pushAll images s) = firstn 10 (rev images)).
    { destruct images as [| image images]; [cbn in Hlen; lia |].
      cbn [pushAll fold_left]. fold (pushAll images).
      rewrite (pushAll_history images _ (image :: undoHistory s)).
      - change (rev images ++ image :: undoHistory s)
          with (rev images ++ [image] ++ undoHistory s).
        rewrite app_assoc. change (rev images ++ [image]) with (rev (image :: images)).
        rewrite firstn_app.
        replace (Constants.MAX_UNDO_STEPS - length (rev (image :: images)))%nat with 0%nat
          by (rewrite length_rev; unfold Constants.MAX_UNDO_STEPS; lia).
        cbn [firstn]. apply app_nil_r.
      - cbn. apply pushHistory_firstn. }
    split; [exact Hhist |].
    rewrite Hhist, length_firstn, length_rev. lia.
  - intros env engine auth firebaseError actions s w H.
    apply run_bounded. exact H.
Qed.

Lemma undoHistory_keeps_ten_most_recent_witness :
  undoHistory (pushAll Sample.uploads initial) = firstn 10 (rev Sample.uploads)
  /\ length (undoHistory (pushAll Sample.uploads initial)) = 10%nat.
Proof.
  apply (proj1 undoHistory_keeps_ten_most_recent Sample.uploads initial).
  vm_compute. lia.
Defined.

(** C10.  Pushing an absent image leaves the whole state as it was;
    setting the base image while none is present therefore leaves the
    history as it was, and the first upload of a session creates no
    entry. *)
Theorem push_absent_image_is_noop :
  forall (s : State) (file : option ImageFile),
    addImageToUndoHistory None s = s
    /\ (inputImage s = None ->
        undoHistory (handleSetInputImage file s) = undoHistory s)
    /\ length (undoHistory (handleSetInputImage file initial)) = 0%nat.
Proof.
  intros s file. split; [reflexivity |]. split; [| reflexivity].
  intros Hnone. unfold handleSetInputImage. rewrite Hnone. reflexivity.
Qed.

Lemma push_absent_image_is_noop_witness :
  undoHistory (handleSetInputImage (Some Sample.imgA)
                 (setUndoHistory (fun _ => [Sample.imgB]) initial))
  = [Sample.imgB].
Proof.
  apply (proj1 (proj2 (push_absent_image_is_noop
                         (setUndoHistory (fun _ => [Sample.imgB]) initial)
                         (Some Sample.imgA)))).
  reflexivity.
Defined.

(** C3, as the claim has it, fails on removal: with [imgA] on display
    and an empty history, removing the base image (the prop
    [setInputImage] called with [null] through [handleImageUpload])
    leaves [imgA] in the history. *)
Lemma removing_base_image_pushes_it :
  inputImage Sample.editing = Some Sample.imgA
  /\ undoHistory Sample.editing = []
  /\ (let after := snd (EnhanceTab.handleImageUpload handleSetInputImage None
                           (Sample.dom, Sample.editing)) in
      inputImage after = None
      /\ undoHistory after = [Sample.imgA]
      /\ undoHistory after <> undoHistory Sample.editing).
Proof. repeat split. discriminate. Qed.

(** C3, amended.  Whenever a base image is present, setting the base
    image, to a new image or to none, first pushes the present image
    onto the undo history (it becomes the head, the history is cut to
    ten), then sets the new value and clears the overlay; the same
    holds through [handleImageUpload]. *)
Theorem setInputImage_pushes_present_image :
  forall (s : State) (current : ImageFile) (file : option ImageFile) dom,
    inputImage s = Some current ->
    let after := handleSetInputImage file s in
    undoHistory after = firstn 10 (current :: undoHistory s)
    /\ head (undoHistory after) = Some current
    /\ inputImage after = file
    /\ overlayImage after = None
    /\ snd (EnhanceTab.handleImageUpload handleSetInputImage file (dom, s)) = after.
Proof.
  intros s current file dom Hcur after. subst after.
  unfold handleSetInputImage. rewrite Hcur. cbn.
  rewrite pushHistory_firstn. unfold Constants.MAX_UNDO_STEPS.
  repeat split. now rewrite Hcur.
Qed.

Lemma setInputImage_pushes_present_image_witness :
  undoHistory (handleSetInputImage (Some Sample.imgB) Sample.editing) = [Sample.imgA]
  /\ inputImage (handleSetInputImage (Some Sample.imgB) Sample.editing) = Some Sample.imgB.
Proof.
  destruct (setInputImage_pushes_present_image
              Sample.editing Sample.imgA (Some Sample.imgB) Sample.dom eq_refl)
    as (Hh & _ & Hi & _).
  split; [exact Hh | exact Hi].
Defined.

(** C9, as the claim has it, fails at capacity: with ten entries in
    the history, continuing from an enhance result leaves ten, not
    eleven. *)
Lemma continueEditing_at_capacity_keeps_ten :
  generatedOutput Sample.editingFull = Some Sample.enhanceResult
  /\ inputImage Sample.editingFull = Some Sample.imgA
  /\ length (undoHistory Sample.editingFull) = 10%nat
  /\ length (undoHistory (handleContinueEditing Sample.editingFull)) = 10%nat
  /\ length (undoHistory (handleContinueEditing Sample.editingFull))
     <> (length (undoHistory Sample.editingFull) + 1)%nat.
Proof. repeat split. vm_compute. lia. Qed.

(** C9, amended.  With a result whose output image is not empty:
    [handleSendToEnhance] from a create result empties the history;
    [handleContinueEditing] pushes the present base image, so the
    history grows by one up to the bound of ten (and stays as it is
    when no base image is present); both set the base image to the
    output image and clear the overlay. *)
Theorem sendToEnhance_resets_continueEditing_pushes :
  forall (s : State) (g : GeneratedOutput),
    generatedOutput s = Some g ->
    outputImage g <> "" ->
    (type g = create ->
     let after := handleSendToEnhance s in
     undoHistory after = []
     /\ inputImage after = Some {| base64 := outputImage g; mimeType := "image/png";
                                   name := "generated-image.png" |}
     /\ overlayImage after = None)
    /\ (let after := handleContinueEditing s in
        undoHistory after
        = match inputImage s with
          | Some current => firstn 10 (current :: undoHistory s)
          | None => undoHistory s
          end
        /\ length (undoHistory after)
           = match inputImage s with
             | Some _ => Nat.min (length (undoHistory s) + 1) 10
             | None => length (undoHistory s)
             end
        /\ inputImage after = Some {| base64 := outputImage g; mimeType := "image/png";
                                      name := "edited-result.png" |}
        /\ overlayImage after = None).
Proof.
  intros s g Hg Hout.
  assert (Ht : Truthy.str (outputImage g) = true).
  { destruct (outputImage g); [congruence | reflexivity]. }
  split.
  - intros Hty after. subst after. unfold handleSendToEnhance.
    rewrite Hg, Hty, Ht. repeat split.
  - intros after. subst after. unfold handleContinueEditing.
    rewrite Hg, Ht. destruct (inputImage s) as [current |]; cbn.
    + rewrite pushHistory_firstn. repeat split.
      rewrite length_firstn. cbn [length]. unfold Constants.MAX_UNDO_STEPS. lia.
    + repeat split.
Qed.

Lemma sendToEnhance_resets_continueEditing_pushes_witness :
  undoHistory (handleSendToEnhance
                 (setGeneratedOutput (Some Sample.createResult) Sample.editingFull)) = []
  /\ length (undoHistory (handleContinueEditing
                            (setGeneratedOutput (Some Sample.enhanceResult) Sample.editing)))
     = 1%nat.
Proof.
  split.
  - apply (proj1 (sendToEnhance_resets_continueEditing_pushes
                    (setGeneratedOutput (Some Sample.createResult) Sample.editingFull)
                    Sample.createResult eq_refl ltac:(discriminate)) eq_refl).
  - apply (proj1 (proj2 (proj2 (sendToEnhance_resets_continueEditing_pushes
                    (setGeneratedOutput (Some Sample.enhanceResult) Sample.editing)
                    Sample.enhanceResult eq_refl ltac:(discriminate))))).
Defined.

End UndoHistoryClaims.

Module MaskFacts.

Import Types EnhanceTab Notions.

Lemma scanAlpha_unfold (pixelData : list Z) (i : nat) :
  scanAlpha pixelData i
  = if lt_dec i (length pixelData)
    then if positive (pixelData !! i) then false else scanAlpha pixelData (i + 4)
    else true.
Proof.
  rewrite scanAlpha_equation_1.
  destruct (lt_dec i (length pixelData)); cbn; [| reflexivity].
  destruct (positive (pixelData !! i)); cbn; reflexivity.
Qed.

Lemma paint_unfold (pixelData data : list Z) (i : nat) :
  paint pixelData data i
  = if lt_dec i (length pixelData)
    then paint pixelData (paintPixel pixelData data i) (i + 4)
    else data.
Proof.
  rewrite paint_equation_1.
  destruct (lt_dec i (length pixelData)); cbn; reflexivity.
Qed.

(** The first loop answers [true] exactly when no inspected byte is
    positive. *)
Lemma scanAlpha_true_iff (n : nat) :
  forall (pixelData : list Z) (i : nat),
    (length pixelData - i <= n)%nat ->
    scanAlpha pixelData i = true
    <-> (forall k, (i + 4 * k < length pixelData)%nat ->
                   positive (pixelData !! (i + 4 * k)%nat) = false).
Proof.
  induction n as [| n IH]; intros pixelData i Hn; rewrite scanAlpha_unfold.
  - destruct (lt_dec i (length pixelData)) as [Hlt | Hge]; [lia |].
    split; [intros _ k Hk; lia | reflexivity].
  - destruct (lt_dec i (length pixelData)) as [Hlt | Hge].
    + destruct (positive (pixelData !! i)) eqn:Hpos.
      * split; [discriminate |]. intros Hall.
        specialize (Hall 0%nat). rewrite Nat.mul_0_r, Nat.add_0_r in Hall.
        rewrite Hall in Hpos by exact Hlt. discriminate.
      * rewrite (IH pixelData (i + 4)%nat) by lia. split.
        -- intros Hall [| k] Hk.
           ++ rewrite Nat.mul_0_r, Nat.add_0_r. exact Hpos.
           ++ replace (i + 4 * S k)%nat with (i + 4 + 4 * k)%nat by lia.
              apply Hall. lia.
        -- intros Hall k Hk.
           replace (i + 4 + 4 * k)%nat with (i + 4 * S k)%nat by lia.
           apply Hall. lia.
    + split; [intros _ k Hk; lia | reflexivity].
Qed.

Lemma paintPixel_length (pixelData data : list Z) (i : nat) :
  length (paintPixel pixelData data i) = length data.
Proof.
  unfold paintPixel. destruct (positive _); now rewrite !length_insert.
Qed.

Lemma paintPixel_lookup (pixelData data : list Z) (m q c : nat) :
  (4 * m + 3 < length data)%nat -> (c < 4)%nat ->
  paintPixel pixelData data (4 * m) !! (4 * q + c)%nat
  = if (q =? m)%nat
    then Some (painted (pixelData !! (4 * m + 3)%nat) c)
    else data !! (4 * q + c)%nat.
Proof.
  intros Hlen Hc. unfold paintPixel, painted.
  destruct (Nat.eqb_spec q m) as [-> | Hne].
  - destruct (positive (pixelData !! (4 * m + 3)%nat));
      destruct c as [| [| [| [| c]]]]; try lia; cbn [Nat.eqb];
      rewrite ?Nat.add_0_r;
      repeat (first [ rewrite list_lookup_insert_eq by (rewrite ?length_insert; lia)
                    | rewrite list_lookup_insert_ne by lia ]);
      reflexivity.
  - destruct (positive (pixelData !! (4 * m + 3)%nat));
      rewrite !list_lookup_insert_ne by lia; reflexivity.
Qed.

Lemma paint_spec (total : nat) (pixelData : list Z) :
  length pixelData = (4 * total)%nat ->
  forall (n m : nat) (data : list Z),
    length data = (4 * total)%nat ->
    (total - m <= n)%nat -> (m <= total)%nat ->
    length (paint pixelData data (4 * m)) = (4 * total)%nat
    /\ forall q c, (q < total)%nat -> (c < 4)%nat ->
         paint pixelData data (4 * m) !! (4 * q + c)%nat
         = if (q <? m)%nat
           then data !! (4 * q + c)%nat
           else Some (painted (pixelData !! (4 * q + 3)%nat) c).
Proof.
  intros Hpix. induction n as [| n IH]; intros m data Hdata Hn Hm;
    rewrite paint_unfold.
  - destruct (lt_dec (4 * m) (length pixelData)) as [Hlt | Hge]; [lia |].
    split; [exact Hdata |]. intros q c Hq Hc.
    destruct (Nat.ltb_spec q m); [reflexivity | lia].
  - destruct (lt_dec (4 * m) (length pixelData)) as [Hlt | Hge].
    + replace (4 * m + 4)%nat with (4 * S m)%nat by lia.
      destruct (IH (S m) (paintPixel pixelData data (4 * m))) as [Hlen Hlook];
        [now rewrite paintPixel_length | lia | lia |].
      split; [exact Hlen |]. intros q c Hq Hc.
      rewrite (Hlook q c Hq Hc).
      destruct (Nat.ltb_spec q (S m)) as [Hq1 | Hq1].
      * rewrite paintPixel_lookup by lia.
        destruct (Nat.eqb_spec q m) as [-> | Hne].
        -- destruct (Nat.ltb_spec m m); [lia | reflexivity].
        -- destruct (Nat.ltb_spec q m); [reflexivity | lia].
      * destruct (Nat.ltb_spec q m); [lia | reflexivity].
    + split; [exact Hdata |]. intros q c Hq Hc.
      destruct (Nat.ltb_spec q m); [reflexivity | lia].
Qed.

End MaskFacts.

Section MaskClaims.

Import Types EnhanceTab Notions MaskFacts.

(** C2.  With the drawing canvas and both 2d contexts at hand:
    when every pixel of the canvas has alpha zero,
    [getMaskAsImageFile] returns nothing; when some pixel has a
    positive alpha, it returns the PNG of a bitmap of the same width
    and height in which every pixel is (255,255,255,255) where the
    source alpha is positive and (0,0,0,255) where it is zero. *)
Theorem getMaskAsImageFile_binary :
  forall (dom : Dom) (canvas : Canvas) (store : list Z),
    canvasRef dom = Some canvas ->
    context2d canvas = Some store ->
    maskContextOk dom = true ->
    let total := (width canvas * height canvas)%nat in
    let source := data (getImageData store (width canvas) (height canvas)) in
    ((forall p, (p < total)%nat -> alphaAt source p = Some 0) ->
     getMaskAsImageFile dom = None)
    /\ ((exists p a, (p < total)%nat /\ alphaAt source p = Some a /\ 0 < a) ->
        exists bitmap,
          getMaskBitmap dom = Some bitmap
          /\ getMaskAsImageFile dom
             = Some {| base64 := toBase64Png dom bitmap; mimeType := "image/png";
                       name := "mask.png" |}
          /\ im_width bitmap = width canvas
          /\ im_height bitmap = height canvas
          /\ length (data bitmap) = (4 * total)%nat
          /\ forall p a, (p < total)%nat -> alphaAt source p = Some a ->
               (0 < a -> pixelAt (data bitmap) p = white)
               /\ (a = 0 -> pixelAt (data bitmap) p = black)).
Proof.
  intros dom canvas store Hcanvas Hctx Hmask total source.
  assert (Hlen : length source = (4 * total)%nat).
  { subst source total. cbn. rewrite length_resize. lia. }
  unfold getMaskAsImageFile, getMaskBitmap. rewrite Hcanvas, Hctx, Hmask.
  fold source.
  assert (Hscan : scanAlpha source 3 = true
                  <-> forall p, (p < total)%nat -> positive (alphaAt source p) = false).
  { rewrite (scanAlpha_true_iff (length source)) by lia. unfold alphaAt. split.
    - intros H p Hp. replace (4 * p + 3)%nat with (3 + 4 * p)%nat by lia.
      apply H. lia.
    - intros H k Hk. replace (3 + 4 * k)%nat with (4 * k + 3)%nat by lia.
      apply H. lia. }
  split.
  - intros Hzero.
    destruct ((width canvas =? 0)%nat || (height canvas =? 0)%nat); [reflexivity |].
    replace (scanAlpha source 3) with true; [reflexivity |].
    symmetry. apply Hscan. intros p Hp. now rewrite (Hzero p Hp).
  - intros (p0 & a0 & Hp0 & Ha0 & Hpos0).
    assert (Hdim : ((width canvas =? 0)%nat || (height canvas =? 0)%nat) = false).
    { subst total. destruct (width canvas), (height canvas); cbn in *; try lia; reflexivity. }
    rewrite Hdim.
    destruct (scanAlpha source 3) eqn:Hs.
    { pose proof (proj1 Hscan eq_refl p0 Hp0) as Hc. rewrite Ha0 in Hc.
      cbn in Hc. apply Z.ltb_ge in Hc. lia. }
    cbn [negb].
    destruct (paint_spec total source Hlen total 0%nat
                (data (createImageData (width canvas) (height canvas))))
      as [Hplen Hplook].
    { cbn. rewrite length_replicate. subst total. lia. }
    { lia. }
    { lia. }
    change (4 * 0)%nat with 0%nat in Hplen, Hplook.
    eexists. split; [reflexivity |]. split; [reflexivity |].
    cbn [im_width im_height data]. repeat split; try exact Hplen.
    + intros Hpos. unfold pixelAt, white.
      rewrite <- (Nat.add_0_r (4 * p)) at 1.
      rewrite !Hplook by lia. cbn [Nat.ltb Nat.leb].
      unfold alphaAt in H0. rewrite H0. unfold painted. cbn [Nat.eqb positive].
      replace (0 <? a) with true by (symmetry; apply Z.ltb_lt; exact Hpos).
      reflexivity.
    + intros Hz. unfold pixelAt, black.
      rewrite <- (Nat.add_0_r (4 * p)) at 1.
      rewrite !Hplook by lia. cbn [Nat.ltb Nat.leb].
      unfold alphaAt in H0. rewrite H0. unfold painted. cbn [Nat.eqb positive].
      subst a. reflexivity.
Qed.

Lemma getMaskAsImageFile_binary_witness :
  exists bitmap,
    getMaskBitmap Sample.dom = Some bitmap
    /\ data bitmap = [255; 255; 255; 255; 0; 0; 0; 255].
Proof.
  destruct (getMaskAsImageFile_binary Sample.dom Sample.canvas
              [198; 166; 100; 178; 0; 0; 0; 0] eq_refl eq_refl eq_refl) as [_ Hsome].
  destruct Hsome as (bitmap & Hbitmap & _).
  - exists 0%nat, 178. repeat split. cbn. lia.
  - exists bitmap. split; [exact Hbitmap |].
    vm_compute in Hbitmap. injection Hbitmap as <-. reflexivity.
Defined.

End MaskClaims.

(** ** The retry wrapper *)

Module RetryFacts.

Import Js Wire Effects Notions.

Section Loop.

Context {T : Type}.
Variable retryLine : Z -> Z -> string.
Variable exceeded : string.

Lemma withRetry_loop_unfold (fn : M T) (retries initialDelay attempt : Z) (w : World) :
  withRetry_loop retryLine exceeded fn retries initialDelay attempt w
  = if Z_lt_dec attempt retries then
      match fn w with
      | (Ok a, w1) => (Ok a, w1)
      | (Throw e, w1) =>
          if Z_ge_dec (attempt + 1) retries then (Throw e, w1)
          else
            let ms := initialDelay * 2 ^ (attempt + 1 - 1) in
            withRetry_loop retryLine exceeded fn retries initialDelay (attempt + 1)
              (backoff (retryLine (attempt + 1) ms) ms w1)
      end
    else (Throw (Error exceeded), w).
Proof.
  rewrite withRetry_loop_equation_1.
  destruct (Z_lt_dec attempt retries); cbn; [| reflexivity].
  destruct (fn w) as [[a | e] w1]; cbn; [reflexivity |].
  destruct (Z_ge_dec (attempt + 1) retries); cbn; reflexivity.
Qed.

(** With the default of three attempts the loop is at most three
    calls of the operation, separated by the two back-offs. *)
Lemma withRetry_three (fn : M T) (initialDelay : Z) (w : World) :
  withRetry_with retryLine exceeded fn 3 initialDelay w
  = match fn w with
    | (Ok a, w1) => (Ok a, w1)
    | (Throw _, w1) =>
        match fn (backoff (retryLine 1 (initialDelay * 1)) (initialDelay * 1) w1) with
        | (Ok a, w2) => (Ok a, w2)
        | (Throw _, w2) =>
            fn (backoff (retryLine 2 (initialDelay * 2)) (initialDelay * 2) w2)
        end
    end.
Proof.
  unfold withRetry_with.
  rewrite withRetry_loop_unfold. cbn.
  destruct (fn w) as [[a | e1] w1]; [reflexivity |].
  rewrite withRetry_loop_unfold. cbn.
  destruct (fn _) as [[a | e2] w2]; [reflexivity |].
  rewrite withRetry_loop_unfold. cbn.
  destruct (fn _) as [[a | e3] w3]; reflexivity.
Qed.

End Loop.

Lemma delays_app (t1 t2 : list Event) : delays (t1 ++ t2) = delays t1 ++ delays t2.
Proof. unfold delays. apply flat_map_app. Qed.

Lemma delays_backoff (line : string) (ms : Z) (w : World) :
  delays (trace (backoff line ms w)) = delays (trace w) ++ [ms].
Proof.
  unfold backoff, delay, console, emit. cbn.
  rewrite !delays_app. cbn. now rewrite app_nil_r.
Qed.

Lemma fetch_quiet (req : HttpRequest) : quiet (fetch req).
Proof.
  intros w. unfold fetch. cbn. rewrite delays_app. cbn. apply app_nil_r.
Qed.

Lemma generateContent_quiet (req : GenerateContentParameters) : quiet (generateContent req).
Proof.
  intros w. unfold generateContent. cbn. rewrite delays_app. cbn. apply app_nil_r.
Qed.

Lemma record_record (w : World) (a b : list Event) :
  record (record w a) b = record w (a ++ b).
Proof. unfold record. cbn. now rewrite app_assoc. Qed.

Lemma backoff_record (line : string) (ms : Z) (w : World) :
  backoff line ms w = record w [EConsole Log line; EDelay ms].
Proof. unfold backoff, delay, console, emit. cbn. apply record_record. Qed.

Lemma fetched_record (w : World) (events : list Event) :
  fetched (record w events)
  = (fetched w + length (List.filter isFetch events))%nat.
Proof. unfold fetched, record. cbn. now rewrite List.filter_app, length_app. Qed.

Lemma generated_record (w : World) (events : list Event) :
  generated (record w events)
  = (generated w + length (List.filter isGenerateContent events))%nat.
Proof. unfold generated, record. cbn. now rewrite List.filter_app, length_app. Qed.

Lemma fetch_run (req : HttpRequest) (w : World) :
  fetch req w = (http w (fetched w), record w [EFetch req]).
Proof. reflexivity. Qed.

Lemma generateContent_run (req : GenerateContentParameters) (w : World) :
  generateContent req w = (genai w (generated w), record w [EGenerateContent req]).
Proof. reflexivity. Qed.

Section Chain.

Context {T : Type}.
Variable retryLine : Z -> Z -> string.
Variable exceeded : string.
Variable fn : M T.
Hypothesis fn_quiet : quiet fn.

(** Two failures, then whatever the third attempt gives. *)
Lemma withRetry_third_attempt (w0 w1 w2 w3 : World) (e1 e2 : Exn) (r3 : Result T) :
  fn w0 = (Throw e1, w1) ->
  fn (backoff (retryLine 1 1000) 1000 w1) = (Throw e2, w2) ->
  fn (backoff (retryLine 2 2000) 2000 w2) = (r3, w3) ->
  withRetry_with retryLine exceeded fn 3 1000 w0 = (r3, w3)
  /\ delays (trace w3) = delays (trace w0) ++ [1000; 2000].
Proof.
  intros H1 H2 H3. split.
  - rewrite withRetry_three.
    change (1000 * 1) with 1000. change (1000 * 2) with 2000.
    now rewrite H1, H2, H3.
  - pose proof (fn_quiet w0) as Q1. rewrite H1 in Q1. cbn [snd] in Q1.
    pose proof (fn_quiet (backoff (retryLine 1 1000) 1000 w1)) as Q2.
    rewrite H2 in Q2. cbn [snd] in Q2.
    pose proof (fn_quiet (backoff (retryLine 2 2000) 2000 w2)) as Q3.
    rewrite H3 in Q3. cbn [snd] in Q3.
    rewrite Q3, delays_backoff, Q2, delays_backoff, Q1, <- app_assoc.
    reflexivity.
Qed.

End Chain.

End RetryFacts.

Section RetryClaims.

Import Js Wire Effects Notions RetryFacts.

(** C4.  [withRetry] with its defaults (3 attempts, 1000 ms), in
    either service, on an operation that performs no wait of its own
    and whose first two attempts fail: the second attempt starts
    after a logged wait of 1000 ms, the third after a logged wait of
    2000 ms; if the third attempt succeeds with [v], [withRetry]
    returns [v]; if it throws [e3], [withRetry] throws [e3] itself;
    in both cases the final world is the one the third attempt
    left, so nothing is attempted a fourth time, and exactly the two
    waits 1000, 2000 were added. *)
Theorem withRetry_two_failures_then_outcome :
  forall (T : Type) (fn : M T) (w0 w1 w2 : World) (e1 e2 : Exn),
    quiet fn ->
    fn w0 = (Throw e1, w1) ->
    (fn (backoff "Attempt 1 failed. Retrying in 1000ms..." 1000 w1) = (Throw e2, w2) ->
     (forall v w3,
         fn (backoff "Attempt 2 failed. Retrying in 2000ms..." 2000 w2) = (Ok v, w3) ->
         geminiService.withRetry fn 3 1000 w0 = (Ok v, w3)
         /\ delays (trace w3) = delays (trace w0) ++ [1000; 2000])
     /\ (forall e3 w3,
            fn (backoff "Attempt 2 failed. Retrying in 2000ms..." 2000 w2) = (Throw e3, w3) ->
            geminiService.withRetry fn 3 1000 w0 = (Throw e3, w3)
            /\ delays (trace w3) = delays (trace w0) ++ [1000; 2000]))
    /\ (fn (backoff "OpenAI API call attempt 1 failed. Retrying in 1000ms..." 1000 w1)
        = (Throw e2, w2) ->
        (forall v w3,
            fn (backoff "OpenAI API call attempt 2 failed. Retrying in 2000ms..." 2000 w2)
            = (Ok v, w3) ->
            openaiService.withRetry fn 3 1000 w0 = (Ok v, w3)
            /\ delays (trace w3) = delays (trace w0) ++ [1000; 2000])
        /\ (forall e3 w3,
               fn (backoff "OpenAI API call attempt 2 failed. Retrying in 2000ms..." 2000 w2)
               = (Throw e3, w3) ->
               openaiService.withRetry fn 3 1000 w0 = (Throw e3, w3)
               /\ delays (trace w3) = delays (trace w0) ++ [1000; 2000])).
Proof.
  intros T fn w0 w1 w2 e1 e2 Hquiet H1. split; intros H2; split; intros r w3 H3.
  - exact (withRetry_third_attempt _ _ fn Hquiet w0 w1 w2 w3 e1 e2 (Ok r) H1 H2 H3).
  - exact (withRetry_third_attempt _ _ fn Hquiet w0 w1 w2 w3 e1 e2 (Throw r) H1 H2 H3).
  - exact (withRetry_third_attempt _ _ fn Hquiet w0 w1 w2 w3 e1 e2 (Ok r) H1 H2 H3).
  - exact (withRetry_third_attempt _ _ fn Hquiet w0 w1 w2 w3 e1 e2 (Throw r) H1 H2 H3).
Qed.

(** On the sample networks: two failures and a success give the
    response after three [fetch] calls and the waits 1000, 2000; three
    failures give the third error, again after three calls. *)
Lemma withRetry_two_failures_then_outcome_witness :
  (exists w3,
      openaiService.withRetry (fetch Sample.request) 3 1000 Sample.flaky
      = (Ok Sample.okResponse, w3)
      /\ delays (trace w3) = [1000; 2000]
      /\ fetched w3 = 3%nat)
  /\ (exists w3,
         openaiService.withRetry (fetch Sample.request) 3 1000 Sample.down
         = (Throw (TypeError "failure 2"), w3)
         /\ delays (trace w3) = [1000; 2000]
         /\ fetched w3 = 3%nat).
Proof.
  pose (line1 := "OpenAI API call attempt 1 failed. Retrying in 1000ms...").
  pose (line2 := "OpenAI API call attempt 2 failed. Retrying in 2000ms...").
  pose (sent := [EFetch Sample.request]).
  split.
  - pose (w1 := record Sample.flaky sent).
    pose (w2 := record (backoff line1 1000 w1) sent).
    pose (w3 := record (backoff line2 2000 w2) sent).
    exists w3.
    destruct (withRetry_two_failures_then_outcome _ (fetch Sample.request)
                Sample.flaky w1 w2 (TypeError "first failure")
                (TypeError "second failure") (fetch_quiet _) eq_refl) as [_ Hopenai].
    destruct (Hopenai eq_refl) as [Hok _].
    destruct (Hok Sample.okResponse w3 eq_refl) as [Hrun Hdelays].
    split; [exact Hrun |]. split; [exact Hdelays | reflexivity].
  - pose (w1 := record Sample.down sent).
    pose (w2 := record (backoff line1 1000 w1) sent).
    pose (w3 := record (backoff line2 2000 w2) sent).
    exists w3.
    destruct (withRetry_two_failures_then_outcome _ (fetch Sample.request)
                Sample.down w1 w2 (TypeError "failure 0")
                (TypeError "failure 1") (fetch_quiet _) eq_refl) as [_ Hopenai].
    destruct (Hopenai eq_refl) as [_ Hfail].
    destruct (Hfail (TypeError "failure 2") w3 eq_refl) as [Hrun Hdelays].
    split; [exact Hrun |]. split; [exact Hdelays | reflexivity].
Defined.

End RetryClaims.

(** ** Submitting from the Enhance tab *)

Section SubmitClaims.

Import Types EnhanceTab.

(** Every key of the style table leads to the description listed
    with it. *)
Lemma style_description (key description : string) :
  In (key, description) Constants.ENHANCE_STYLE_OPTIONS ->
  Constants.get Constants.ENHANCE_STYLE_OPTIONS key = Some description.
Proof.
  unfold Constants.ENHANCE_STYLE_OPTIONS. cbn [In].
  intros H.
  repeat (destruct H as [H | H];
          [injection H as <- <-; vm_compute; reflexivity |]).
  contradiction.
Qed.

(** C7, as the claim has it, fails when an overlay is set: the
    submit in enhancement mode (the initial mode, "Standard Clarity"
    selected) with [imgB] as the current overlay calls [onProcess]
    without an overlay, not with the current one. *)
Lemma enhancement_submit_drops_overlay :
  mode initial = enhance
  /\ exists call,
       handleProcess Sample.dom (Some Sample.imgA) (Some Sample.imgB) initial = Some call
       /\ call_overlay call = None
       /\ call_overlay call <> Some Sample.imgB.
Proof.
  split; [reflexivity |].
  eexists. split; [reflexivity |]. split; [reflexivity | discriminate].
Qed.

(** C7, amended.  In enhancement mode, with a base image present and
    a style of the table selected, [handleProcess] calls [onProcess]
    with the description of that style as prompt, the style name,
    intensity 100, no mask and no overlay, whatever the current
    overlay is. *)
Theorem enhancement_submit_intent :
  forall (dom : Dom) (inputImage : ImageFile) (overlayImage : option ImageFile)
         (s : State) (description : string),
    mode s = enhance ->
    In (enhanceStyle s, description) Constants.ENHANCE_STYLE_OPTIONS ->
    handleProcess dom (Some inputImage) overlayImage s
    = Some {| call_prompt := Some description; call_style := enhanceStyle s;
              call_intensity := 100; call_overlay := None; call_mask := None |}.
Proof.
  intros dom inputImage overlayImage s description Hmode Hstyle.
  unfold handleProcess. rewrite Hmode. cbv zeta.
  rewrite (style_description _ _ Hstyle). reflexivity.
Qed.

Lemma enhancement_submit_intent_witness :
  handleProcess Sample.dom (Some Sample.imgA) (Some Sample.imgB) initial
  = Some {| call_prompt := Some "Apply standard photorealistic clarity and sharpness.";
            call_style := "Standard Clarity"; call_intensity := 100;
            call_overlay := None; call_mask := None |}.
Proof.
  apply (enhancement_submit_intent Sample.dom Sample.imgA (Some Sample.imgB) initial
           "Apply standard photorealistic clarity and sharpness." eq_refl
           (or_introl eq_refl)).
Defined.

End SubmitClaims.

(** ** The two provider services *)

Module ServiceFacts.

Import Types Js Wire Effects Notions RetryFacts.

Lemma append_empty (a : string) : a +++ "" = a.
Proof. induction a as [| c a IH]; cbn; [reflexivity | now rewrite IH]. Qed.

Lemma append_assoc (a b c : string) : (a +++ b) +++ c = a +++ (b +++ c).
Proof. induction a as [| x a IH]; cbn; [reflexivity | now rewrite IH]. Qed.

Lemma extends_refl (w : World) : extends w w.
Proof. exists []. unfold record. rewrite app_nil_r. now destruct w. Qed.

Lemma extends_trans (w1 w2 w3 : World) : extends w1 w2 -> extends w2 w3 -> extends w1 w3.
Proof.
  intros [a ->] [b ->]. exists (a ++ b). apply record_record.
Qed.

Lemma grows_ret {A} (a : A) : grows (ret a).
Proof. intros w. apply extends_refl. Qed.

Lemma grows_throw {A} (e : Exn) : grows (@throw A e).
Proof. intros w. apply extends_refl. Qed.

Lemma grows_lift {A} (r : Result A) : grows (lift r).
Proof. intros w. apply extends_refl. Qed.

Lemma grows_emit (e : Event) : grows (emit e).
Proof. intros w. now exists [e]. Qed.

Lemma grows_console (level : Level) (line : string) : grows (console level line).
Proof. apply grows_emit. Qed.

Lemma grows_bind {A B} (m : M A) (k : A -> M B) :
  grows m -> (forall a, grows (k a)) -> grows (bind m k).
Proof.
  intros Hm Hk w. unfold bind. specialize (Hm w).
  destruct (m w) as [[a | e] w1]; cbn in *; [| exact Hm].
  eapply extends_trans; [exact Hm | apply Hk].
Qed.

Lemma grows_try_catch {A} (m : M A) (h : Exn -> M A) :
  grows m -> (forall e, grows (h e)) -> grows (try_catch m h).
Proof.
  intros Hm Hh w. unfold try_catch. specialize (Hm w).
  destruct (m w) as [[a | e] w1]; cbn in *; [exact Hm |].
  eapply extends_trans; [exact Hm | apply Hh].
Qed.

Ltac grow :=
  repeat first
    [ apply grows_ret | apply grows_throw | apply grows_lift
    | apply grows_console | apply grows_emit
    | apply grows_bind; [| intro] | apply grows_try_catch; [| intro]
    | match goal with
      | |- grows (match ?x with _ => _ end) => destruct x
      end ].

Lemma starts_with_bind {A B} (e : Event) (m : M A) (k : A -> M B) (w : World) :
  starts_with e m w -> (forall a, grows (k a)) -> starts_with e (bind m k) w.
Proof.
  intros [rest Hm] Hk. unfold starts_with, bind.
  destruct (m w) as [[a | x] w1]; cbn in *.
  - destruct (Hk a w1) as [more ->]. subst w1.
    exists (rest ++ more). now rewrite record_record.
  - exists rest. exact Hm.
Qed.

(** The retried provider call always reaches the provider. *)
Lemma withRetry_generateContent_starts (line : Z -> Z -> string) (exceeded : string)
    (req : GenerateContentParameters) (w : World) :
  starts_with (EGenerateContent req)
    (withRetry_with line exceeded (generateContent req) 3 1000) w.
Proof.
  unfold starts_with. rewrite withRetry_three, generateContent_run.
  destruct (genai w (generated w)) as [a | e1]; cbv beta iota; [now exists [] |].
  rewrite backoff_record, record_record, generateContent_run.
  destruct (genai _ _) as [a | e2]; cbv beta iota.
  - cbn [snd]. rewrite record_record. eexists. reflexivity.
  - rewrite backoff_record, !record_record, generateContent_run. cbn [snd].
    rewrite record_record. eexists. reflexivity.
Qed.

End ServiceFacts.

Section ProviderClaims.

Import Types Js Wire Effects Notions RetryFacts ServiceFacts.

Lemma missing_openai_key (env : ProcessEnv) :
  missing (env_OPENAI_API_KEY env) -> openaiService.API_KEY env = "".
Proof. unfold openaiService.API_KEY. now intros [-> | ->]. Qed.

Lemma missing_gemini_key (env : ProcessEnv) :
  missing (env_API_KEY env) -> geminiService.API_KEY env = "".
Proof. unfold geminiService.API_KEY. now intros [-> | ->]. Qed.

Lemma imageOf_grows (response : GenerateContentResponse) :
  grows (geminiService.imageOf response).
Proof. unfold geminiService.imageOf. grow. Qed.

(** C1, as the claim has it, fails for the Gemini variant: with no
    key in the environment each of its three operations goes to the
    provider with an empty key; on a network that rejects every call
    they fail only after three calls, with the provider's error. *)
Lemma gemini_without_key_calls_provider :
  env_API_KEY Sample.noKeys = None
  /\ (let run := geminiService.generateImageFromText Sample.noKeys "a house" Sample.down in
      fst run = Throw (Error "failure 2")
      /\ generated (snd run) = 3%nat
      /\ head (trace (snd run))
         = Some (EGenerateContent
                   {| apiKey := ""; model := "gemini-2.5-flash-image";
                      contents := ContentParts [text "a house"];
                      config := geminiService.imageConfig |}))
  /\ (let run := geminiService.editImage Sample.noKeys Sample.imgA "add a tree"
                   None (Some 50) None Sample.down in
      fst run = Throw (Error "failure 2") /\ generated (snd run) = 3%nat)
  /\ (let run := geminiService.refineTextPrompt Sample.noKeys Sample.engine
                   "add a tree" "No predefined style" Sample.down in
      fst run = Throw (Error "failure 2") /\ generated (snd run) = 3%nat).
Proof. vm_compute. repeat split. Qed.

(** C1, amended.  With the OpenAI key missing (unset or empty), each
    of the three OpenAI operations throws "OpenAI API key is not
      configured." and leaves the world as it was: nothing is sent.
    That message differs from every message built for a response the
    provider marked as not ok ("OpenAI API Error: ...").  The Gemini
    operations carry no such test: with the Gemini key missing, the
    first effect of each of them is a [generateContent] call made
    with the empty key. *)
Theorem missing_key_behaviour :
  forall (env : ProcessEnv) (engine : Builtins) (w : World),
    (missing (env_OPENAI_API_KEY env) ->
     (forall prompt,
         openaiService.generateImageFromText env prompt w
         = (Throw (Error "OpenAI API key is not configured."), w))
     /\ (forall baseImage prompt overlayImage intensity maskImage,
            openaiService.editImage env engine baseImage prompt overlayImage
              intensity maskImage w
            = (Throw (Error "OpenAI API key is not configured."), w))
     /\ (forall prompt context,
            openaiService.refineTextPrompt env engine prompt context w
            = (Throw (Error "OpenAI API key is not configured."), w))
     /\ (forall response data err w1,
            ok response = false ->
            json response = Ok data ->
            getProp (Some data) "error" = Ok err ->
            exists detail,
              openaiService.rejectNotOk response w1
              = (Throw (Error ("OpenAI API Error: " +++ detail)), w1)
              /\ Error ("OpenAI API Error: " +++ detail)
                 <> Error "OpenAI API key is not configured."))
    /\ (missing (env_API_KEY env) ->
        (forall prompt,
            starts_with
              (EGenerateContent
                 {| apiKey := ""; model := "gemini-2.5-flash-image";
                    contents := ContentParts [text prompt];
                    config := geminiService.imageConfig |})
              (geminiService.generateImageFromText env prompt) w)
        /\ (forall baseImage prompt overlayImage intensity maskImage,
               starts_with
                 (EGenerateContent
                    {| apiKey := ""; model := "gemini-2.5-flash-image";
                       contents :=
                         ContentParts (geminiService.editParts baseImage prompt
                                         overlayImage intensity maskImage);
                       config := geminiService.imageConfig |})
                 (geminiService.editImage env baseImage prompt overlayImage
                    intensity maskImage) w)
        /\ (forall prompt context,
               starts_with
                 (EGenerateContent
                    {| apiKey := ""; model := "gemini-2.5-flash";
                       contents := ContentString (geminiService.fullPrompt prompt context);
                       config := geminiService.suggestionsConfig |})
                 (geminiService.refineTextPrompt env engine prompt context) w)).
Proof.
  intros env engine w. split.
  - intros Hkey. apply missing_openai_key in Hkey.
    split; [| split; [| split]].
    + intros prompt. unfold openaiService.generateImageFromText. now rewrite Hkey.
    + intros. unfold openaiService.editImage. now rewrite Hkey.
    + intros. unfold openaiService.refineTextPrompt. now rewrite Hkey.
    + intros response data err w1 Hok Hjson Herr.
      eexists. split.
      * unfold openaiService.rejectNotOk, bind, lift, throw.
        rewrite Hok, Hjson, Herr. cbn. reflexivity.
      * cbn. intros H. discriminate H.
  - intros Hkey. apply missing_gemini_key in Hkey.
    split; [| split].
    + intros prompt. unfold geminiService.generateImageFromText.
      apply starts_with_bind; [| intro; apply imageOf_grows].
      unfold geminiService.withRetry, geminiService.imageCall,
        geminiService.ai_generateContent.
      rewrite Hkey. apply withRetry_generateContent_starts.
    + intros. unfold geminiService.editImage. cbv zeta.
      apply starts_with_bind; [| intro; apply imageOf_grows].
      unfold geminiService.withRetry, geminiService.imageCall,
        geminiService.ai_generateContent.
      rewrite Hkey. apply withRetry_generateContent_starts.
    + intros. unfold geminiService.refineTextPrompt.
      apply starts_with_bind.
      * unfold geminiService.withRetry, geminiService.refineCall,
          geminiService.ai_generateContent.
        rewrite Hkey. apply withRetry_generateContent_starts.
      * intro response. grow.
Qed.

Lemma missing_key_behaviour_witness :
  openaiService.editImage Sample.noKeys Sample.engine Sample.imgA "add a tree"
    None (Some 50) (Some Sample.imgB) Sample.flaky
  = (Throw (Error "OpenAI API key is not configured."), Sample.flaky)
  /\ starts_with
       (EGenerateContent
          {| apiKey := ""; model := "gemini-2.5-flash-image";
             contents := ContentParts [text "a house"];
             config := geminiService.imageConfig |})
       (geminiService.generateImageFromText Sample.noKeys "a house") Sample.flaky.
Proof.
  destruct (missing_key_behaviour Sample.noKeys Sample.engine Sample.flaky)
    as [Hopenai Hgemini].
  split.
  - apply (proj1 (proj2 (Hopenai (or_introl eq_refl)))).
  - apply (proj1 (Hgemini (or_introl eq_refl))).
Defined.

End ProviderClaims.

Section EditRequestClaims.

Import Types Js Wire Effects Notions RetryFacts ServiceFacts.

(** The parts [editImage] of the Gemini service builds without a mask
    are the parts of a general edit. *)
Lemma editParts_general (baseImage : ImageFile) (prompt : string)
    (overlayImage : option ImageFile) (intensity : option Z) :
  geminiService.editParts baseImage prompt overlayImage intensity None
  = generalEditParts baseImage prompt overlayImage intensity.
Proof.
  unfold geminiService.editParts, generalEditParts, intensityQualifier,
    geminiService.fileToGenerativePart, Truthy.num.
  do 3 f_equal.
  destruct intensity as [n |]; [destruct (n =? 0); cbn [negb] |];
    rewrite ?append_assoc; reflexivity.
Qed.

(** C5, as the claim has it, fails for the OpenAI variant: with its
    key configured, an edit without mask (and without overlay) is
    refused with the "requires a mask" error and nothing is sent. *)
Lemma openai_edit_without_mask_refused :
  env_OPENAI_API_KEY Sample.bothKeys = Some "sk-test"
  /\ openaiService.editImage Sample.bothKeys Sample.engine Sample.imgA "add a tree"
       None (Some 50) None Sample.flaky
     = (Throw (Error "The OpenAI provider requires a mask for image editing. Please use the 'Guided Edit' mode, draw on the image to create a mask, and provide instructions."),
        Sample.flaky)
  /\ trace Sample.flaky = [].
Proof. repeat split. Qed.

(** C5, amended.  Without a mask, the Gemini variant's [editImage]
    first sends one request whose parts are those of a general edit:
    the base image, the overlay when present, and the instruction
    followed by " The modification intensity should be around N%."
    when the intensity is a number other than zero.  The OpenAI
    variant builds no request without a mask: it throws and sends
    nothing, the error being "not configured" when the key is
    missing, else "overlay not supported" when an overlay is given,
    else "requires a mask". *)
Theorem edit_without_mask :
  forall (env : ProcessEnv) (engine : Builtins) (baseImage : ImageFile) (prompt : string)
         (overlayImage : option ImageFile) (intensity : option Z) (w : World),
    starts_with
      (EGenerateContent
         {| apiKey := geminiService.API_KEY env; model := "gemini-2.5-flash-image";
            contents := ContentParts (generalEditParts baseImage prompt overlayImage intensity);
            config := geminiService.imageConfig |})
      (geminiService.editImage env baseImage prompt overlayImage intensity None) w
    /\ openaiService.editImage env engine baseImage prompt overlayImage intensity None w
       = (Throw (if negb (Truthy.str (openaiService.API_KEY env))
                 then openaiService.notConfigured
                 else match overlayImage with
                      | Some _ => openaiService.overlayUnsupported
                      | None => openaiService.maskRequired
                      end),
          w).
Proof.
  intros env engine baseImage prompt overlayImage intensity w. split.
  - unfold geminiService.editImage. cbv zeta.
    apply starts_with_bind.
    + unfold geminiService.withRetry, geminiService.imageCall,
        geminiService.ai_generateContent.
      rewrite editParts_general. apply withRetry_generateContent_starts.
    + intro response. unfold geminiService.imageOf. grow.
  - unfold openaiService.editImage.
    destruct (negb (Truthy.str (openaiService.API_KEY env))); [reflexivity |].
    destruct overlayImage; reflexivity.
Qed.

End EditRequestClaims.

Section RefineClaims.

Import Types Js Wire Effects Notions RetryFacts ServiceFacts.

(** C8.  The fallback itself throws when the reply carries no text.
    With a chat completion whose [content] is null, the OpenAI
    [refineTextPrompt] throws "No content from OpenAI." inside its
    [try], logs it from the [catch] block, and there evaluates
    [content.trim()] on null: the call ends in that [TypeError]
    instead of returning a one-element list.  The Gemini
    [refineTextPrompt] does the same when the response has no text:
    [JSON.parse] rejects it, and the [catch] block's
    [response.text.trim()] throws. *)
Theorem refine_fallback_throws_without_text :
  let openai := openaiService.refineTextPrompt Sample.bothKeys Sample.engine
                  "add a tree" "No predefined style" (Sample.chatting JNull) in
  let gemini := geminiService.refineTextPrompt Sample.bothKeys Sample.engine
                  "add a tree" "No predefined style" Sample.wordless in
  fst openai = Throw (TypeError "Cannot read properties of null (reading 'trim')")
  /\ trace (snd openai)
     = [ EFetch (openaiService.chatRequest Sample.bothKeys "add a tree"
                   "No predefined style");
         EConsole Err "Failed to parse suggestions from OpenAI: No content from OpenAI." ]
  /\ fst gemini = Throw (TypeError "Cannot read properties of undefined (reading 'trim')")
  /\ exists request,
       trace (snd gemini)
       = [ EGenerateContent request;
           EConsole Err "Failed to parse suggestions from Gemini: Unexpected token" ].
Proof.
  cbv zeta. split; [reflexivity |]. split; [reflexivity |]. split; [reflexivity |].
  eexists. reflexivity.
Qed.

(** Where the reply does carry a text, the fallback works.  When the
    reply finally obtained carries a text [t] from which no
    suggestions can be had ([JSON.parse] throws, or the parsed value
    has no non-empty array under [suggestions]), both services return
    the one-element list holding [t.trim()], and do not throw. *)
Lemma refine_fallback :
  forall (env : ProcessEnv) (engine : Builtins) (prompt context : string)
         (w : World) (t : string),
    unparsed engine t ->
    (forall response w1,
        geminiService.withRetry (geminiService.refineCall env prompt context) 3 1000 w
        = (Ok response, w1) ->
        response_text response = Some t ->
        fst (geminiService.refineTextPrompt env engine prompt context w)
        = Ok [JStr (trim t)])
    /\ (forall response w1 data choices choice,
           openaiService.API_KEY env <> "" ->
           openaiService.withRetry
             (fetch (openaiService.chatRequest env prompt context)) 3 1000 w
           = (Ok response, w1) ->
           ok response = true ->
           json response = Ok data ->
           getProp (Some data) "choices" = Ok choices ->
           getIndex0 choices = Ok choice ->
           getPropOpt (getPropOpt choice "message") "content" = Some (JStr t) ->
           fst (openaiService.refineTextPrompt env engine prompt context w)
           = Ok [JStr (trim t)]).
Proof.
  intros env engine prompt context w t Hun. unfold unparsed in Hun. split.
  - intros response w1 Hrun Htext.
    unfold geminiService.refineTextPrompt, bind. rewrite Hrun.
    unfold try_catch, bind, lift, geminiService.textValue. rewrite Htext.
    cbn [toString toStringJ].
    destruct (JSON_parse engine t) as [j | e]; [| reflexivity].
    destruct (getProp (Some j) "suggestions") as [[[] |] | e];
      try reflexivity.
    destruct items; [reflexivity | contradiction].
  - intros response w1 data choices choice Hkey Hrun Hok Hjson Hchoices Hchoice Hcontent.
    unfold openaiService.refineTextPrompt.
    replace (Truthy.str (openaiService.API_KEY env)) with true
      by (destruct (openaiService.API_KEY env); [congruence | reflexivity]).
    cbn [negb]. unfold bind. rewrite Hrun.
    unfold openaiService.rejectNotOk. rewrite Hok. cbn [negb ret].
    unfold lift. rewrite Hjson, Hchoices, Hchoice, Hcontent.
    unfold try_catch, bind. cbn [truthy toString toStringJ].
    destruct t as [| c t]; [reflexivity |].
    cbn [Truthy.str negb].
    destruct (JSON_parse engine (String c t)) as [j | e]; [| reflexivity].
    destruct (getProp (Some j) "suggestions") as [[[] |] | e];
      try reflexivity.
    destruct items; [reflexivity | contradiction].
Qed.

Lemma refine_fallback_witness :
  fst (openaiService.refineTextPrompt Sample.bothKeys Sample.engine
         "add a tree" "No predefined style" (Sample.chatting (JStr " plain words ")))
  = Ok [JStr (trim " plain words ")].
Proof.
  destruct (refine_fallback Sample.bothKeys Sample.engine "add a tree"
              "No predefined style" (Sample.chatting (JStr " plain words "))
              " plain words " I) as [_ Hopenai].
  apply (Hopenai (Sample.chatReply (JStr " plain words "))
           (record (Sample.chatting (JStr " plain words "))
              [EFetch (openaiService.chatRequest Sample.bothKeys "add a tree"
                         "No predefined style")])
           (Sample.chatData (JStr " plain words "))
           (Some (JArr [Sample.chatChoice (JStr " plain words ")]))
           (Some (Sample.chatChoice (JStr " plain words "))));
    try reflexivity.
  vm_compute. discriminate.
Defined.

End RefineClaims.

(** * Further properties of the session controller *)

Module SessionFacts.

Import Types Js Effects App Notions RetryFacts.

Lemma pushHistory_cons (image : ImageFile) (prev : list ImageFile) :
  pushHistory image prev = image :: firstn 9 prev.
Proof. rewrite AppFacts.pushHistory_firstn. reflexivity. Qed.

Lemma handleUndo_empty (s : State) : undoHistory s = [] -> handleUndo s = s.
Proof. intros H. unfold handleUndo. now rewrite H. Qed.

Lemma iter_handleUndo_history (j : nat) :
  forall s, (j <= length (undoHistory s))%nat ->
    undoHistory (Nat.iter j handleUndo s) = skipn j (undoHistory s)
    /\ ((0 < j)%nat ->
        inputImage (Nat.iter j handleUndo s) = undoHistory s !! (j - 1)%nat
        /\ overlayImage (Nat.iter j handleUndo s) = None).
Proof.
  induction j as [| j IH]; intros s Hj.
  - split; [reflexivity | lia].
  - destruct (IH s ltac:(lia)) as [Hh _].
    change (Nat.iter (S j) handleUndo s) with (handleUndo (Nat.iter j handleUndo s)).
    remember (Nat.iter j handleUndo s) as sj eqn:Esj.
    destruct (lookup_lt_is_Some_2 (undoHistory s) j ltac:(lia)) as [x Hx].
    rewrite (drop_S _ _ _ Hx) in Hh.
    unfold handleUndo. rewrite Hh. cbn.
    replace (j - 0)%nat with j by lia.
    split; [reflexivity |]. intros _. now rewrite Hx.
Qed.

Lemma iter_handleUndo_stops (k : nat) :
  forall s, undoHistory s = [] -> Nat.iter k handleUndo s = s.
Proof.
  induction k as [| k IH]; intros s H; [reflexivity |].
  change (Nat.iter (S k) handleUndo s) with (handleUndo (Nat.iter k handleUndo s)).
  rewrite IH by exact H. now apply handleUndo_empty.
Qed.

Section Calls.

Variable env : ProcessEnv.
Variable engine : Builtins.
Variable auth : bool.
Variable firebaseError : option string.

(** What [handleApiCall] does to the world does not depend on the
    success continuation. *)
Lemma handleApiCall_world {T} (apiCall : M T) (on1 on2 : T -> State -> State)
    (s : State) (w : World) :
  snd (handleApiCall auth firebaseError apiCall on1 s w)
  = snd (handleApiCall auth firebaseError apiCall on2 s w).
Proof.
  unfold handleApiCall.
  destruct (negb auth || negb (currentUser s)); [reflexivity |].
  unfold bind, try_catch, console, emit, ret. cbn.
  destruct (apiCall _) as [[t | e] w1]; reflexivity.
Qed.

Lemma handleApiCall_blocked {T} (apiCall : M T) (onSuccess : T -> State -> State)
    (s : State) (w : World) :
  auth = false \/ currentUser s = false ->
  exists message,
    handleApiCall auth firebaseError apiCall onSuccess s w
    = (Ok (setError (Some message) s), w).
Proof.
  intros H. unfold handleApiCall.
  replace (negb auth || negb (currentUser s)) with true
    by (destruct H as [-> | ->]; [reflexivity | now rewrite orb_true_r]).
  eexists. reflexivity.
Qed.

(** The fields of the session that [handleApiCall] leaves alone when
    the success continuation does. *)
Lemma handleApiCall_frame {T} (apiCall : M T) (onSuccess : T -> State -> State)
    (s : State) (w : World) :
  (forall t s0, inputImage (onSuccess t s0) = inputImage s0
                /\ overlayImage (onSuccess t s0) = overlayImage s0
                /\ view (onSuccess t s0) = view s0) ->
  exists s' w',
    handleApiCall auth firebaseError apiCall onSuccess s w = (Ok s', w')
    /\ inputImage s' = inputImage s
    /\ overlayImage s' = overlayImage s
    /\ view s' = view s.
Proof.
  intros Hon. unfold handleApiCall.
  destruct (negb auth || negb (currentUser s)).
  - eexists _, _. repeat split.
  - unfold bind, try_catch, console, emit, ret. cbn.
    destruct (apiCall _) as [[t | e] w1]; cbn.
    + eexists _, _. split; [reflexivity |]. cbn.
      destruct (Hon t (setError None (setIsLoading true s))) as (H1 & H2 & H3).
      now rewrite H1, H2, H3.
    + eexists _, _. repeat split.
Qed.

Lemma step_api_frame (a : Action) (s : State) (w : World) :
  match a with
  | CreateGenerate _ _ _ | EnhanceProcess _ _ _ _ _ | Regenerate => True
  | _ => False
  end ->
  exists s' w',
    step env engine auth firebaseError a s w = (Ok s', w')
    /\ inputImage s' = inputImage s
    /\ overlayImage s' = overlayImage s.
Proof.
  destruct a as [v | p | b | | file | file | | pr st res | pr st n ov mk | | | | |];
    try contradiction; intros _; cbn [step].
  - unfold handleCreateGenerate.
    edestruct (handleApiCall_frame (T := string)) as (s' & w' & Hrun & Hi & Ho & _);
      [| exists s', w'; split; [exact Hrun | cbn in Hi, Ho; split; congruence]].
    intros t s0. repeat split.
  - unfold handleEnhanceProcess. destruct (inputImage s) as [img |] eqn:Himg.
    + edestruct (handleApiCall_frame (T := string)) as (s' & w' & Hrun & Hi & Ho & _);
        [| exists s', w'; split; [exact Hrun | cbn in Hi, Ho; split; congruence]].
      intros t s0. repeat split.
    + eexists _, _. split; [reflexivity |]. split; [now rewrite Himg | reflexivity].
  - unfold handleRegenerate. destruct (generatedOutput s) as [g |].
    + unfold bind, emit. cbn. destruct (type g).
      * unfold handleCreateGenerate.
        edestruct (handleApiCall_frame (T := string)) as (s' & w' & Hrun & Hi & Ho & _);
          [| exists s', w'; split; [exact Hrun | cbn in Hi, Ho; split; congruence]].
        intros t s0. repeat split.
      * unfold handleEnhanceProcess. cbn [inputImage setIsResultModalOpen].
        destruct (inputImage s) as [img |] eqn:Himg.
        -- edestruct (handleApiCall_frame (T := string)) as (s' & w' & Hrun & Hi & Ho & _);
             [| exists s', w'; split; [exact Hrun | cbn in Hi, Ho; split; congruence]].
           intros t s0. repeat split.
        -- eexists _, _. split; [reflexivity |]. cbn. split; congruence.
    + eexists _, _. repeat split.
Qed.

End Calls.

End SessionFacts.

Section SessionProperties.

Import Types Js Effects App Notions RetryFacts SessionFacts.

(** X1.  Undo after a change of base image: when a base image is
    present, setting the base image (to a new image or to none) and
    then undoing brings that image back, with no overlay; the history
    is the former one cut to nine entries, hence the former one itself
    when it held fewer than ten. *)
Theorem undo_after_set_restores_image :
  forall (s : State) (current : ImageFile) (file : option ImageFile),
    inputImage s = Some current ->
    let after := handleUndo (handleSetInputImage file s) in
    inputImage after = Some current
    /\ overlayImage after = None
    /\ undoHistory after = firstn 9 (undoHistory s)
    /\ ((length (undoHistory s) < 10)%nat -> undoHistory after = undoHistory s).
Proof.
  intros s current file Hcur after. subst after.
  unfold handleSetInputImage. rewrite Hcur. cbn [addImageToUndoHistory].
  unfold handleUndo. cbn [undoHistory setOverlayImage setInputImage setUndoHistory].
  rewrite pushHistory_cons. cbn. repeat split.
  intros Hlen. apply firstn_all2. lia.
Qed.

Lemma undo_after_set_restores_image_witness :
  inputImage (handleUndo (handleSetInputImage None Sample.editing)) = Some Sample.imgA
  /\ undoHistory (handleUndo (handleSetInputImage None Sample.editing)) = [].
Proof.
  destruct (undo_after_set_restores_image Sample.editing Sample.imgA None eq_refl)
    as (Hi & _ & _ & Hh).
  split; [exact Hi | apply Hh; vm_compute; lia].
Defined.

(** X2.  The undo chain: [j] undos, for [j] up to the length of the
    history, leave the history without its first [j] entries and, for
    [j] at least one, show entry number [j] (counted from the most
    recent) with no overlay; once the history is empty a further undo
    changes nothing. *)
Theorem undo_chain :
  forall (s : State) (j k : nat),
    (j <= length (undoHistory s))%nat ->
    undoHistory (Nat.iter j handleUndo s) = skipn j (undoHistory s)
    /\ ((0 < j)%nat ->
        inputImage (Nat.iter j handleUndo s) = undoHistory s !! (j - 1)%nat
        /\ overlayImage (Nat.iter j handleUndo s) = None)
    /\ Nat.iter (length (undoHistory s) + k) handleUndo s
       = Nat.iter (length (undoHistory s)) handleUndo s.
Proof.
  intros s j k Hj.
  destruct (iter_handleUndo_history j s Hj) as [Hh Hi].
  split; [exact Hh |]. split; [exact Hi |].
  rewrite Nat.add_comm, Nat.iter_add.
  apply iter_handleUndo_stops.
  destruct (iter_handleUndo_history (length (undoHistory s)) s (le_n _)) as [Hall _].
  rewrite Hall. apply skipn_all.
Qed.

Lemma undo_chain_witness :
  inputImage (Nat.iter 3 handleUndo Sample.editingFull) = Some (Sample.upload 2)
  /\ length (undoHistory (Nat.iter 3 handleUndo Sample.editingFull)) = 7%nat.
Proof.
  destruct (undo_chain Sample.editingFull 3 0 ltac:(vm_compute; lia)) as (Hh & Hi & _).
  split.
  - destruct (Hi ltac:(lia)) as [Himg _]. rewrite Himg. reflexivity.
  - rewrite Hh. reflexivity.
Defined.

(** X3.  A session that is not signed in, or has no [Auth] object,
    never reaches a provider: whatever the action, it completes
    without a [fetch] or [generateContent] call and without touching
    the stored result. *)
Theorem signed_out_session_calls_no_provider :
  forall env engine (auth : bool) firebaseError (a : Action) (s : State) (w : World),
    auth = false \/ currentUser s = false ->
    exists s' w',
      step env engine auth firebaseError a s w = (Ok s', w')
      /\ fetched w' = fetched w
      /\ generated w' = generated w
      /\ generatedOutput s' = generatedOutput s.
Proof.
  intros env engine auth firebaseError a s w Hout.
  destruct a as [v | p | b | | file | file | | pr st res | pr st n ov mk | | | | |];
    cbn [step]; try (eexists _, _; split; [reflexivity | repeat split]).
  - unfold handleSetInputImage. now destruct (inputImage s).
  - unfold handleUndo. now destruct (undoHistory s).
  - unfold handleCreateGenerate.
    edestruct (handleApiCall_blocked auth firebaseError (T := string)) as [m ->];
      [exact Hout |].
    eexists _, _. repeat split.
  - unfold handleEnhanceProcess. destruct (inputImage s).
    + edestruct (handleApiCall_blocked auth firebaseError (T := string)) as [m ->];
        [exact Hout |].
      eexists _, _. repeat split.
    + eexists _, _. repeat split.
  - unfold handleRegenerate. destruct (generatedOutput s) as [g |] eqn:Hg.
    + unfold bind, emit. cbn. destruct (type g).
      * unfold handleCreateGenerate.
        edestruct (handleApiCall_blocked auth firebaseError (T := string)) as [m ->];
          [exact Hout |].
        eexists _, _. split; [reflexivity |].
        rewrite fetched_record, generated_record. cbn. repeat split; try lia.
        exact Hg.
      * unfold handleEnhanceProcess. cbn [inputImage setIsResultModalOpen].
        destruct (inputImage s).
        -- edestruct (handleApiCall_blocked auth firebaseError (T := string)) as [m ->];
             [exact Hout |].
           eexists _, _. split; [reflexivity |].
           rewrite fetched_record, generated_record. cbn. repeat split; try lia.
           exact Hg.
        -- eexists _, _. split; [reflexivity |].
           rewrite fetched_record, generated_record. cbn. repeat split; try lia.
           exact Hg.
    + eexists _, _. repeat split. exact Hg.
  - unfold handleContinueEditing.
    destruct (generatedOutput s) as [g |] eqn:Hg; [| exact Hg].
    destruct (Truthy.str (outputImage g)); [| exact Hg].
    cbn. destruct (inputImage s); exact Hg.
  - unfold handleSendToEnhance.
    destruct (generatedOutput s) as [g |] eqn:Hg; [| exact Hg].
    destruct (type g); [| exact Hg].
    destruct (Truthy.str (outputImage g)); exact Hg.
Qed.

Lemma signed_out_session_calls_no_provider_witness :
  exists s' w',
    step Sample.bothKeys Sample.engine true None
      (CreateGenerate "a house" "Minimalist" "1024x1024") initial Sample.flaky = (Ok s', w')
    /\ fetched w' = 0%nat /\ generated w' = 0%nat /\ generatedOutput s' = None.
Proof.
  apply (signed_out_session_calls_no_provider Sample.bothKeys Sample.engine true None
           (CreateGenerate "a house" "Minimalist" "1024x1024") initial Sample.flaky).
  right. reflexivity.
Defined.

(** X4.  A failed call keeps the session: when the signed-in user's
    call ends in a thrown error, [handleApiCall] leaves the base image,
    the overlay, the history, the stored result, the view and the
    modal flag as they were, shows the error's message and ends with
    the loading flag off. *)
Theorem failed_call_keeps_session :
  forall (T : Type) firebaseError (apiCall : M T) (onSuccess : T -> State -> State)
         (s : State) (w w2 : World) (e : Exn),
    currentUser s = true ->
    apiCall (record w [EConsole Log ("Starting API call with "
                                     +++ providerName (aiProvider s) +++ "...")])
    = (Throw e, w2) ->
    exists s' w',
      handleApiCall true firebaseError apiCall onSuccess s w = (Ok s', w')
      /\ error s' = Some (message e)
      /\ isLoading s' = false
      /\ inputImage s' = inputImage s
      /\ overlayImage s' = overlayImage s
      /\ undoHistory s' = undoHistory s
      /\ generatedOutput s' = generatedOutput s
      /\ view s' = view s
      /\ isResultModalOpen s' = isResultModalOpen s.
Proof.
  intros T firebaseError apiCall onSuccess s w w2 e Huser Hcall.
  unfold handleApiCall. rewrite Huser. cbn [negb orb].
  unfold bind, try_catch, console, emit, ret. cbv beta iota.
  rewrite Hcall. cbn. eexists _, _. repeat split.
Qed.

Lemma failed_call_keeps_session_witness :
  exists s' w',
    handleApiCall true None
      (openaiService.editImage Sample.noKeys Sample.engine Sample.imgA
         "add a tree" None (Some 50) (Some Sample.imgB))
      (fun _ s0 => s0)
      (setAiProvider openai Sample.editing) Sample.flaky = (Ok s', w')
    /\ error s' = Some "OpenAI API key is not configured."
    /\ isLoading s' = false
    /\ inputImage s' = Some Sample.imgA.
Proof.
  destruct (failed_call_keeps_session string None
              (openaiService.editImage Sample.noKeys Sample.engine Sample.imgA
                 "add a tree" None (Some 50) (Some Sample.imgB))
              (fun _ s0 => s0)
              (setAiProvider openai Sample.editing) Sample.flaky
              (record Sample.flaky [EConsole Log "Starting API call with openai..."])
              (Error "OpenAI API key is not configured.") eq_refl eq_refl)
    as (s' & w' & Hrun & He & Hl & Hi & _).
  exists s', w'. repeat split; assumption.
Defined.

(** X5.  A successful edit stores the result and nothing else: for a
    signed-in user with a base image, when the provider's [editImage]
    returns [out], [handleEnhanceProcess] stores an enhance result
    holding the prompt, style and intensity, the base image's data as
    input snapshot, [out] as output and the data of overlay and mask,
    opens the result modal, clears error and loading flag, and leaves
    base image, overlay and history as they were. *)
Theorem enhance_success_stores_result :
  forall env engine firebaseError (p st : string) (n : Z) (ov mk : option ImageFile)
         (s : State) (w w2 : World) (img : ImageFile) (out : string),
    currentUser s = true ->
    inputImage s = Some img ->
    match aiProvider s with
    | gemini => geminiService.editImage env img p ov (Some n) mk
    | openai => openaiService.editImage env engine img p ov (Some n) mk
    end (record w [EConsole Log ("Starting API call with "
                                 +++ providerName (aiProvider s) +++ "...")])
    = (Ok out, w2) ->
    exists s',
      handleEnhanceProcess env engine true firebaseError p st n ov mk s w
      = (Ok s', record w2 [EConsole Log "API call successful."])
      /\ generatedOutput s'
         = Some {| type := enhance; prompt := p; style := st; resolution := None;
                   Types.inputImage := Some (base64 img); outputImage := out;
                   Types.overlayImage := base64OrNull ov;
                   maskImage := base64OrNull mk; intensity := Some n |}
      /\ isResultModalOpen s' = true
      /\ isLoading s' = false
      /\ error s' = None
      /\ inputImage s' = Some img
      /\ overlayImage s' = overlayImage s
      /\ undoHistory s' = undoHistory s.
Proof.
  intros env engine firebaseError p st n ov mk s w w2 img out Huser Himg Hcall.
  unfold handleEnhanceProcess. rewrite Himg. cbv zeta.
  unfold handleApiCall. rewrite Huser. cbn [negb orb].
  unfold bind, try_catch, console, emit, ret. cbv beta iota.
  rewrite Hcall. cbv beta iota.
  eexists. split; [reflexivity |]. cbn. repeat split. exact Himg.
Qed.

Lemma enhance_success_stores_result_witness :
  exists s' w',
    handleEnhanceProcess Sample.bothKeys Sample.engine true None
      "add a tree" "Guided Edit" 50 None None Sample.editing Sample.flaky = (Ok s', w')
    /\ option_map outputImage (generatedOutput s') = Some "UkVT"
    /\ inputImage s' = Some Sample.imgA
    /\ generated w' = 3%nat.
Proof.
  destruct (enhance_success_stores_result Sample.bothKeys Sample.engine None
              "add a tree" "Guided Edit" 50 None None Sample.editing Sample.flaky
              (snd (geminiService.editImage Sample.bothKeys Sample.imgA "add a tree"
                      None (Some 50) None
                      (record Sample.flaky
                         [EConsole Log "Starting API call with gemini..."])))
              Sample.imgA "UkVT" eq_refl eq_refl)
    as (s' & Hrun & Hg & _ & _ & _ & Hi & _).
  { vm_compute. reflexivity. }
  eexists _, _. split; [exact Hrun |]. split; [now rewrite Hg |].
  split; [exact Hi | vm_compute; reflexivity].
Defined.

(** X6.  The style and the resolution chosen on the Create tab never
    reach a provider: [handleCreateGenerate] performs the same effects,
    request for request, whatever style and resolution it is given;
    they only label the stored result. *)
Theorem create_request_ignores_style_and_resolution :
  forall env auth firebaseError (p style1 resolution1 style2 resolution2 : string)
         (s : State) (w : World),
    snd (handleCreateGenerate env auth firebaseError p style1 resolution1 s w)
    = snd (handleCreateGenerate env auth firebaseError p style2 resolution2 s w).
Proof.
  intros. unfold handleCreateGenerate. apply handleApiCall_world.
Qed.

(** X7.  Whenever an action changes the base image, the overlay is
    gone afterwards, and the action is one of upload or removal, undo,
    continue editing and send to enhance: no other action touches the
    base image. *)
Theorem base_image_change_clears_overlay :
  forall env engine auth firebaseError (a : Action) (s s' : State) (w w' : World),
    step env engine auth firebaseError a s w = (Ok s', w') ->
    inputImage s' <> inputImage s ->
    overlayImage s' = None
    /\ ((exists file, a = SetInputImage file)
        \/ a = Undo \/ a = ContinueEditing \/ a = SendToEnhance).
Proof.
  intros env engine auth firebaseError a s s' w w' Hstep Hchanged.
  destruct a as [v | p | b | | file | file | | pr st res | pr st n ov mk | | | | |];
    cbn [step] in Hstep;
    try (injection Hstep as <- <-; cbn in Hchanged; congruence);
    try (match type of Hstep with
         | ?run = _ =>
             match run with
             | context [handleCreateGenerate _ _ _ ?x ?y ?z ?s0 ?w0] =>
                 destruct (step_api_frame env engine auth firebaseError
                             (CreateGenerate x y z) s0 w0 I)
                   as (s1 & w1 & Hrun & Hi & _)
             | context [handleEnhanceProcess _ _ _ _ ?x ?y ?z ?o ?m ?s0 ?w0] =>
                 destruct (step_api_frame env engine auth firebaseError
                             (EnhanceProcess x y z o m) s0 w0 I)
                   as (s1 & w1 & Hrun & Hi & _)
             | context [handleRegenerate _ _ _ _ ?s0 ?w0] =>
                 destruct (step_api_frame env engine auth firebaseError
                             Regenerate s0 w0 I)
                   as (s1 & w1 & Hrun & Hi & _)
             end
         end;
         cbn [step] in Hrun; rewrite Hrun in Hstep; injection Hstep as <- <-;
         congruence).
  - split; [| left; eexists; reflexivity].
    injection Hstep as <- <-. reflexivity.
  - split; [| right; left; reflexivity].
    injection Hstep as <- <-. unfold handleUndo in *.
    destruct (undoHistory s); [congruence | reflexivity].
  - split; [| right; right; left; reflexivity].
    injection Hstep as <- <-. unfold handleContinueEditing in *.
    destruct (generatedOutput s) as [g |]; [| congruence].
    destruct (Truthy.str (outputImage g)); [reflexivity | congruence].
  - split; [| right; right; right; reflexivity].
    injection Hstep as <- <-. unfold handleSendToEnhance in *.
    destruct (generatedOutput s) as [g |]; [| congruence].
    destruct (type g); [| congruence].
    destruct (Truthy.str (outputImage g)); [reflexivity | congruence].
Qed.

Lemma base_image_change_clears_overlay_witness :
  overlayImage (handleUndo (setOverlayImage (Some Sample.imgB) Sample.editingFull)) = None
  /\ ((exists file, Undo = SetInputImage file)
      \/ Undo = Undo \/ Undo = ContinueEditing \/ Undo = SendToEnhance).
Proof.
  apply (base_image_change_clears_overlay Sample.bothKeys Sample.engine true None Undo
           (setOverlayImage (Some Sample.imgB) Sample.editingFull) _
           Sample.flaky Sample.flaky eq_refl).
  vm_compute. discriminate.
Defined.

End SessionProperties.

(** * Further properties of the retry wrapper *)

Module RetryMore.

Import Js Wire Effects Notions RetryFacts.

Section Generic.

Context {T : Type}.
Variable retryLine : Z -> Z -> string.
Variable exceeded : string.

Lemma withRetry_exhausted (fn : M T) (retries initialDelay : Z) (w : World) :
  retries <= 0 ->
  withRetry_with retryLine exceeded fn retries initialDelay w
  = (Throw (Error exceeded), w).
Proof.
  intros H. unfold withRetry_with. rewrite withRetry_loop_unfold.
  destruct (Z_lt_dec 0 retries); [lia | reflexivity].
Qed.

Lemma withRetry_immediate (fn : M T) (retries initialDelay : Z) (w w1 : World) (a : T) :
  0 < retries ->
  fn w = (Ok a, w1) ->
  withRetry_with retryLine exceeded fn retries initialDelay w = (Ok a, w1).
Proof.
  intros H Hfn. unfold withRetry_with. rewrite withRetry_loop_unfold.
  destruct (Z_lt_dec 0 retries); [| lia]. now rewrite Hfn.
Qed.

End Generic.

(** The waits of [left] further failing attempts after [attempt]
    attempts were made. *)
Lemma schedule_step (initialDelay : Z) (attempt : Z) (n : nat) :
  map (fun j => initialDelay * 2 ^ (attempt + Z.of_nat j)) (seq 0 (S n))
  = (initialDelay * 2 ^ attempt)
      :: map (fun j => initialDelay * 2 ^ (attempt + 1 + Z.of_nat j)) (seq 0 n).
Proof.
  cbn [seq map]. rewrite Z.add_0_r. f_equal.
  rewrite <- seq_shift, map_map. apply map_ext. intros j. do 2 f_equal. lia.
Qed.

Section AlwaysFailing.

Variable retryLine : Z -> Z -> string.
Variable exceeded : string.

(** [fetch] against a network that rejects every call from now on. *)
Lemma withRetry_loop_fetch_failing (req : HttpRequest) (err : nat -> Exn)
    (initialDelay : Z) (n : nat) :
  forall (attempt : Z) (w : World),
    0 <= attempt ->
    (forall k, (fetched w <= k)%nat -> http w k = Throw (err k)) ->
    exists w',
      withRetry_loop retryLine exceeded (fetch req)
        (attempt + Z.of_nat (S n)) initialDelay attempt w
      = (Throw (err (fetched w + n)%nat), w')
      /\ fetched w' = (fetched w + S n)%nat
      /\ delays (trace w')
         = delays (trace w)
           ++ map (fun j => initialDelay * 2 ^ (attempt + Z.of_nat j)) (seq 0 n).
Proof.
  induction n as [| n IH]; intros attempt w Hpos Hfail;
    rewrite withRetry_loop_unfold;
    (destruct (Z_lt_dec attempt (attempt + Z.of_nat _)); [| lia]);
    rewrite fetch_run, (Hfail (fetched w)) by lia; cbv beta iota.
  - destruct (Z_ge_dec (attempt + 1) (attempt + Z.of_nat 1)); [| lia].
    eexists. split; [now rewrite Nat.add_0_r |].
    rewrite fetched_record. cbn. split; [lia |].
    rewrite delays_app. cbn. now rewrite !app_nil_r.
  - destruct (Z_ge_dec (attempt + 1) (attempt + Z.of_nat (S (S n)))); [lia |].
    cbv zeta.
    replace (attempt + Z.of_nat (S (S n))) with (attempt + 1 + Z.of_nat (S n)) by lia.
    replace (attempt + 1 - 1) with attempt by lia.
    set (w3 := backoff _ _ _).
    assert (Hf3 : fetched w3 = S (fetched w)).
    { subst w3. rewrite backoff_record, record_record, fetched_record. cbn. lia. }
    destruct (IH (attempt + 1) w3 ltac:(lia)) as (w' & Hrun & Hf & Hd).
    { intros k Hk. subst w3. rewrite backoff_record. cbn. apply Hfail. lia. }
    exists w'. rewrite Hrun, Hf3. split; [now rewrite Nat.add_succ_comm |].
    split; [rewrite Hf, Hf3; lia |].
    rewrite Hd, schedule_step. subst w3.
    rewrite delays_backoff. cbn. rewrite delays_app. cbn.
    now rewrite !app_nil_r, <- app_assoc.
Qed.

(** The same for [generateContent]. *)
Lemma withRetry_loop_generateContent_failing (req : GenerateContentParameters)
    (err : nat -> Exn) (initialDelay : Z) (n : nat) :
  forall (attempt : Z) (w : World),
    0 <= attempt ->
    (forall k, (generated w <= k)%nat -> genai w k = Throw (err k)) ->
    exists w',
      withRetry_loop retryLine exceeded (generateContent req)
        (attempt + Z.of_nat (S n)) initialDelay attempt w
      = (Throw (err (generated w + n)%nat), w')
      /\ generated w' = (generated w + S n)%nat
      /\ delays (trace w')
         = delays (trace w)
           ++ map (fun j => initialDelay * 2 ^ (attempt + Z.of_nat j)) (seq 0 n).
Proof.
  induction n as [| n IH]; intros attempt w Hpos Hfail;
    rewrite withRetry_loop_unfold;
    (destruct (Z_lt_dec attempt (attempt + Z.of_nat _)); [| lia]);
    rewrite generateContent_run, (Hfail (generated w)) by lia; cbv beta iota.
  - destruct (Z_ge_dec (attempt + 1) (attempt + Z.of_nat 1)); [| lia].
    eexists. split; [now rewrite Nat.add_0_r |].
    rewrite generated_record. cbn. split; [lia |].
    rewrite delays_app. cbn. now rewrite !app_nil_r.
  - destruct (Z_ge_dec (attempt + 1) (attempt + Z.of_nat (S (S n)))); [lia |].
    cbv zeta.
    replace (attempt + Z.of_nat (S (S n))) with (attempt + 1 + Z.of_nat (S n)) by lia.
    replace (attempt + 1 - 1) with attempt by lia.
    set (w3 := backoff _ _ _).
    assert (Hf3 : generated w3 = S (generated w)).
    { subst w3. rewrite backoff_record, record_record, generated_record. cbn. lia. }
    destruct (IH (attempt + 1) w3 ltac:(lia)) as (w' & Hrun & Hf & Hd).
    { intros k Hk. subst w3. rewrite backoff_record. cbn. apply Hfail. lia. }
    exists w'. rewrite Hrun, Hf3. split; [now rewrite Nat.add_succ_comm |].
    split; [rewrite Hf, Hf3; lia |].
    rewrite Hd, schedule_step. subst w3.
    rewrite delays_backoff. cbn. rewrite delays_app. cbn.
    now rewrite !app_nil_r, <- app_assoc.
Qed.

End AlwaysFailing.

End RetryMore.

Section RetryProperties.

Import Js Wire Effects Notions RetryFacts RetryMore.

(** X8.  The back-off schedule for any number of attempts: against a
    network that rejects every call, [withRetry] with [n + 1] attempts
    and initial delay [d] makes exactly [n + 1] calls, waits
    [d], [2 d], [4 d], ... ([n] waits, doubling) between them and
    throws the error of the last call; this holds for the [fetch]
    calls of the OpenAI service and the [generateContent] calls of the
    Gemini service. *)
Theorem withRetry_backoff_schedule :
  forall (n : nat) (d : Z) (err : nat -> Exn) (w : World),
    (forall req : HttpRequest,
        (forall k, (fetched w <= k)%nat -> http w k = Throw (err k)) ->
        exists w',
          openaiService.withRetry (fetch req) (Z.of_nat (S n)) d w
          = (Throw (err (fetched w + n)%nat), w')
          /\ fetched w' = (fetched w + S n)%nat
          /\ delays (trace w')
             = delays (trace w) ++ map (fun j => d * 2 ^ Z.of_nat j) (seq 0 n))
    /\ (forall req : GenerateContentParameters,
           (forall k, (generated w <= k)%nat -> genai w k = Throw (err k)) ->
           exists w',
             geminiService.withRetry (generateContent req) (Z.of_nat (S n)) d w
             = (Throw (err (generated w + n)%nat), w')
             /\ generated w' = (generated w + S n)%nat
             /\ delays (trace w')
                = delays (trace w) ++ map (fun j => d * 2 ^ Z.of_nat j) (seq 0 n)).
Proof.
  intros n d err w. split; intros req Hfail.
  - unfold openaiService.withRetry, withRetry_with.
    exact (withRetry_loop_fetch_failing _ _ req err d n 0 w (Z.le_refl 0) Hfail).
  - unfold geminiService.withRetry, withRetry_with.
    exact (withRetry_loop_generateContent_failing _ _ req err d n 0 w (Z.le_refl 0) Hfail).
Qed.

Lemma withRetry_backoff_schedule_witness :
  exists w',
    openaiService.withRetry (fetch Sample.request) 5 250 Sample.down
    = (Throw (TypeError "failure 4"), w')
    /\ fetched w' = 5%nat
    /\ delays (trace w') = [250; 500; 1000; 2000].
Proof.
  destruct (withRetry_backoff_schedule 4 250
              (fun k => TypeError ("failure " +++ showZ (Z.of_nat k))) Sample.down)
    as [Hopenai _].
  destruct (Hopenai Sample.request (fun k _ => eq_refl)) as (w' & Hrun & Hf & Hd).
  exists w'. split; [exact Hrun |]. split; [exact Hf | exact Hd].
Defined.

(** X9.  The two ends of [withRetry], in either service: with a
    number of attempts of zero or less the operation is never invoked
    and "Exceeded max retries" is thrown at once; with at least one
    attempt, an operation that succeeds at its first invocation is
    returned as it is, with no log line and no wait. *)
Theorem withRetry_edges :
  forall (T : Type) (fn : M T) (retries d : Z) (w : World),
    (retries <= 0 ->
     geminiService.withRetry fn retries d w
     = (Throw (Error "Exceeded max retries"), w)
     /\ openaiService.withRetry fn retries d w
        = (Throw (Error "Exceeded max retries with OpenAI API."), w))
    /\ (forall a w1,
           0 < retries ->
           fn w = (Ok a, w1) ->
           geminiService.withRetry fn retries d w = (Ok a, w1)
           /\ openaiService.withRetry fn retries d w = (Ok a, w1)).
Proof.
  intros T fn retries d w. split.
  - intros H. split; apply withRetry_exhausted; exact H.
  - intros a w1 H Hfn. split; apply withRetry_immediate; assumption.
Qed.

Lemma withRetry_edges_witness :
  openaiService.withRetry (fetch Sample.request) 0 1000 Sample.flaky
  = (Throw (Error "Exceeded max retries with OpenAI API."), Sample.flaky)
  /\ geminiService.withRetry (fetch Sample.request) 3 1000 (Sample.chatting JNull)
     = (Ok (Sample.chatReply JNull),
        record (Sample.chatting JNull) [EFetch Sample.request]).
Proof.
  split.
  - apply (proj1 (withRetry_edges _ (fetch Sample.request) 0 1000 Sample.flaky)).
    lia.
  - apply (proj2 (withRetry_edges _ (fetch Sample.request) 3 1000 (Sample.chatting JNull))
             (Sample.chatReply JNull)
             (record (Sample.chatting JNull) [EFetch Sample.request])).
    + lia.
    + reflexivity.
Defined.

End RetryProperties.

(** * Further properties of the provider services *)

Module ServiceMore.

Import Types Js Wire Effects Notions RetryFacts RetryMore ServiceFacts.

Lemma withRetry_fetch_starts (line : Z -> Z -> string) (exceeded : string)
    (req : HttpRequest) (w : World) :
  starts_with (EFetch req) (withRetry_with line exceeded (fetch req) 3 1000) w.
Proof.
  unfold starts_with. rewrite withRetry_three, fetch_run.
  destruct (http w (fetched w)) as [a | e1]; cbv beta iota; [now exists [] |].
  rewrite backoff_record, record_record, fetch_run.
  destruct (http _ _) as [a | e2]; cbv beta iota.
  - cbn [snd]. rewrite record_record. eexists. reflexivity.
  - rewrite backoff_record, !record_record, fetch_run. cbn [snd].
    rewrite record_record. eexists. reflexivity.
Qed.

(** A first answer is final: the retried [fetch] returns the first
    response it gets. *)
Lemma openai_fetch_answered (req : HttpRequest) (w : World) (response : HttpResponse) :
  http w (fetched w) = Ok response ->
  openaiService.withRetry (fetch req) 3 1000 w = (Ok response, record w [EFetch req]).
Proof.
  intros H. apply withRetry_immediate; [lia |]. now rewrite fetch_run, H.
Qed.

Lemma gemini_call_answered (req : GenerateContentParameters) (w : World)
    (response : GenerateContentResponse) :
  genai w (generated w) = Ok response ->
  geminiService.withRetry (generateContent req) 3 1000 w
  = (Ok response, record w [EGenerateContent req]).
Proof.
  intros H. apply withRetry_immediate; [lia |]. now rewrite generateContent_run, H.
Qed.

Lemma rejectNotOk_grows (response : HttpResponse) :
  grows (openaiService.rejectNotOk response).
Proof. unfold openaiService.rejectNotOk. grow. Qed.

Lemma b64Of_grows (response : HttpResponse) (missing : string) :
  grows (openaiService.b64Of response missing).
Proof. unfold openaiService.b64Of. grow. Qed.

Lemma key_present (key : string) : key <> "" -> Truthy.str key = true.
Proof. destruct key; [congruence | reflexivity]. Qed.

End ServiceMore.

Section ServiceProperties.

Import Types Js Wire Effects Notions RetryFacts RetryMore ServiceFacts ServiceMore.

(** X10.  A response the provider marks as not ok is final: when the
    first answer to an OpenAI request has [ok] false and a JSON body,
    each operation throws "OpenAI API Error: " followed by the body's
    [error.message] (the [statusText] when that is missing or empty)
    after that single [fetch]; the retry wrapper does not see it. *)
Theorem openai_error_response_not_retried :
  forall env engine (w : World) (response : HttpResponse) (data : Json) (err : Value),
    openaiService.API_KEY env <> "" ->
    http w (fetched w) = Ok response ->
    ok response = false ->
    json response = Ok data ->
    getProp (Some data) "error" = Ok err ->
    let failure :=
      Error ("OpenAI API Error: "
             +++ (if truthy (getPropOpt err "message")
                  then toString (getPropOpt err "message")
                  else statusText response)) in
    (forall prompt,
        openaiService.generateImageFromText env prompt w
        = (Throw failure, record w [EFetch (openaiService.generationRequest env prompt)]))
    /\ (forall prompt context,
           openaiService.refineTextPrompt env engine prompt context w
           = (Throw failure,
              record w [EFetch (openaiService.chatRequest env prompt context)]))
    /\ (forall baseImage prompt intensity maskImage imageBlob maskBlob,
           openaiService.base64ToBlob engine (base64 baseImage) (mimeType baseImage)
           = Ok imageBlob ->
           openaiService.base64ToBlob engine (base64 maskImage) (mimeType maskImage)
           = Ok maskBlob ->
           openaiService.editImage env engine baseImage prompt None intensity
             (Some maskImage) w
           = (Throw failure,
              record w [EFetch (openaiService.editRequest env
                                  [ ("image", FormFile imageBlob "base_image.png");
                                    ("mask", FormFile maskBlob "mask_image.png");
                                    ("prompt", FormText prompt);
                                    ("n", FormText "1");
                                    ("size", FormText "1024x1024");
                                    ("response_format", FormText "b64_json") ])])).
Proof.
  intros env engine w response data err Hkey Hhttp Hok Hjson Herr failure.
  apply key_present in Hkey.
  assert (Hrej : forall w1, openaiService.rejectNotOk response w1 = (Throw failure, w1)).
  { intros w1. unfold openaiService.rejectNotOk, bind, lift, throw.
    now rewrite Hok, Hjson, Herr. }
  split; [| split].
  - intros prompt. unfold openaiService.generateImageFromText. rewrite Hkey.
    cbn [negb]. unfold bind.
    rewrite (openai_fetch_answered _ _ _ Hhttp), Hrej. reflexivity.
  - intros prompt context. unfold openaiService.refineTextPrompt. rewrite Hkey.
    cbn [negb]. unfold bind.
    rewrite (openai_fetch_answered _ _ _ Hhttp), Hrej. reflexivity.
  - intros baseImage prompt intensity maskImage imageBlob maskBlob Hb Hm.
    unfold openaiService.editImage. rewrite Hkey. cbn [negb].
    unfold bind, lift. rewrite Hb, Hm. cbv beta iota zeta.
    rewrite (openai_fetch_answered _ _ _ Hhttp), Hrej. reflexivity.
Qed.

End ServiceProperties.

Section ServiceOutcomes.

Import Types Js Wire Effects Notions RetryFacts RetryMore ServiceFacts ServiceMore.

Lemma openai_error_response_not_retried_witness :
  openaiService.generateImageFromText Sample.bothKeys "a house" Scenario.unauthorized
  = (Throw (Error "OpenAI API Error: Incorrect API key provided."),
     record Scenario.unauthorized
       [EFetch (openaiService.generationRequest Sample.bothKeys "a house")]).
Proof.
  apply (proj1 (openai_error_response_not_retried Sample.bothKeys Sample.engine
                  Scenario.unauthorized _ _ _
                  ltac:(vm_compute; discriminate) eq_refl eq_refl eq_refl eq_refl)).
Defined.

(** X11.  The Gemini image operations look at one part only: once the
    provider has answered, [generateImageFromText] and [editImage]
    return the data of the first part of the first candidate when that
    part is an image, and otherwise throw "No image data received from
    API..." without another call, also when an image follows a text
    part or sits in a later candidate. *)
Theorem gemini_image_is_first_part_only :
  forall env (w : World) (response : GenerateContentResponse),
    genai w (generated w) = Ok response ->
    let outcome :=
      match candidates response with
      | (inlineData data _ :: _) :: _ => Ok data
      | _ => Throw (Error "No image data received from API. The request may have been blocked due to safety policies.")
      end in
    (forall prompt,
        geminiService.generateImageFromText env prompt w
        = (outcome,
           record w [EGenerateContent
                       {| apiKey := geminiService.API_KEY env;
                          model := "gemini-2.5-flash-image";
                          contents := ContentParts [text prompt];
                          config := geminiService.imageConfig |}]))
    /\ (forall baseImage prompt overlayImage intensity maskImage,
           geminiService.editImage env baseImage prompt overlayImage intensity maskImage w
           = (outcome,
              record w [EGenerateContent
                          {| apiKey := geminiService.API_KEY env;
                             model := "gemini-2.5-flash-image";
                             contents :=
                               ContentParts (geminiService.editParts baseImage prompt
                                               overlayImage intensity maskImage);
                             config := geminiService.imageConfig |}])).
Proof.
  intros env w response Hanswer outcome.
  assert (Himage : forall w1, geminiService.imageOf response w1 = (outcome, w1)).
  { intros w1. subst outcome. unfold geminiService.imageOf, firstPart.
    destruct (candidates response) as [| [| [t | data mime] parts] more]; reflexivity. }
  split; intros.
  - unfold geminiService.generateImageFromText, bind, geminiService.imageCall,
      geminiService.ai_generateContent.
    rewrite (gemini_call_answered _ _ _ Hanswer). apply Himage.
  - unfold geminiService.editImage, bind, geminiService.imageCall,
      geminiService.ai_generateContent. cbv zeta.
    rewrite (gemini_call_answered _ _ _ Hanswer). apply Himage.
Qed.

Lemma gemini_image_is_first_part_only_witness :
  fst (geminiService.generateImageFromText Sample.bothKeys "a house" Scenario.unauthorized)
  = Throw (Error "No image data received from API. The request may have been blocked due to safety policies.")
  /\ fst (geminiService.generateImageFromText Sample.bothKeys "a house" Scenario.imaging)
     = Ok "UkVT".
Proof.
  split.
  - rewrite (proj1 (gemini_image_is_first_part_only Sample.bothKeys
                      Scenario.unauthorized _ eq_refl) "a house").
    reflexivity.
  - rewrite (proj1 (gemini_image_is_first_part_only Sample.bothKeys
                      Scenario.imaging _ eq_refl) "a house").
    reflexivity.
Defined.

(** X12.  When the OpenAI [editImage] goes to the network: with a key,
    no overlay, a mask, and image and mask data that [atob] decodes,
    its first effect is the [fetch] of the edits endpoint with the
    form (image, mask, prompt, n = 1, size 1024x1024, b64_json); in
    every other case (no key, an overlay, no mask, or data that
    [atob] rejects) it throws and the world is left as it was. *)
Theorem openai_edit_reaches_network_iff :
  forall env engine (baseImage : ImageFile) (prompt : string)
         (overlayImage : option ImageFile) (intensity : option Z)
         (maskImage : option ImageFile) (w : World),
    (forall mask imageBytes maskBytes,
        openaiService.API_KEY env <> "" ->
        overlayImage = None ->
        maskImage = Some mask ->
        atob engine (base64 baseImage) = Ok imageBytes ->
        atob engine (base64 mask) = Ok maskBytes ->
        starts_with
          (EFetch (openaiService.editRequest env
                     [ ("image", FormFile {| bytes := imageBytes;
                                             blobType := mimeType baseImage |}
                                   "base_image.png");
                       ("mask", FormFile {| bytes := maskBytes;
                                            blobType := mimeType mask |}
                                  "mask_image.png");
                       ("prompt", FormText prompt);
                       ("n", FormText "1");
                       ("size", FormText "1024x1024");
                       ("response_format", FormText "b64_json") ]))
          (openaiService.editImage env engine baseImage prompt overlayImage
             intensity maskImage) w)
    /\ (openaiService.API_KEY env = ""
        \/ overlayImage <> None
        \/ maskImage = None
        \/ (exists e, atob engine (base64 baseImage) = Throw e)
        \/ (exists mask e, maskImage = Some mask /\ atob engine (base64 mask) = Throw e) ->
        exists e,
          openaiService.editImage env engine baseImage prompt overlayImage
            intensity maskImage w
          = (Throw e, w)).
Proof.
  intros env engine baseImage prompt overlayImage intensity maskImage w. split.
  - intros mask imageBytes maskBytes Hkey -> -> Hb Hm.
    unfold openaiService.editImage. rewrite (key_present _ Hkey). cbn [negb].
    unfold openaiService.base64ToBlob. rewrite Hb, Hm.
    unfold bind at 1, lift at 1. cbv beta iota.
    unfold bind at 1, lift at 1. cbv beta iota zeta.
    apply starts_with_bind.
    + apply withRetry_fetch_starts.
    + intro response. apply grows_bind; [apply rejectNotOk_grows |].
      intro. apply b64Of_grows.
  - intros Hcase. unfold openaiService.editImage.
    destruct (Truthy.str (openaiService.API_KEY env)) eqn:Hkey; cbn [negb];
      [| eexists; reflexivity].
    destruct overlayImage as [overlay |]; [eexists; reflexivity |].
    destruct maskImage as [mask |]; [| eexists; reflexivity].
    unfold openaiService.base64ToBlob, bind, lift.
    destruct (atob engine (base64 baseImage)) as [imageBytes | e1] eqn:Hb;
      [| eexists; reflexivity].
    destruct (atob engine (base64 mask)) as [maskBytes | e2] eqn:Hm;
      [| eexists; reflexivity].
    exfalso.
    destruct Hcase as [H | [H | [H | [[e H] | (m & e & Hmask & H)]]]];
      first [ congruence
            | rewrite H in Hkey; discriminate Hkey
            | injection Hmask as <-; congruence ].
Qed.

Lemma openai_edit_reaches_network_iff_witness :
  (exists rest,
      snd (openaiService.editImage Sample.bothKeys Sample.engine Sample.imgA "add a tree"
             None (Some 50) (Some Sample.imgB) Scenario.imaging)
      = record Scenario.imaging
          (EFetch (openaiService.editRequest Sample.bothKeys
                     [ ("image", FormFile {| bytes := "QUFB"; blobType := "image/png" |}
                                   "base_image.png");
                       ("mask", FormFile {| bytes := "QkJC"; blobType := "image/jpeg" |}
                                  "mask_image.png");
                       ("prompt", FormText "add a tree");
                       ("n", FormText "1");
                       ("size", FormText "1024x1024");
                       ("response_format", FormText "b64_json") ]) :: rest))
  /\ (exists e,
         openaiService.editImage Sample.bothKeys Scenario.strictEngine Sample.imgA
           "add a tree" None (Some 50) (Some Sample.imgB) Scenario.imaging
         = (Throw e, Scenario.imaging)).
Proof.
  split.
  - apply (proj1 (openai_edit_reaches_network_iff Sample.bothKeys Sample.engine
                    Sample.imgA "add a tree" None (Some 50) (Some Sample.imgB)
                    Scenario.imaging) Sample.imgB "QUFB" "QkJC");
      try reflexivity.
    vm_compute. discriminate.
  - apply (proj2 (openai_edit_reaches_network_iff Sample.bothKeys Scenario.strictEngine
                    Sample.imgA "add a tree" None (Some 50) (Some Sample.imgB)
                    Scenario.imaging)).
    right. right. right. left. eexists. reflexivity.
Defined.

End ServiceOutcomes.

Section ServiceResults.

Import Types Js Wire Effects Notions RetryFacts RetryMore ServiceFacts ServiceMore.

(** X13.  What the OpenAI image operations make of an ok response
    with a JSON body whose [data[0]] exists: a non-empty string under
    [b64_json] is returned as the image by [generateImageFromText]
    and, whatever the intensity, by [editImage]; a missing, null or
    empty [b64_json] makes them throw "No image data received from
    OpenAI API." and "... for editing." respectively.  Either way one
    [fetch] was made. *)
Theorem openai_image_outcome :
  forall env engine (w : World) (response : HttpResponse) (data : Json)
         (items item : Value),
    openaiService.API_KEY env <> "" ->
    http w (fetched w) = Ok response ->
    ok response = true ->
    json response = Ok data ->
    getProp (Some data) "data" = Ok items ->
    getIndex0 items = Ok item ->
    forall (prompt : string) (baseImage maskImage : ImageFile) (intensity : option Z)
           (imageBytes maskBytes : string),
      atob engine (base64 baseImage) = Ok imageBytes ->
      atob engine (base64 maskImage) = Ok maskBytes ->
      let generated := openaiService.generateImageFromText env prompt w in
      let edited := openaiService.editImage env engine baseImage prompt None intensity
                      (Some maskImage) w in
      fetched (snd generated) = S (fetched w)
      /\ fetched (snd edited) = S (fetched w)
      /\ (forall b64, getPropOpt item "b64_json" = Some (JStr b64) -> b64 <> "" ->
                      fst generated = Ok b64 /\ fst edited = Ok b64)
      /\ (truthy (getPropOpt item "b64_json") = false ->
          fst generated = Throw (Error "No image data received from OpenAI API.")
          /\ fst edited = Throw (Error "No image data received from OpenAI API for editing.")).
Proof.
  intros env engine w response data items item Hkey Hhttp Hok Hjson Hitems Hitem
    prompt baseImage maskImage intensity imageBytes maskBytes Hb Hm generated edited.
  apply key_present in Hkey.
  assert (Hrej : forall w1, openaiService.rejectNotOk response w1 = (Ok tt, w1)).
  { intros w1. unfold openaiService.rejectNotOk. now rewrite Hok. }
  assert (Hb64 : forall missing w1,
             openaiService.b64Of response missing w1
             = (if negb (truthy (getPropOpt item "b64_json"))
                then Throw (Error missing)
                else Ok (toString (getPropOpt item "b64_json")), w1)).
  { intros missing w1. unfold openaiService.b64Of, bind, lift.
    rewrite Hjson, Hitems, Hitem.
    destruct (truthy (getPropOpt item "b64_json")); reflexivity. }
  assert (Hgen : generated
                 = (if negb (truthy (getPropOpt item "b64_json"))
                    then Throw (Error "No image data received from OpenAI API.")
                    else Ok (toString (getPropOpt item "b64_json")),
                    record w [EFetch (openaiService.generationRequest env prompt)])).
  { subst generated. unfold openaiService.generateImageFromText. rewrite Hkey.
    cbn [negb]. unfold bind.
    rewrite (openai_fetch_answered _ _ _ Hhttp), Hrej. apply Hb64. }
  assert (Hedit : exists req,
             edited
             = (if negb (truthy (getPropOpt item "b64_json"))
                then Throw (Error "No image data received from OpenAI API for editing.")
                else Ok (toString (getPropOpt item "b64_json")),
                record w [EFetch req])).
  { subst edited. unfold openaiService.editImage. rewrite Hkey. cbn [negb].
    unfold openaiService.base64ToBlob, bind, lift. rewrite Hb, Hm. cbv beta iota zeta.
    rewrite (openai_fetch_answered _ _ _ Hhttp), Hrej. eexists. apply Hb64. }
  destruct Hedit as [req Hedit]. rewrite Hgen, Hedit. cbn [fst snd].
  rewrite !fetched_record. cbn. repeat split; try lia.
  - rewrite H. cbn. now rewrite (key_present _ H0).
  - rewrite H. cbn. now rewrite (key_present _ H0).
  - now rewrite H.
  - now rewrite H.
Qed.

Lemma openai_image_outcome_witness :
  fst (openaiService.editImage Sample.bothKeys Sample.engine Sample.imgA "add a tree"
         None (Some 50) (Some Sample.imgB) Scenario.imaging)
  = Ok "UkVT"
  /\ fst (openaiService.editImage Sample.bothKeys Sample.engine Sample.imgA "add a tree"
            None None (Some Sample.imgB) Scenario.imaging)
     = Ok "UkVT".
Proof.
  assert (H : forall intensity,
             fst (openaiService.editImage Sample.bothKeys Sample.engine Sample.imgA
                    "add a tree" None intensity (Some Sample.imgB) Scenario.imaging)
             = Ok "UkVT").
  { intros intensity.
    destruct (openai_image_outcome Sample.bothKeys Sample.engine Scenario.imaging
                Sample.okResponse
                (JObj [("data", JArr [JObj [("b64_json", JStr "UkVT")]])])
                (Some (JArr [JObj [("b64_json", JStr "UkVT")]]))
                (Some (JObj [("b64_json", JStr "UkVT")]))
                ltac:(vm_compute; discriminate) eq_refl eq_refl eq_refl eq_refl eq_refl
                "add a tree" Sample.imgA Sample.imgB intensity "QUFB" "QkJC"
                eq_refl eq_refl)
      as (_ & _ & Hsome & _).
    apply (Hsome "UkVT" eq_refl). discriminate. }
  split; apply H.
Defined.

Lemma refine_length :
  forall env engine (prompt context : string) (w : World) (l : list Json),
    (fst (geminiService.refineTextPrompt env engine prompt context w) = Ok l ->
     (1 <= length l <= 3)%nat)
    /\ (fst (openaiService.refineTextPrompt env engine prompt context w) = Ok l ->
        (1 <= length l <= 3)%nat).
Proof.
  intros env engine prompt context w l.
  assert (Hfirst : forall (x : Json) (items : list Json),
             (1 <= length (firstn 3 (x :: items)) <= 3)%nat).
  { intros x items. rewrite length_firstn. cbn [length]. lia. }
  split.
  - unfold geminiService.refineTextPrompt, bind.
    destruct (geminiService.withRetry _ 3 1000 w) as [[response | e] w1];
      [| discriminate].
    unfold try_catch, bind, lift, console, emit, ret.
    destruct (JSON_parse engine _) as [j | e].
    + destruct (getProp (Some j) "suggestions") as [[[] |] | e];
        try (destruct (callTrim (geminiService.textValue response)); cbn;
             intros H; inversion H; cbn; lia).
      destruct items as [| x items]; cbn [length Nat.ltb Nat.leb].
      * destruct (callTrim (geminiService.textValue response)); cbn;
          intros H; inversion H; cbn; lia.
      * cbn. intros H. injection H as <-. apply Hfirst.
    + destruct (callTrim (geminiService.textValue response)); cbn;
        intros H; inversion H; cbn; lia.
  - unfold openaiService.refineTextPrompt.
    destruct (negb (Truthy.str (openaiService.API_KEY env))); [discriminate |].
    unfold bind.
    destruct (openaiService.withRetry _ 3 1000 w) as [[response | e] w1];
      [| discriminate].
    destruct (openaiService.rejectNotOk response w1) as [[[] | e] w2]; [| discriminate].
    unfold lift.
    destruct (json response) as [data | e]; [| discriminate].
    destruct (getProp (Some data) "choices") as [choices | e]; [| discriminate].
    destruct (getIndex0 choices) as [choice | e]; [| discriminate].
    set (content := getPropOpt (getPropOpt choice "message") "content").
    unfold try_catch, bind, lift, console, emit, ret, throw.
    destruct (negb (truthy content)).
    + destruct (callTrim content); cbn; intros H; inversion H; cbn; lia.
    + destruct (JSON_parse engine _) as [j | e].
      * destruct (getProp (Some j) "suggestions") as [[[] |] | e];
          try (destruct (callTrim content); cbn; intros H; inversion H; cbn; lia).
        destruct items as [| x items]; cbn [length Nat.ltb Nat.leb].
        -- destruct (callTrim content); cbn; intros H; inversion H; cbn; lia.
        -- cbn. intros H. injection H as <-. apply Hfirst.
      * destruct (callTrim content); cbn; intros H; inversion H; cbn; lia.
Qed.

(** X14.  [refineTextPrompt] never yields an empty list nor more than
    three entries: whenever either service returns, the list it
    returns has one, two or three elements. *)
Theorem refine_returns_one_to_three :
  forall env engine (prompt context : string) (w : World) (l : list Json),
    (fst (geminiService.refineTextPrompt env engine prompt context w) = Ok l ->
     (1 <= length l <= 3)%nat)
    /\ (fst (openaiService.refineTextPrompt env engine prompt context w) = Ok l ->
        (1 <= length l <= 3)%nat).
Proof. exact refine_length. Qed.

Lemma refine_returns_one_to_three_witness :
  exists l,
    fst (openaiService.refineTextPrompt Sample.bothKeys Sample.engine "add a tree"
           "No predefined style" (Sample.chatting (JStr Sample.suggestionsText)))
    = Ok l
    /\ (1 <= length l <= 3)%nat.
Proof.
  exists [JStr "a"]. split; [vm_compute; reflexivity |].
  apply (proj2 (refine_returns_one_to_three Sample.bothKeys Sample.engine
                  "add a tree" "No predefined style"
                  (Sample.chatting (JStr Sample.suggestionsText)) [JStr "a"])).
  vm_compute. reflexivity.
Defined.

End ServiceResults.

(** * Further properties of the Enhance tab, the uploads and the
    Firebase module *)

Section TabProperties.

Import Types Js Wire Effects Notions MaskFacts.

(** X15.  A cleared canvas yields no mask: after [clearMask],
    whatever was drawn, [getMaskAsImageFile] returns nothing, so a
    guided edit submitted right after an upload (which clears the
    mask) carries no mask. *)
Theorem cleared_canvas_has_no_mask :
  forall (dom : EnhanceTab.Dom) (file inputImage overlayImage : option ImageFile)
         (s : App.State) (tab : EnhanceTab.State),
    EnhanceTab.getMaskAsImageFile (EnhanceTab.clearMask dom) = None
    /\ (EnhanceTab.mode tab = EnhanceTab.edit ->
        forall call,
          EnhanceTab.handleProcess
            (fst (EnhanceTab.handleImageUpload App.handleSetInputImage file (dom, s)))
            inputImage overlayImage tab = Some call ->
          EnhanceTab.call_mask call = None).
Proof.
  intros dom file inputImage overlayImage s tab.
  assert (Hclear : EnhanceTab.getMaskAsImageFile (EnhanceTab.clearMask dom) = None).
  { unfold EnhanceTab.getMaskAsImageFile, EnhanceTab.getMaskBitmap, EnhanceTab.clearMask.
    destruct (EnhanceTab.canvasRef dom) as [canvas |] eqn:Hcanvas;
      [| now rewrite Hcanvas].
    destruct (EnhanceTab.context2d canvas) as [store |] eqn:Hctx;
      [| rewrite Hcanvas, Hctx; now destruct (_ || _)].
    cbn [EnhanceTab.canvasRef EnhanceTab.context2d EnhanceTab.width EnhanceTab.height
         EnhanceTab.getImageData EnhanceTab.data].
    destruct ((EnhanceTab.width canvas =? 0)%nat || (EnhanceTab.height canvas =? 0)%nat);
      [reflexivity |].
    rewrite resize_replicate.
    set (buffer := replicate _ 0).
    replace (EnhanceTab.scanAlpha buffer 3) with true; [reflexivity |].
    symmetry.
    apply (proj2 (scanAlpha_true_iff (length buffer) buffer 3 ltac:(lia))).
    intros k Hk. subst buffer. rewrite length_replicate in Hk.
    now rewrite lookup_replicate_2. }
  split; [exact Hclear |].
  intros Hmode call. unfold EnhanceTab.handleProcess, EnhanceTab.handleImageUpload.
  cbn [fst]. rewrite Hmode, Hclear.
  destruct inputImage; [| discriminate].
  destruct (negb (Truthy.str (EnhanceTab.editPrompt tab))); [discriminate |].
  intros H. injection H as <-. reflexivity.
Qed.

Lemma cleared_canvas_has_no_mask_witness :
  EnhanceTab.getMaskAsImageFile Sample.dom <> None
  /\ option_map EnhanceTab.call_mask
       (EnhanceTab.handleProcess
          (fst (EnhanceTab.handleImageUpload App.handleSetInputImage
                  (Some Sample.imgB) (Sample.dom, Sample.editing)))
          (Some Sample.imgB) None Scenario.guided)
     = Some None.
Proof.
  split; [vm_compute; discriminate |].
  destruct (EnhanceTab.handleProcess _ _ _ _) as [call |] eqn:Hcall;
    [| vm_compute in Hcall; discriminate].
  cbn [option_map]. f_equal.
  exact (proj2 (cleared_canvas_has_no_mask Sample.dom (Some Sample.imgB)
                  (Some Sample.imgB) None Sample.editing Scenario.guided)
           eq_refl call Hcall).
Defined.

End TabProperties.

Section FirebaseProperties.

Import Js Effects Notions firebase.

(** X16.  The "not set" text is never what the module reports: with
    [FIREBASE_CONFIG] unset or empty, no handle is created and
    [firebaseError] is the "Failed to parse `FIREBASE_CONFIG`..." text,
    because the "not set" message itself contains "JSON"; and whatever
    the configuration, the engine and the SDK do, [firebaseError] never
    is the "not set" text. *)
Theorem firebase_not_set_is_reported_as_parse_failure :
  forall (config : option string) engine sdk (w : World),
    (missing config ->
     fst (load config engine sdk w)
     = Ok {| app := false; auth := false; db := false;
             firebaseError :=
               Some "Failed to parse `FIREBASE_CONFIG`. Please ensure it's a valid, single-line JSON string." |})
    /\ (forall exports,
           fst (load config engine sdk w) = Ok exports ->
           firebaseError exports
           <> Some "The `FIREBASE_CONFIG` environment variable is not set. Please provide it as a JSON string in your project's secrets.").
Proof.
  intros config engine sdk w. split.
  - intros [-> | ->]; reflexivity.
  - intros exports. unfold load.
    destruct (tryBlock config engine sdk) as [[[a b] c] [[] | e]]; cbn.
    + intros H. injection H as <-. discriminate.
    + intros H. injection H as <-. cbn.
      destruct (includes (message e) "JSON") eqn:Hinc.
      * discriminate.
      * intros H. injection H as H. rewrite H in Hinc. vm_compute in Hinc.
        discriminate.
Qed.

Lemma firebase_not_set_is_reported_as_parse_failure_witness :
  option_map firebaseError (match fst (load None Sample.engine Scenario.sdk Sample.flaky) with
                            | Ok exports => Some exports
                            | Throw _ => None
                            end)
  = Some (Some "Failed to parse `FIREBASE_CONFIG`. Please ensure it's a valid, single-line JSON string.").
Proof.
  rewrite (proj1 (firebase_not_set_is_reported_as_parse_failure None Sample.engine
                    Scenario.sdk Sample.flaky) (or_introl eq_refl)).
  reflexivity.
Defined.

(** X17.  The [try]/[catch] of the Firebase module never throws, and its exports
    are consistent: [firebaseError] is null exactly when [app], [auth]
    and [db] are all set; [db] is only set when [auth] is, and [auth]
    only when [app] is. *)
Theorem firebase_exports_consistent :
  forall (config : option string) engine sdk (w : World),
    exists exports w',
      load config engine sdk w = (Ok exports, w')
      /\ (firebaseError exports = None
          <-> app exports = true /\ auth exports = true /\ db exports = true)
      /\ (db exports = true -> auth exports = true)
      /\ (auth exports = true -> app exports = true).
Proof.
  intros config engine sdk w. unfold load, tryBlock.
  destruct config as [text |]; [| eexists _, _; split; [reflexivity |]; cbn; intuition congruence].
  destruct (negb (Truthy.str text));
    [eexists _, _; split; [reflexivity |]; cbn; intuition congruence |].
  destruct (JSON_parse engine text) as [cfg | e];
    [| eexists _, _; split; [reflexivity |]; cbn; intuition congruence].
  destruct (getProp (Some cfg) "apiKey") as [key | e];
    [| eexists _, _; split; [reflexivity |]; cbn; intuition congruence].
  destruct (negb (truthy key));
    [eexists _, _; split; [reflexivity |]; cbn; intuition congruence |].
  destruct (initializeApp sdk cfg) as [[] | e];
    [| eexists _, _; split; [reflexivity |]; cbn; intuition congruence].
  destruct (getAuth sdk) as [[] | e];
    [| eexists _, _; split; [reflexivity |]; cbn; intuition congruence].
  destruct (getFirestore sdk) as [[] | e];
    eexists _, _; (split; [reflexivity |]); cbn; intuition congruence.
Qed.

End FirebaseProperties.

Section UploadProperties.

Import Types Js Wire Effects Notions Files.

(** X18.  Choosing a file on the Enhance tab, with the tab wired to
    the session ([setInputImage] is [handleSetInputImage], [onError]
    sets the error): no file, or a file whose type does not start with
    "image/", changes nothing at all; an image file that cannot be
    read removes the base image and reports "Failed to read the image
    file.", and the image that was shown is what undo brings back. *)
Theorem file_select_outcomes :
  forall (file : option File) (dom : EnhanceTab.Dom) (s : App.State) (w : World),
    let run := EnhanceTab_handleFileSelect App.handleSetInputImage
                 (fun text => App.setError (Some text)) file (dom, s) w in
    ((file = None \/ exists f, file = Some f /\ isImage f = false) ->
     run = (Ok (dom, s), w))
    /\ (forall f e current,
           file = Some f -> isImage f = true -> payload f = Throw e ->
           App.inputImage s = Some current ->
           exists dom' s' w',
             run = (Ok (dom', s'), w')
             /\ App.inputImage s' = None
             /\ App.error s' = Some "Failed to read the image file."
             /\ App.inputImage (App.handleUndo s') = Some current).
Proof.
  intros file dom s w run. subst run. split.
  - intros [-> | (f & -> & Hf)]; [reflexivity |].
    unfold EnhanceTab_handleFileSelect. now rewrite Hf.
  - intros f e current -> Hf He Hcur.
    unfold EnhanceTab_handleFileSelect. rewrite Hf, He.
    unfold bind, console, emit, ret. cbv beta iota zeta.
    eexists _, _, _. split; [reflexivity |].
    unfold EnhanceTab.handleImageUpload, App.handleSetInputImage. cbn [fst snd].
    rewrite Hcur. unfold App.handleUndo. cbn -[App.pushHistory].
    rewrite SessionFacts.pushHistory_cons. repeat split.
Qed.

Lemma file_select_outcomes_witness :
  EnhanceTab_handleFileSelect App.handleSetInputImage
    (fun text => App.setError (Some text)) (Some Scenario.notes)
    (Sample.dom, Sample.editing) Sample.flaky
  = (Ok (Sample.dom, Sample.editing), Sample.flaky)
  /\ exists dom' s' w',
       EnhanceTab_handleFileSelect App.handleSetInputImage
         (fun text => App.setError (Some text)) (Some Scenario.unreadable)
         (Sample.dom, Sample.editing) Sample.flaky
       = (Ok (dom', s'), w')
       /\ App.inputImage s' = None
       /\ App.error s' = Some "Failed to read the image file."
       /\ App.inputImage (App.handleUndo s') = Some Sample.imgA.
Proof.
  split.
  - apply (proj1 (file_select_outcomes (Some Scenario.notes) Sample.dom Sample.editing
                    Sample.flaky)).
    right. exists Scenario.notes. split; reflexivity.
  - apply (proj2 (file_select_outcomes (Some Scenario.unreadable) Sample.dom
                    Sample.editing Sample.flaky)
             Scenario.unreadable (Error "NotReadableError") Sample.imgA);
      reflexivity.
Defined.

(** X19.  The upload widget calls back only for image files: with
    [onImageUpload] wired to the overlay slot, a file of another type
    (or no file) leaves the overlay as it is, a readable image file
    becomes the overlay with the file's data, type and name, and an
    image file that cannot be read clears the overlay. *)
Theorem upload_widget_outcomes :
  forall (file : option File) (s : App.State) (w : World),
    let run := ImageUpload_handleFile App.setOverlayImage file s w in
    ((file = None \/ exists f, file = Some f /\ isImage f = false) ->
     run = (Ok s, w))
    /\ (forall f data,
           file = Some f -> isImage f = true -> payload f = Ok data ->
           run = (Ok (App.setOverlayImage
                        (Some {| base64 := data; mimeType := file_type f;
                                 name := file_name f |}) s), w))
    /\ (forall f e,
           file = Some f -> isImage f = true -> payload f = Throw e ->
           exists s' w',
             run = (Ok s', w')
             /\ App.overlayImage s' = None
             /\ App.inputImage s' = App.inputImage s
             /\ App.undoHistory s' = App.undoHistory s).
Proof.
  intros file s w run. subst run. split; [| split].
  - intros [-> | (f & -> & Hf)]; [reflexivity |].
    unfold ImageUpload_handleFile. now rewrite Hf.
  - intros f data -> Hf Hd. unfold ImageUpload_handleFile. now rewrite Hf, Hd.
  - intros f e -> Hf He. unfold ImageUpload_handleFile. rewrite Hf, He.
    eexists _, _. repeat split.
Qed.

Lemma upload_widget_outcomes_witness :
  ImageUpload_handleFile App.setOverlayImage (Some Scenario.photo) Sample.editing
    Sample.flaky
  = (Ok (App.setOverlayImage
           (Some {| base64 := "c2l0ZQ=="; mimeType := "image/jpeg"; name := "site.jpg" |})
           Sample.editing),
     Sample.flaky).
Proof.
  apply (proj1 (proj2 (upload_widget_outcomes (Some Scenario.photo) Sample.editing
                         Sample.flaky)) Scenario.photo "c2l0ZQ==");
    reflexivity.
Defined.

End UploadProperties.

Section RefineHandlerProperties.

Import Types Js Wire Effects Notions ServiceFacts Refining.

(** X20.  "Refine Instructions" on the Enhance tab, wired to the
    session's error slot: with empty instructions nothing happens;
    otherwise the handler never throws and ends with [isRefining]
    off, either with the modal open on one to three suggestions and
    the session untouched, or, when the provider operation threw, with
    the modal closed, no suggestions, and the error's message shown. *)
Theorem enhance_refine_outcomes :
  forall env engine (provider : App.AiProvider) (editPrompt : string)
         (ui : Ui) (s : App.State) (w : World),
    let run := EnhanceTab_handleRefinePrompt env engine provider
                 (fun text => App.setError (Some text)) editPrompt (ui, s) w in
    (editPrompt = "" -> run = (Ok (ui, s), w))
    /\ (editPrompt <> "" ->
        exists ui' s' w',
          run = (Ok (ui', s'), w')
          /\ isRefining ui' = false
          /\ ((isSuggestionsModalOpen ui' = true
               /\ (1 <= length (suggestions ui') <= 3)%nat
               /\ s' = s)
              \/ (isSuggestionsModalOpen ui' = false
                  /\ suggestions ui' = []
                  /\ exists e,
                       fst (refineFn env engine provider editPrompt
                              "editing an existing architectural rendering" w)
                       = Throw e
                       /\ s' = App.setError (Some (message e)) s))).
Proof.
  intros env engine provider editPrompt ui s w run. subst run. split.
  - intros ->. reflexivity.
  - intros Hprompt. unfold EnhanceTab_handleRefinePrompt.
    rewrite (ServiceMore.key_present _ Hprompt). cbn [negb].
    unfold bind, try_catch, console, emit, ret. cbv beta iota zeta.
    destruct (refineFn env engine provider editPrompt _ w) as [[l | e] w1] eqn:Hrun;
      cbv beta iota; eexists _, _, _; (split; [reflexivity |]); cbn;
      (split; [reflexivity |]).
    + left. split; [reflexivity |]. split; [| reflexivity].
      destruct provider; unfold refineFn in Hrun;
        [ apply (proj1 (refine_length env engine editPrompt
                          "editing an existing architectural rendering" w l))
        | apply (proj2 (refine_length env engine editPrompt
                          "editing an existing architectural rendering" w l)) ];
        now rewrite Hrun.
    + right. repeat split. exists e. split; reflexivity.
Qed.

End RefineHandlerProperties.

Lemma enhance_refine_outcomes_witness :
  exists ui' s' w',
    Refining.EnhanceTab_handleRefinePrompt Sample.noKeys Sample.engine App.openai
      (fun text => App.setError (Some text)) "add a tree"
      (Scenario.idle, Sample.editing) Sample.flaky
    = (Js.Ok (ui', s'), w')
    /\ Refining.isRefining ui' = false.
Proof.
  destruct (proj2 (enhance_refine_outcomes Sample.noKeys Sample.engine App.openai
                     "add a tree" Scenario.idle Sample.editing Sample.flaky)
              ltac:(discriminate))
    as (ui' & s' & w' & Hrun & Hrefining & _).
  exists ui', s', w'. split; [exact Hrun | exact Hrefining].
Defined.

Section CreateTabProperties.

Import Types Js Wire Effects Notions ServiceFacts Refining.

(** X21.  "Refine Prompt" on the Create tab: with an empty prompt
    nothing happens; otherwise the handler never throws and ends with
    [isRefining] off, with the modal open on one to three suggestions
    when the provider operation returned, and with the modal closed
    and no suggestions when it threw (the error is only logged). *)
Theorem create_refine_outcomes :
  forall env engine (provider : App.AiProvider) (prompt style : string)
         (ui : Ui) (w : World),
    let run := CreateTab_handleRefinePrompt env engine provider prompt style ui w in
    (prompt = "" -> run = (Ok ui, w))
    /\ (prompt <> "" ->
        exists ui' w',
          run = (Ok ui', w')
          /\ isRefining ui' = false
          /\ ((isSuggestionsModalOpen ui' = true
               /\ (1 <= length (suggestions ui') <= 3)%nat
               /\ fst (refineFn env engine provider prompt style w) = Ok (suggestions ui'))
              \/ (isSuggestionsModalOpen ui' = false
                  /\ suggestions ui' = []
                  /\ exists e, fst (refineFn env engine provider prompt style w) = Throw e))).
Proof.
  intros env engine provider prompt style ui w run. subst run. split.
  - intros ->. reflexivity.
  - intros Hprompt. unfold CreateTab_handleRefinePrompt.
    rewrite (ServiceMore.key_present _ Hprompt). cbn [negb].
    unfold bind, try_catch, console, emit, ret. cbv beta iota zeta.
    destruct (refineFn env engine provider prompt style w) as [[l | e] w1] eqn:Hrun;
      cbv beta iota; eexists _, _; (split; [reflexivity |]); cbn;
      (split; [reflexivity |]).
    + left. split; [reflexivity |]. split; [| reflexivity].
      destruct provider; unfold refineFn in Hrun;
        [ apply (proj1 (refine_length env engine prompt style w l))
        | apply (proj2 (refine_length env engine prompt style w l)) ];
        now rewrite Hrun.
    + right. repeat split. exists e. reflexivity.
Qed.

Lemma create_refine_outcomes_witness :
  exists ui' w',
    CreateTab_handleRefinePrompt Sample.bothKeys Sample.engine App.gemini
      "a house" "Minimalist" Scenario.idle (Sample.chatting (JStr Sample.suggestionsText))
    = (Ok ui', w')
    /\ isRefining ui' = false.
Proof.
  destruct (proj2 (create_refine_outcomes Sample.bothKeys Sample.engine App.gemini
                     "a house" "Minimalist" Scenario.idle
                     (Sample.chatting (JStr Sample.suggestionsText)))
              ltac:(discriminate))
    as (ui' & w' & Hrun & Hrefining & _).
  exists ui', w'. split; [exact Hrun | exact Hrefining].
Defined.

End CreateTabProperties.

(** * Replaying a result *)

Module ReplayFacts.

Import Types Js Wire Effects App Notions RetryFacts ServiceFacts.

Lemma gemini_editImage_starts env (baseImage : ImageFile) (prompt : string)
    (overlayImage : option ImageFile) (intensity : option Z)
    (maskImage : option ImageFile) (w : World) :
  starts_with
    (EGenerateContent
       {| apiKey := geminiService.API_KEY env; model := "gemini-2.5-flash-image";
          contents := ContentParts (geminiService.editParts baseImage prompt
                                      overlayImage intensity maskImage);
          config := geminiService.imageConfig |})
    (geminiService.editImage env baseImage prompt overlayImage intensity maskImage) w.
Proof.
  unfold geminiService.editImage. cbv zeta.
  apply starts_with_bind.
  - unfold geminiService.withRetry, geminiService.imageCall,
      geminiService.ai_generateContent.
    apply withRetry_generateContent_starts.
  - intro response. unfold geminiService.imageOf. grow.
Qed.

(** For a signed-in user, the first two effects of [handleApiCall] are
    its log line and the first effect of the call. *)
Lemma handleApiCall_starts {T} firebaseError (apiCall : M T)
    (onSuccess : T -> State -> State) (s : State) (w : World) (e : Event) :
  currentUser s = true ->
  starts_with e apiCall
    (record w [EConsole Log ("Starting API call with "
                             +++ providerName (aiProvider s) +++ "...")]) ->
  exists rest,
    snd (handleApiCall true firebaseError apiCall onSuccess s w)
    = record w (EConsole Log ("Starting API call with "
                              +++ providerName (aiProvider s) +++ "...")
                  :: e :: rest).
Proof.
  intros Huser [rest Hstart]. unfold handleApiCall. rewrite Huser. cbn [negb orb].
  unfold bind, try_catch, console, emit, ret. cbv beta iota.
  destruct (apiCall _) as [[t | x] w1]; cbn [snd] in Hstart; subst w1;
    cbv beta iota; cbn [snd]; rewrite !record_record; eexists; reflexivity.
Qed.

End ReplayFacts.

Section ReplayProperties.

Import Types Js Wire Effects App Notions RetryFacts ServiceFacts ReplayFacts.

(** X22.  Regenerate replays an edit against the base image now on
    display.  For a signed-in user on the Gemini provider, with a base
    image present and an enhance result stored for a prompt, a
    non-zero intensity and an overlay and a mask that, when present,
    are PNG with non-empty data: after closing the modal and the
    300 ms timer, [handleRegenerate] logs the start of the call and
    sends exactly the request [editImage] builds from the current base
    image with that prompt, intensity, overlay and mask. *)
Theorem regenerate_replays_edit :
  forall env engine firebaseError (p st out : string) (n : Z) (snapshot : option string)
         (ov mk : option ImageFile) (s : State) (img : ImageFile) (w : World),
    currentUser s = true ->
    aiProvider s = gemini ->
    inputImage s = Some img ->
    generatedOutput s
    = Some {| type := enhance; prompt := p; style := st; resolution := None;
              Types.inputImage := snapshot; outputImage := out;
              Types.overlayImage := base64OrNull ov;
              maskImage := base64OrNull mk; intensity := Some n |} ->
    n <> 0 ->
    (forall o, ov = Some o -> mimeType o = "image/png" /\ base64 o <> "") ->
    (forall m, mk = Some m -> mimeType m = "image/png" /\ base64 m <> "") ->
    exists rest,
      snd (handleRegenerate env engine true firebaseError s w)
      = record w
          (ETimeout 300
             :: EConsole Log "Starting API call with gemini..."
             :: EGenerateContent
                  {| apiKey := geminiService.API_KEY env;
                     model := "gemini-2.5-flash-image";
                     contents := ContentParts (geminiService.editParts img p ov (Some n) mk);
                     config := geminiService.imageConfig |}
             :: rest).
Proof.
  intros env engine firebaseError p st out n snapshot ov mk s img w
    Huser Hprovider Himg Hg Hn Hov Hmk.
  assert (Hrebuilt : forall (file : option ImageFile) (label : string),
             (forall f, file = Some f -> mimeType f = "image/png" /\ base64 f <> "") ->
             option_map (geminiService.fileToGenerativePart)
               (if Truthy.opt_str (base64OrNull file)
                then option_map (fun b => {| base64 := b; mimeType := "image/png";
                                             name := label |}) (base64OrNull file)
                else None)
             = option_map geminiService.fileToGenerativePart file).
  { intros [f |] label Hf; [| reflexivity].
    destruct (Hf f eq_refl) as [Hmime Hdata].
    unfold base64OrNull, Truthy.opt_str.
    rewrite (ServiceMore.key_present _ Hdata), (ServiceMore.key_present _ Hdata).
    cbn. unfold geminiService.fileToGenerativePart. cbn. now rewrite Hmime. }
  assert (Hparts : forall o1 o2 m1 m2 i,
             option_map geminiService.fileToGenerativePart o1
             = option_map geminiService.fileToGenerativePart o2 ->
             option_map geminiService.fileToGenerativePart m1
             = option_map geminiService.fileToGenerativePart m2 ->
             geminiService.editParts img p o1 i m1 = geminiService.editParts img p o2 i m2).
  { intros [o1 |] [o2 |] [m1 |] [m2 |] i Ho Hm; cbn in Ho, Hm; try discriminate;
      unfold geminiService.editParts;
      try (apply (inj Some) in Ho; rewrite Ho);
      try (apply (inj Some) in Hm; rewrite Hm);
      reflexivity. }
  unfold handleRegenerate. rewrite Hg. cbn [type Types.prompt style intensity
    Types.overlayImage maskImage].
  unfold bind at 1, emit at 1. cbv beta iota.
  set (s1 := setIsResultModalOpen false s).
  assert (H1 : inputImage s1 = Some img) by exact Himg.
  assert (H2 : aiProvider s1 = gemini) by exact Hprovider.
  assert (H3 : currentUser s1 = true) by exact Huser.
  clearbody s1.
  unfold handleEnhanceProcess. rewrite H1. cbv zeta. rewrite H2.
  replace (Truthy.num n) with true
    by (unfold Truthy.num; destruct (Z.eqb_spec n 0); [contradiction | reflexivity]).
  match goal with
  | |- context [handleApiCall true firebaseError ?call ?on s1 ?w0] =>
      destruct (handleApiCall_starts firebaseError call on s1 w0
                  (EGenerateContent
                     {| apiKey := geminiService.API_KEY env;
                        model := "gemini-2.5-flash-image";
                        contents :=
                          ContentParts (geminiService.editParts img p ov (Some n) mk);
                        config := geminiService.imageConfig |}) H3)
        as [rest Hrest]
  end.
  - rewrite H2.
    rewrite <- (Hparts _ _ _ _ (Some n)
                  (Hrebuilt ov "overlay.png" Hov)
                  (Hrebuilt mk "mask.png" Hmk)).
    apply gemini_editImage_starts.
  - rewrite Hrest, H2, record_record. eexists. reflexivity.
Qed.

Lemma regenerate_replays_edit_witness :
  exists rest,
    snd (handleRegenerate Sample.bothKeys Sample.engine true None
           (setGeneratedOutput (Some Sample.enhanceResult) Sample.editing) Sample.flaky)
    = record Sample.flaky
        (ETimeout 300
           :: EConsole Log "Starting API call with gemini..."
           :: EGenerateContent
                {| apiKey := "AIza-test"; model := "gemini-2.5-flash-image";
                   contents :=
                     ContentParts (geminiService.editParts Sample.imgA
                                     "make the walls white" None (Some 50) None);
                   config := geminiService.imageConfig |}
           :: rest).
Proof.
  apply (regenerate_replays_edit Sample.bothKeys Sample.engine None
           "make the walls white" "Guided Edit" "UkVT" 50 (Some "QUFB") None None
           (setGeneratedOutput (Some Sample.enhanceResult) Sample.editing)
           Sample.imgA Sample.flaky);
    try reflexivity; try discriminate.
Defined.

End ReplayProperties.

(** * More on the session and the services *)

Module SlotFacts.

Import Types Js Effects App Notions.

Lemma handleApiCall_keeps_result {T} auth firebaseError (apiCall : M T)
    (onSuccess : T -> State -> State) (s : State) (w : World) :
  (forall t s0, generatedOutput (onSuccess t s0) <> None) ->
  generatedOutput s <> None ->
  exists s' w',
    handleApiCall auth firebaseError apiCall onSuccess s w = (Ok s', w')
    /\ generatedOutput s' <> None.
Proof.
  intros Hon Hs. unfold handleApiCall.
  destruct (negb auth || negb (currentUser s)).
  - eexists _, _. split; [reflexivity | exact Hs].
  - unfold bind, try_catch, console, emit, ret. cbn.
    destruct (apiCall _) as [[t | e] w1]; cbn;
      eexists _, _; (split; [reflexivity |]); cbn; [apply Hon | exact Hs].
Qed.

End SlotFacts.

Section SlotProperties.

Import Types Js Wire Effects App Notions SlotFacts.

(** X23.  The result slot is never emptied: once a result is stored,
    every later action leaves some result stored (a new one replaces
    it, nothing clears it). *)
Theorem result_slot_never_cleared :
  forall env engine auth firebaseError (actions : list Action) (s : State) (w : World),
    generatedOutput s <> None ->
    exists s' w',
      run env engine auth firebaseError actions s w = (Ok s', w')
      /\ generatedOutput s' <> None.
Proof.
  intros env engine auth firebaseError actions.
  induction actions as [| a actions IH]; intros s w Hs.
  - exists s, w. split; [reflexivity | exact Hs].
  - cbn [run]. unfold bind.
    assert (Hstep : exists s1 w1,
               step env engine auth firebaseError a s w = (Ok s1, w1)
               /\ generatedOutput s1 <> None).
    { destruct a as [v | p | b | | file | file | | pr st res | pr st n ov mk | | | | |];
        cbn [step]; try (eexists _, _; split; [reflexivity | exact Hs]).
      - eexists _, _. split; [reflexivity |]. unfold handleSetInputImage.
        now destruct (inputImage s).
      - eexists _, _. split; [reflexivity |]. unfold handleUndo.
        now destruct (undoHistory s).
      - unfold handleCreateGenerate. apply handleApiCall_keeps_result; [| exact Hs].
        intros t s0. discriminate.
      - unfold handleEnhanceProcess. destruct (inputImage s).
        + apply handleApiCall_keeps_result; [| exact Hs]. intros t s0. discriminate.
        + eexists _, _. split; [reflexivity | exact Hs].
      - unfold handleRegenerate. destruct (generatedOutput s) as [g |] eqn:Hg;
          [| contradiction].
        unfold bind, emit. cbn. destruct (type g).
        + unfold handleCreateGenerate. apply handleApiCall_keeps_result.
          * intros t s0. discriminate.
          * cbn. rewrite Hg. discriminate.
        + unfold handleEnhanceProcess. cbn [inputImage setIsResultModalOpen].
          destruct (inputImage s).
          * apply handleApiCall_keeps_result.
            -- intros t s0. discriminate.
            -- cbn. rewrite Hg. discriminate.
          * eexists _, _. split; [reflexivity |]. cbn. rewrite Hg. discriminate.
      - eexists _, _. split; [reflexivity |]. unfold handleContinueEditing.
        destruct (generatedOutput s) as [g |] eqn:Hg; [| contradiction].
        destruct (Truthy.str (outputImage g)); [| now rewrite Hg].
        cbn. destruct (inputImage s); cbn; now rewrite Hg.
      - eexists _, _. split; [reflexivity |]. unfold handleSendToEnhance.
        destruct (generatedOutput s) as [g |] eqn:Hg; [| contradiction].
        destruct (type g); [| now rewrite Hg].
        destruct (Truthy.str (outputImage g)); [| now rewrite Hg].
        cbn. now rewrite Hg. }
    destruct Hstep as (s1 & w1 & Hrun & H1). rewrite Hrun. apply IH. exact H1.
Qed.

Lemma result_slot_never_cleared_witness :
  exists s' w',
    run Sample.bothKeys Sample.engine true None
      [SendToEnhance; Undo; SetInputImage None; Regenerate]
      (setGeneratedOutput (Some Sample.createResult) Sample.editing) Sample.down
    = (Ok s', w')
    /\ generatedOutput s' <> None.
Proof.
  apply (result_slot_never_cleared Sample.bothKeys Sample.engine true None
           [SendToEnhance; Undo; SetInputImage None; Regenerate]
           (setGeneratedOutput (Some Sample.createResult) Sample.editing) Sample.down).
  discriminate.
Defined.

(** X24.  Undo after "Continue Editing": with a base image present and
    a result whose output is not empty, continuing with the result and
    then undoing shows the base image that was edited, with no
    overlay. *)
Theorem continue_then_undo_restores_image :
  forall (s : State) (g : GeneratedOutput) (current : ImageFile),
    generatedOutput s = Some g ->
    outputImage g <> "" ->
    inputImage s = Some current ->
    let continued := handleContinueEditing s in
    inputImage continued
    = Some {| base64 := outputImage g; mimeType := "image/png";
              name := "edited-result.png" |}
    /\ inputImage (handleUndo continued) = Some current
    /\ overlayImage (handleUndo continued) = None
    /\ undoHistory (handleUndo continued) = firstn 9 (undoHistory s).
Proof.
  intros s g current Hg Hout Hcur continued. subst continued.
  unfold handleContinueEditing. rewrite Hg, (ServiceMore.key_present _ Hout), Hcur.
  cbn [addImageToUndoHistory]. unfold handleUndo. cbn -[pushHistory].
  rewrite SessionFacts.pushHistory_cons. repeat split.
Qed.

Lemma continue_then_undo_restores_image_witness :
  inputImage (handleUndo (handleContinueEditing Sample.editingFull)) = Some Sample.imgA.
Proof.
  apply (continue_then_undo_restores_image Sample.editingFull Sample.enhanceResult
           Sample.imgA eq_refl ltac:(discriminate) eq_refl).
Defined.

End SlotProperties.

Section KeyProperties.

Import Types Js Wire Effects Notions RetryFacts ServiceFacts ServiceMore.

(** X25.  A reply without text makes the refinement throw: when the
    first answer to the OpenAI chat request is ok and its
    [choices[0].message.content] is missing or null, [refineTextPrompt]
    ends in the [TypeError] raised by [content.trim()] inside its
    [catch] block; when the Gemini response has no text and
    [JSON.parse] rejects "undefined", the Gemini [refineTextPrompt]
    ends likewise. *)
Theorem refine_without_text_throws :
  forall env engine (prompt context : string) (w : World),
    (forall response data choices choice,
        openaiService.API_KEY env <> "" ->
        http w (fetched w) = Ok response ->
        ok response = true ->
        json response = Ok data ->
        getProp (Some data) "choices" = Ok choices ->
        getIndex0 choices = Ok choice ->
        (getPropOpt (getPropOpt choice "message") "content" = None
         \/ getPropOpt (getPropOpt choice "message") "content" = Some JNull) ->
        exists text,
          fst (openaiService.refineTextPrompt env engine prompt context w)
          = Throw (TypeError text))
    /\ (forall response e,
           genai w (generated w) = Ok response ->
           response_text response = None ->
           JSON_parse engine "undefined" = Throw e ->
           fst (geminiService.refineTextPrompt env engine prompt context w)
           = Throw (TypeError "Cannot read properties of undefined (reading 'trim')")).
Proof.
  intros env engine prompt context w. split.
  - intros response data choices choice Hkey Hhttp Hok Hjson Hchoices Hchoice Hcontent.
    unfold openaiService.refineTextPrompt. rewrite (key_present _ Hkey). cbn [negb].
    unfold bind. rewrite (openai_fetch_answered _ _ _ Hhttp).
    unfold openaiService.rejectNotOk. rewrite Hok. cbn [negb ret].
    unfold lift. rewrite Hjson, Hchoices, Hchoice.
    destruct Hcontent as [-> | ->]; eexists; reflexivity.
  - intros response e Hanswer Htext Hparse.
    unfold geminiService.refineTextPrompt, bind, geminiService.refineCall,
      geminiService.ai_generateContent.
    rewrite (gemini_call_answered _ _ _ Hanswer).
    unfold try_catch, bind, lift, geminiService.textValue. rewrite Htext.
    cbn [toString]. rewrite Hparse. reflexivity.
Qed.

Lemma refine_without_text_throws_witness :
  exists text,
    fst (openaiService.refineTextPrompt Sample.bothKeys Sample.engine "add a tree"
           "No predefined style" (Sample.chatting JNull))
    = Throw (TypeError text).
Proof.
  apply (proj1 (refine_without_text_throws Sample.bothKeys Sample.engine "add a tree"
                  "No predefined style" (Sample.chatting JNull))
           (Sample.chatReply JNull) (Sample.chatData JNull)
           (Some (JArr [Sample.chatChoice JNull])) (Some (Sample.chatChoice JNull)));
    try reflexivity.
  - vm_compute. discriminate.
  - right. reflexivity.
Defined.

(** The key warnings: [getOpenAiApiKey] returns the value kept as
    [API_KEY] and logs its warning exactly when [OPENAI_API_KEY] is
    unset or empty; the statement run when the Gemini module is loaded
    logs its warning exactly when [API_KEY] is unset or empty. *)
Lemma key_warnings :
  forall env (w : World),
    openaiService.getOpenAiApiKey env w
    = (Ok (openaiService.API_KEY env),
       if Truthy.str (openaiService.API_KEY env) then w
       else record w [EConsole Warn "OPENAI_API_KEY environment variable not set. OpenAI calls will fail."])
    /\ geminiService.onLoad env w
       = (Ok tt,
          if Truthy.str (geminiService.API_KEY env) then w
          else record w [EConsole Warn "API_KEY environment variable not set. Using an empty key."])
    /\ (missing (env_OPENAI_API_KEY env) <-> openaiService.API_KEY env = "")
    /\ (missing (env_API_KEY env) <-> geminiService.API_KEY env = "").
Proof.
  intros env w.
  unfold openaiService.getOpenAiApiKey, openaiService.API_KEY, geminiService.onLoad,
    geminiService.API_KEY, missing.
  destruct (env_OPENAI_API_KEY env) as [[| c k] |], (env_API_KEY env) as [[| c' k'] |];
    cbn; repeat split; intros; try tauto; try congruence;
    try (destruct H; congruence).
Qed.

End KeyProperties.
